(** * Point-of-sale inventory ledger and dual-currency prices

    A shallow embedding of the transactional core of [database.py]
    ([DatabaseManager]) and of the product, sale and rate routes of
    [app.py].

    Conventions of the embedding.
    - A SQLite table is the list of its rows in insertion order; an
      [AUTOINCREMENT] key is the table's sequence counter plus one.
    - Python [float] and SQLite [REAL] values are read as exact rationals
      ([Q]); numeric facts are stated up to [==] where the code computes
      them by arithmetic, and up to [=] where it stores a value it was given.
    - A method that opens a connection, runs statements and commits is a
      function on the committed store.  [try / commit / except rollback]
      is [transaccion]: the store is replaced on success and kept on
      failure.  Lock waits and time stamps are not represented.
    - Python's [str] and [float] conversions between numbers and the text
      column [configuracion_monedas.valor] are an interface ([FloatText]).
    - A request body is a record whose absent keys are [None]; the routes
      are modelled for a caller that passed [login_required] and
      [role_required]. *)

From Stdlib Require Import ZArith QArith Qround List String Ascii Bool Lia.
From Stdlib Require Import DecimalString DecimalZ DecimalPos Permutation.
Import ListNotations.

Local Open Scope Q_scope.

(* ================================================================== *)
(** ** Numbers and rounding                                            *)
(* ================================================================== *)

(** SQLite [ROUND(x, 2)]: to two decimals, halves away from zero. *)
Definition sql_round2 (x : Q) : Q :=
  if Qle_bool 0 x
  then Qfloor (x * 100 + (1 # 2)) # 100
  else (- Qfloor ((- x) * 100 + (1 # 2)))%Z # 100.

(** Python [round(x, 2)]: to two decimals, halves to the even neighbour. *)
Definition py_round2 (x : Q) : Q :=
  let y := x * 100 in
  let f := Qfloor y in
  match Qcompare (y - inject_Z f) (1 # 2) with
  | Lt => f # 100
  | Gt => (f + 1)%Z # 100
  | Eq => (if Z.even f then f else (f + 1)%Z) # 100
  end.

(** Python truthiness of a number: [x or None], [if x]. *)
Definition truthy (x : Q) : bool := negb (Qeq_bool x 0).

(** [x > 0] on numbers. *)
Definition Qpos_bool (x : Q) : bool := negb (Qle_bool x 0).

(** Python [sum(...)] over numbers. *)
Definition Qsum (l : list Q) : Q := fold_left Qplus l 0.

(* ================================================================== *)
(** ** Text                                                            *)
(* ================================================================== *)

(** Interface for Python's [str(x)] on a number and [float(s)] on text
    ([None] stands for [ValueError]). *)
Class FloatText := {
  str_float : Q -> string;
  float_str : string -> option Q
}.

(** f-string rendering of an integer row id. *)
Definition str_int (n : Z) : string := NilZero.string_of_int (Z.to_int n).

Definition ascii_in (lo hi : nat) (c : ascii) : bool :=
  (Nat.leb lo (nat_of_ascii c) && Nat.leb (nat_of_ascii c) hi)%bool.

(** ASCII case folding, as used by SQLite [LIKE] and Python [upper]. *)
Definition lower (c : ascii) : ascii :=
  if ascii_in 65 90 c then ascii_of_nat (nat_of_ascii c + 32) else c.

Definition upper (c : ascii) : ascii :=
  if ascii_in 97 122 c then ascii_of_nat (nat_of_ascii c - 32) else c.

Fixpoint string_upper (s : string) : string :=
  match s with
  | EmptyString => EmptyString
  | String c r => String (upper c) (string_upper r)
  end.

(** Whitespace removed by [str.strip()] (ASCII range). *)
Definition is_space (c : ascii) : bool :=
  (ascii_in 9 13 c || ascii_in 28 32 c)%bool.

Fixpoint lstrip (s : string) : string :=
  match s with
  | EmptyString => EmptyString
  | String c r => if is_space c then lstrip r else s
  end.

Fixpoint rstrip (s : string) : string :=
  match s with
  | EmptyString => EmptyString
  | String c r =>
      match rstrip r with
      | EmptyString => if is_space c then EmptyString else String c EmptyString
      | r' => String c r'
      end
  end.

Definition strip (s : string) : string := rstrip (lstrip s).

Definition string_nonempty (s : string) : bool :=
  match s with EmptyString => false | _ => true end.

(** [s or None] on text. *)
Definition or_none (s : string) : option string :=
  if string_nonempty s then Some s else None.

(** SQLite [LIKE] without an [ESCAPE] clause: [%] matches any run of
    characters, [_] exactly one, everything else itself up to ASCII
    case. *)
Fixpoint like (pat : list ascii) : list ascii -> bool :=
  match pat with
  | [] => fun s => match s with [] => true | _ => false end
  | c :: pat' =>
      if Ascii.eqb c "%"%char then
        fix star (s : list ascii) : bool :=
          (like pat' s ||
           match s with [] => false | _ :: s' => star s' end)%bool
      else if Ascii.eqb c "_"%char then
        fun s => match s with [] => false | _ :: s' => like pat' s' end
      else
        fun s =>
          match s with
          | [] => false
          | d :: s' => (Ascii.eqb (lower c) (lower d) && like pat' s')%bool
          end
  end.

(** [col LIKE pattern] on a nullable text column. *)
Definition sql_like (col : option string) (pattern : string) : bool :=
  match col with
  | None => false
  | Some v => like (list_ascii_of_string pattern) (list_ascii_of_string v)
  end.

(** [col = value] on a nullable text column. *)
Definition sql_eq (col : option string) (value : string) : bool :=
  match col with
  | None => false
  | Some v => String.eqb v value
  end.

(** The pattern [f"%{termino}%"]. *)
Definition contiene (termino : string) : string :=
  ("%" ++ termino ++ "%")%string.

(* ================================================================== *)
(** ** Tables                                                          *)
(* ================================================================== *)

(** A row of [productos]. *)
Record producto := {
  id : Z;
  codigo_barras : option string;
  nombre : string;
  descripcion : option string;
  categoria_id : option Z;
  precio_venta : Q;
  precio_compra : option Q;
  precio_venta_usd : option Q;
  precio_compra_usd : option Q;
  stock_actual : Q;
  stock_minimo : Q;
  tasa_camb : Q;
  activo : bool;
  vende_al_mayor : bool;
  unidades_por_bulto : option Z
}.

(** A row of [categorias]. *)
Record categoria := {
  cat_id : Z;
  cat_nombre : string;
  cat_activo : bool
}.

(** A row of [ventas]. *)
Record venta := {
  v_id : Z;
  v_cliente_id : option Z;
  v_subtotal : Q;
  v_impuesto : Q;
  v_descuento : Q;
  v_total : Q;
  v_metodo_pago : string;
  v_notas : string
}.

(** A row of [detalle_ventas]. *)
Record detalle_venta := {
  dv_venta_id : Z;
  dv_producto_id : Z;
  dv_cantidad : Q;
  dv_precio_unitario : Q;
  dv_subtotal : Q
}.

(** A row of [compras]. *)
Record compra := {
  c_id : Z;
  c_proveedor_id : Z;
  c_documento : string;
  c_fecha_compra : string;
  c_tasa_cambio : Q;
  c_subtotal_ves : Q;
  c_total_ves : Q;
  c_notas : string
}.

(** A row of [detalle_compras]. *)
Record detalle_compra := {
  dc_compra_id : Z;
  dc_producto_id : Z;
  dc_cantidad : Q;
  dc_precio_unitario_usd : Q;
  dc_precio_unitario_ves : Q;
  dc_subtotal_ves : Q
}.

(** The [tipo_movimiento] column: ['entrada'], ['salida'], ['ajuste']. *)
Inductive tipo_movimiento := entrada | salida | ajuste.

(** A row of [movimientos_inventario]. *)
Record movimiento := {
  mi_producto_id : Z;
  mi_tipo_movimiento : tipo_movimiento;
  mi_cantidad : Q;
  mi_cantidad_anterior : Q;
  mi_cantidad_nueva : Q;
  mi_motivo : string;
  mi_usuario : string
}.

(** A row of [pagos_documentos]. *)
Record pago_documento := {
  pd_id : Z;
  pd_venta_id : Z;
  pd_numero_documento : option string;
  pd_tipo_pago : string;
  pd_monto_pagado : Q;
  pd_moneda_pago : string;
  pd_tasa_cambio : Q;
  pd_monto_equivalente_usd : Q;
  pd_detalles_pago : string
}.

(** The committed database: the tables the ledger reads and writes, and
    the [sqlite_sequence] counters of the tables whose keys are used. *)
Record store := {
  productos : list producto;
  seq_productos : Z;
  categorias : list categoria;
  ventas : list venta;
  seq_ventas : Z;
  detalle_ventas : list detalle_venta;
  compras : list compra;
  seq_compras : Z;
  detalle_compras : list detalle_compra;
  movimientos_inventario : list movimiento;
  pagos_documentos : list pago_documento;
  seq_pagos : Z;
  configuracion_monedas : list (string * string)
}.

Definition set_productos (f : list producto -> list producto) (s : store) : store :=
  {| productos := f (productos s); seq_productos := seq_productos s;
     categorias := categorias s;
     ventas := ventas s; seq_ventas := seq_ventas s;
     detalle_ventas := detalle_ventas s;
     compras := compras s; seq_compras := seq_compras s;
     detalle_compras := detalle_compras s;
     movimientos_inventario := movimientos_inventario s;
     pagos_documentos := pagos_documentos s; seq_pagos := seq_pagos s;
     configuracion_monedas := configuracion_monedas s |}.

Definition set_movimientos (f : list movimiento -> list movimiento) (s : store) : store :=
  {| productos := productos s; seq_productos := seq_productos s;
     categorias := categorias s;
     ventas := ventas s; seq_ventas := seq_ventas s;
     detalle_ventas := detalle_ventas s;
     compras := compras s; seq_compras := seq_compras s;
     detalle_compras := detalle_compras s;
     movimientos_inventario := f (movimientos_inventario s);
     pagos_documentos := pagos_documentos s; seq_pagos := seq_pagos s;
     configuracion_monedas := configuracion_monedas s |}.

Definition set_configuracion (f : list (string * string) -> list (string * string))
    (s : store) : store :=
  {| productos := productos s; seq_productos := seq_productos s;
     categorias := categorias s;
     ventas := ventas s; seq_ventas := seq_ventas s;
     detalle_ventas := detalle_ventas s;
     compras := compras s; seq_compras := seq_compras s;
     detalle_compras := detalle_compras s;
     movimientos_inventario := movimientos_inventario s;
     pagos_documentos := pagos_documentos s; seq_pagos := seq_pagos s;
     configuracion_monedas := f (configuracion_monedas s) |}.

(* ================================================================== *)
(** ** Exceptions and units of work                                    *)
(* ================================================================== *)

(** The exceptions the modelled code raises. *)
Inductive exn :=
| TypeError_None_subscript
    (* [cursor.fetchone()[0]] when the SELECT found no row *)
| Exception_msg (msg : string)
    (* [raise Exception(msg)] *)
| IntegrityError (msg : string)
    (* [sqlite3.IntegrityError], a UNIQUE constraint *)
| ValueError (msg : string).
    (* [float(text)] on text that is not a number *)

(** [str(e)]. *)
Definition str_exn (e : exn) : string :=
  match e with
  | TypeError_None_subscript => "'NoneType' object is not subscriptable"
  | Exception_msg m => m
  | IntegrityError m => m
  | ValueError m => m
  end.

(** Statements running on an open connection: they see and change the
    uncommitted store, or raise. *)
Definition tx (A : Type) : Type := store -> exn + (A * store).

Definition ret {A} (a : A) : tx A := fun s => inr (a, s).

Definition bind {A B} (m : tx A) (k : A -> tx B) : tx B :=
  fun s => match m s with
           | inl e => inl e
           | inr (a, s') => k a s'
           end.

Definition raise {A} (e : exn) : tx A := fun _ => inl e.

Definition consulta {A} (q : store -> A) : tx A := fun s => inr (q s, s).

Definition ejecuta (f : store -> store) : tx unit := fun s => inr (tt, f s).

Notation "x <- m ;; k" := (bind m (fun x => k))
  (at level 61, m at next level, right associativity).
Notation "m ;;; k" := (bind m (fun _ => k))
  (at level 61, right associativity).

(** [for x in xs: body(x)]. *)
Fixpoint for_each {A} (body : A -> tx unit) (xs : list A) : tx unit :=
  match xs with
  | [] => ret tt
  | x :: r => body x ;;; for_each body r
  end.

(** [try: ...; conn.commit(); return r / except: conn.rollback(); raise]. *)
Definition transaccion {A} (m : tx A) (s : store) : (exn + A) * store :=
  match m s with
  | inl e => (inl e, s)
  | inr (a, s') => (inr a, s')
  end.

(* ================================================================== *)
(** ** Statements on [productos] and [movimientos_inventario]          *)
(* ================================================================== *)

(** [SELECT ... FROM productos WHERE id = ?], [fetchone()]. *)
Definition select_producto (pid : Z) (s : store) : option producto :=
  find (fun p => Z.eqb (id p) pid) (productos s).

(** [SELECT stock_actual FROM productos WHERE id = ?], [fetchone()]. *)
Definition select_stock_actual (pid : Z) (s : store) : option Q :=
  option_map stock_actual (select_producto pid s).

(** [UPDATE productos SET ... WHERE id = ?]. *)
Definition update_producto (pid : Z) (f : producto -> producto) : store -> store :=
  set_productos (map (fun p => if Z.eqb (id p) pid then f p else p)).

Definition con_stock (q : Q) (p : producto) : producto :=
  {| id := id p; codigo_barras := codigo_barras p; nombre := nombre p;
     descripcion := descripcion p; categoria_id := categoria_id p;
     precio_venta := precio_venta p; precio_compra := precio_compra p;
     precio_venta_usd := precio_venta_usd p;
     precio_compra_usd := precio_compra_usd p;
     stock_actual := q; stock_minimo := stock_minimo p;
     tasa_camb := tasa_camb p; activo := activo p;
     vende_al_mayor := vende_al_mayor p;
     unidades_por_bulto := unidades_por_bulto p |}.

(** [SET precio_compra_usd = ?, precio_compra = ?, tasa_camb = ?]. *)
Definition con_costo (usd ves tasa : Q) (p : producto) : producto :=
  {| id := id p; codigo_barras := codigo_barras p; nombre := nombre p;
     descripcion := descripcion p; categoria_id := categoria_id p;
     precio_venta := precio_venta p; precio_compra := Some ves;
     precio_venta_usd := precio_venta_usd p;
     precio_compra_usd := Some usd;
     stock_actual := stock_actual p; stock_minimo := stock_minimo p;
     tasa_camb := tasa; activo := activo p;
     vende_al_mayor := vende_al_mayor p;
     unidades_por_bulto := unidades_por_bulto p |}.

(** [SET activo = 0]. *)
Definition desactivado (p : producto) : producto :=
  {| id := id p; codigo_barras := codigo_barras p; nombre := nombre p;
     descripcion := descripcion p; categoria_id := categoria_id p;
     precio_venta := precio_venta p; precio_compra := precio_compra p;
     precio_venta_usd := precio_venta_usd p;
     precio_compra_usd := precio_compra_usd p;
     stock_actual := stock_actual p; stock_minimo := stock_minimo p;
     tasa_camb := tasa_camb p; activo := false;
     vende_al_mayor := vende_al_mayor p;
     unidades_por_bulto := unidades_por_bulto p |}.

(** [UPDATE productos SET stock_actual = ? WHERE id = ?]. *)
Definition update_stock (pid : Z) (q : Q) : store -> store :=
  update_producto pid (con_stock q).

(** [INSERT INTO movimientos_inventario (...) VALUES (...)]. *)
Definition insert_movimiento (m : movimiento) : store -> store :=
  set_movimientos (fun l => l ++ [m]).

(** [registrar_movimiento_inventario] called with the caller's cursor:
    the row is written inside the caller's unit of work. *)
Definition registrar_movimiento_inventario
    (producto_id : Z) (tipo : tipo_movimiento)
    (cantidad cantidad_anterior cantidad_nueva : Q)
    (motivo usuario : string) : tx unit :=
  ejecuta (insert_movimiento
    {| mi_producto_id := producto_id; mi_tipo_movimiento := tipo;
       mi_cantidad := cantidad; mi_cantidad_anterior := cantidad_anterior;
       mi_cantidad_nueva := cantidad_nueva;
       mi_motivo := motivo; mi_usuario := usuario |}).

(** A UNIQUE violation on [codigo_barras]: some row other than
    [excepto] already carries the code (NULL never collides). *)
Definition codigo_en_uso (codigo : option string) (excepto : option Z)
    (s : store) : bool :=
  match codigo with
  | None => false
  | Some c =>
      existsb (fun p =>
        (sql_eq (codigo_barras p) c &&
         match excepto with
         | Some pid => negb (Z.eqb (id p) pid)
         | None => true
         end)%bool) (productos s)
  end.

Definition unique_codigo : exn :=
  IntegrityError "UNIQUE constraint failed: productos.codigo_barras".

(** [INSERT INTO productos (...)]: the row gets the next key;
    [cursor.lastrowid] is returned. *)
Definition insert_producto (fila : Z -> producto) : tx Z :=
  fun s =>
    let pid := (seq_productos s + 1)%Z in
    if codigo_en_uso (codigo_barras (fila pid)) None s then inl unique_codigo
    else inr (pid,
      {| productos := productos s ++ [fila pid]; seq_productos := pid;
         categorias := categorias s;
         ventas := ventas s; seq_ventas := seq_ventas s;
         detalle_ventas := detalle_ventas s;
         compras := compras s; seq_compras := seq_compras s;
         detalle_compras := detalle_compras s;
         movimientos_inventario := movimientos_inventario s;
         pagos_documentos := pagos_documentos s; seq_pagos := seq_pagos s;
         configuracion_monedas := configuracion_monedas s |}).

(* ================================================================== *)
(** ** Sales: [crear_venta]                                            *)
(* ================================================================== *)

(** An entry of [items_venta]. *)
Record item_venta := {
  iv_producto_id : Z;
  iv_cantidad : Q;
  iv_precio_unitario : Q
}.

(** [INSERT INTO ventas (...)], returning [cursor.lastrowid]. *)
Definition insert_venta (cliente_id : option Z)
    (subtotal impuesto descuento total : Q) (metodo_pago notas : string) : tx Z :=
  fun s =>
    let vid := (seq_ventas s + 1)%Z in
    inr (vid,
      {| productos := productos s; seq_productos := seq_productos s;
         categorias := categorias s;
         ventas := ventas s ++
           [{| v_id := vid; v_cliente_id := cliente_id;
               v_subtotal := subtotal; v_impuesto := impuesto;
               v_descuento := descuento; v_total := total;
               v_metodo_pago := metodo_pago; v_notas := notas |}];
         seq_ventas := vid;
         detalle_ventas := detalle_ventas s;
         compras := compras s; seq_compras := seq_compras s;
         detalle_compras := detalle_compras s;
         movimientos_inventario := movimientos_inventario s;
         pagos_documentos := pagos_documentos s; seq_pagos := seq_pagos s;
         configuracion_monedas := configuracion_monedas s |}).

(** [INSERT INTO detalle_ventas (...)]. *)
Definition insert_detalle_venta (d : detalle_venta) (s : store) : store :=
  {| productos := productos s; seq_productos := seq_productos s;
     categorias := categorias s;
     ventas := ventas s; seq_ventas := seq_ventas s;
     detalle_ventas := detalle_ventas s ++ [d];
     compras := compras s; seq_compras := seq_compras s;
     detalle_compras := detalle_compras s;
     movimientos_inventario := movimientos_inventario s;
     pagos_documentos := pagos_documentos s; seq_pagos := seq_pagos s;
     configuracion_monedas := configuracion_monedas s |}.

(** The movement row written for a sold line. *)
Definition movimiento_venta (venta_id : Z) (item : item_venta)
    (stock_anterior stock_nuevo : Q) : movimiento :=
  {| mi_producto_id := iv_producto_id item; mi_tipo_movimiento := salida;
     mi_cantidad := iv_cantidad item;
     mi_cantidad_anterior := stock_anterior;
     mi_cantidad_nueva := stock_nuevo;
     mi_motivo := ("Venta #" ++ str_int venta_id)%string;
     mi_usuario := "Sistema" |}.

(** Body of the loop over [items_venta]. *)
Definition venta_item (venta_id : Z) (item : item_venta) : tx unit :=
  ejecuta (insert_detalle_venta
    {| dv_venta_id := venta_id; dv_producto_id := iv_producto_id item;
       dv_cantidad := iv_cantidad item;
       dv_precio_unitario := iv_precio_unitario item;
       dv_subtotal := iv_cantidad item * iv_precio_unitario item |}) ;;;
  fila <- consulta (select_stock_actual (iv_producto_id item)) ;;
  match fila with
  | None => raise TypeError_None_subscript
  | Some stock_anterior =>
      let stock_nuevo := stock_anterior - iv_cantidad item in
      ejecuta (update_stock (iv_producto_id item) stock_nuevo) ;;;
      ejecuta (insert_movimiento
        (movimiento_venta venta_id item stock_anterior stock_nuevo))
  end.

Definition crear_venta (items_venta : list item_venta) (cliente_id : option Z)
    (metodo_pago : string) (descuento impuesto : Q) (notas : string)
    : store -> (exn + Z) * store :=
  transaccion
    (let subtotal :=
       Qsum (map (fun item => iv_cantidad item * iv_precio_unitario item)
                 items_venta) in
     let total := subtotal + impuesto - descuento in
     venta_id <- insert_venta cliente_id subtotal impuesto descuento total
                   metodo_pago notas ;;
     for_each (venta_item venta_id) items_venta ;;;
     ret venta_id).

(* ================================================================== *)
(** ** Purchases: [crear_compra]                                       *)
(* ================================================================== *)

(** An entry of [items]; [precio_unitario_usd] may be absent. *)
Record item_compra := {
  ic_producto_id : Z;
  ic_cantidad : Q;
  ic_precio_unitario_usd : option Q
}.

(** [it.get('precio_unitario_usd', 0.0) or 0.0]. *)
Definition precio_usd_de (it : item_compra) : Q :=
  match ic_precio_unitario_usd it with
  | Some x => if truthy x then x else 0
  | None => 0
  end.

(** [INSERT INTO compras (...)], returning [cursor.lastrowid]. *)
Definition insert_compra (proveedor_id : Z) (documento fecha_compra : string)
    (tasa_cambio subtotal_ves total_ves : Q) (notas : string) : tx Z :=
  fun s =>
    let cid := (seq_compras s + 1)%Z in
    inr (cid,
      {| productos := productos s; seq_productos := seq_productos s;
         categorias := categorias s;
         ventas := ventas s; seq_ventas := seq_ventas s;
         detalle_ventas := detalle_ventas s;
         compras := compras s ++
           [{| c_id := cid; c_proveedor_id := proveedor_id;
               c_documento := documento; c_fecha_compra := fecha_compra;
               c_tasa_cambio := tasa_cambio; c_subtotal_ves := subtotal_ves;
               c_total_ves := total_ves; c_notas := notas |}];
         seq_compras := cid;
         detalle_compras := detalle_compras s;
         movimientos_inventario := movimientos_inventario s;
         pagos_documentos := pagos_documentos s; seq_pagos := seq_pagos s;
         configuracion_monedas := configuracion_monedas s |}).

(** [INSERT INTO detalle_compras (...)]. *)
Definition insert_detalle_compra (d : detalle_compra) (s : store) : store :=
  {| productos := productos s; seq_productos := seq_productos s;
     categorias := categorias s;
     ventas := ventas s; seq_ventas := seq_ventas s;
     detalle_ventas := detalle_ventas s;
     compras := compras s; seq_compras := seq_compras s;
     detalle_compras := detalle_compras s ++ [d];
     movimientos_inventario := movimientos_inventario s;
     pagos_documentos := pagos_documentos s; seq_pagos := seq_pagos s;
     configuracion_monedas := configuracion_monedas s |}.

(** The movement row written for a purchased line. *)
Definition movimiento_compra (compra_id : Z) (it : item_compra)
    (stock_anterior stock_nuevo : Q) : movimiento :=
  {| mi_producto_id := ic_producto_id it; mi_tipo_movimiento := entrada;
     mi_cantidad := ic_cantidad it;
     mi_cantidad_anterior := stock_anterior;
     mi_cantidad_nueva := stock_nuevo;
     mi_motivo := ("Compra #" ++ str_int compra_id)%string;
     mi_usuario := "Sistema" |}.

(** Body of the second loop over [items]. *)
Definition compra_item (compra_id : Z) (tasa_cambio : Q) (it : item_compra)
    : tx unit :=
  let prod_id := ic_producto_id it in
  let cant := ic_cantidad it in
  let precio_usd := precio_usd_de it in
  let precio_ves := py_round2 (precio_usd * tasa_cambio) in
  let subtotal_item_ves := py_round2 (precio_ves * cant) in
  ejecuta (insert_detalle_compra
    {| dc_compra_id := compra_id; dc_producto_id := prod_id;
       dc_cantidad := cant; dc_precio_unitario_usd := precio_usd;
       dc_precio_unitario_ves := precio_ves;
       dc_subtotal_ves := subtotal_item_ves |}) ;;;
  ejecuta (update_producto prod_id (con_costo precio_usd precio_ves tasa_cambio)) ;;;
  row <- consulta (select_stock_actual prod_id) ;;
  match row with
  | None =>
      raise (Exception_msg
        ("Producto id " ++ str_int prod_id ++ " no encontrado")%string)
  | Some stock_anterior =>
      let stock_nuevo := stock_anterior + cant in
      ejecuta (update_stock prod_id stock_nuevo) ;;;
      ejecuta (insert_movimiento
        (movimiento_compra compra_id it stock_anterior stock_nuevo))
  end.

Definition crear_compra (proveedor_id : Z) (documento fecha_compra : string)
    (tasa_cambio : Q) (items : list item_compra) (notas : string)
    : store -> (exn + Z) * store :=
  transaccion
    (let subtotal_ves :=
       fold_left (fun acc it =>
         let precio_ves := py_round2 (precio_usd_de it * tasa_cambio) in
         acc + py_round2 (precio_ves * ic_cantidad it)) items 0 in
     let total_ves := subtotal_ves in
     compra_id <- insert_compra proveedor_id documento fecha_compra
                    tasa_cambio subtotal_ves total_ves notas ;;
     for_each (compra_item compra_id tasa_cambio) items ;;;
     ret compra_id).

(* ================================================================== *)
(** ** Catalog writes in [database.py]                                 *)
(* ================================================================== *)

(** [agregar_producto]: the columns not listed in the INSERT take their
    schema defaults. *)
Definition agregar_producto (codigo : option string) (nom : string)
    (descr : option string) (categoria : option Z)
    (precio_v : Q) (precio_c : option Q) (stock_inicial stock_min : Q)
    (s : store) : (exn + Z) * store :=
  match
    transaccion
      (producto_id <- insert_producto (fun pid =>
          {| id := pid; codigo_barras := codigo; nombre := nom;
             descripcion := descr; categoria_id := categoria;
             precio_venta := precio_v; precio_compra := precio_c;
             precio_venta_usd := None; precio_compra_usd := None;
             stock_actual := stock_inicial; stock_minimo := stock_min;
             tasa_camb := 36.50; activo := true;
             vende_al_mayor := false; unidades_por_bulto := None |}) ;;
       (if Qpos_bool stock_inicial
        then registrar_movimiento_inventario producto_id entrada
               stock_inicial 0 stock_inicial "Stock inicial" "Sistema"
        else ret tt) ;;;
       ret producto_id) s
  with
  | (inl (IntegrityError _), s') =>
      (inl (Exception_msg "El código de barras ya existe"), s')
  | r => r
  end.

(** [actualizar_stock_producto]: the stock adjustment. *)
Definition actualizar_stock_producto (producto_id : Z) (cantidad_sumar : Q)
    (motivo usuario : string) : store -> (exn + Q) * store :=
  transaccion
    (resultado <- consulta (select_stock_actual producto_id) ;;
     match resultado with
     | None =>
         raise (Exception_msg
           ("Producto con id " ++ str_int producto_id ++ " no encontrado")%string)
     | Some stock_anterior =>
         let stock_nuevo := stock_anterior + cantidad_sumar in
         ejecuta (update_stock producto_id stock_nuevo) ;;;
         registrar_movimiento_inventario producto_id entrada cantidad_sumar
           stock_anterior stock_nuevo motivo usuario ;;;
         ret stock_nuevo
     end).

(* ================================================================== *)
(** ** Payments: [registrar_pago_documento]                            *)
(* ================================================================== *)

(** [registrar_pago_documento], one unit of work per payment. *)
Definition registrar_pago_documento (venta_id : Z)
    (numero_documento : option string) (tipo_pago : string)
    (monto_pagado : Q) (moneda_pago : string) (tasa_cambio : Q)
    (detalles_pago : string) : store -> (exn + Z) * store :=
  transaccion
    (let monto_equivalente_usd :=
       if String.eqb (string_upper moneda_pago) "USD" then monto_pagado
       else if Qpos_bool tasa_cambio then monto_pagado / tasa_cambio else 0 in
     fun s =>
       let pago_id := (seq_pagos s + 1)%Z in
       inr (pago_id,
         {| productos := productos s; seq_productos := seq_productos s;
            categorias := categorias s;
            ventas := ventas s; seq_ventas := seq_ventas s;
            detalle_ventas := detalle_ventas s;
            compras := compras s; seq_compras := seq_compras s;
            detalle_compras := detalle_compras s;
            movimientos_inventario := movimientos_inventario s;
            pagos_documentos := pagos_documentos s ++
              [{| pd_id := pago_id; pd_venta_id := venta_id;
                  pd_numero_documento := numero_documento;
                  pd_tipo_pago := tipo_pago;
                  pd_monto_pagado := monto_pagado;
                  pd_moneda_pago := moneda_pago;
                  pd_tasa_cambio := tasa_cambio;
                  pd_monto_equivalente_usd := monto_equivalente_usd;
                  pd_detalles_pago := detalles_pago |}];
            seq_pagos := pago_id;
            configuracion_monedas := configuracion_monedas s |})).

(* ================================================================== *)
(** ** The sale route: [api_crear_venta]                               *)
(* ================================================================== *)

(** A JSON response of the routes: body fields and HTTP status. *)
Record respuesta := {
  r_success : bool;
  r_id : option Z;
  r_error : option string;
  r_status : Z
}.

Definition respuesta_ok (i : option Z) : respuesta :=
  {| r_success := true; r_id := i; r_error := None; r_status := 200 |}.

Definition respuesta_error (msg : string) : respuesta :=
  {| r_success := false; r_id := None; r_error := Some msg; r_status := 400 |}.

Definition o_default {A} (d : A) (o : option A) : A :=
  match o with Some a => a | None => d end.

(** An entry of the request's ['pagos'] list; absent keys are [None],
    [pg_detalles] is the serialised ['detalles'] object. *)
Record pago := {
  pg_numero_documento : option string;
  pg_tipo_pago : option string;
  pg_monto_pagado : option Q;
  pg_moneda_pago : option string;
  pg_tasa_cambio : option Q;
  pg_detalles : string
}.

(** The request body of [POST /api/venta]; absent keys are [None] or
    the empty list. *)
Record datos_venta := {
  req_items : list item_venta;
  req_cliente_id : option Z;
  req_metodo_pago : option string;
  req_descuento : option Q;
  req_impuesto : option Q;
  req_notas : option string;
  req_pagos : list pago
}.

(** [for pago in pagos: db.registrar_pago_documento(...)]. *)
Fixpoint registrar_pagos (venta_id : Z) (l : list pago) (s : store)
    : (exn + unit) * store :=
  match l with
  | [] => (inr tt, s)
  | pg :: r =>
      match registrar_pago_documento venta_id (pg_numero_documento pg)
              (o_default "efectivo"%string (pg_tipo_pago pg))
              (o_default 0 (pg_monto_pagado pg))
              (o_default "USD"%string (pg_moneda_pago pg))
              (o_default 1 (pg_tasa_cambio pg))
              (pg_detalles pg) s with
      | (inl e, s') => (inl e, s')
      | (inr _, s') => registrar_pagos venta_id r s'
      end
  end.

Definition api_crear_venta (data : datos_venta) (s : store) : respuesta * store :=
  match req_items data with
  | [] => (respuesta_error "El carrito está vacío", s)
  | items_venta =>
      match crear_venta items_venta (req_cliente_id data)
              (o_default "efectivo"%string (req_metodo_pago data))
              (o_default 0 (req_descuento data)) (o_default 0 (req_impuesto data))
              (o_default ""%string (req_notas data)) s with
      | (inl e, s') => (respuesta_error (str_exn e), s')
      | (inr venta_id, s') =>
          match registrar_pagos venta_id (req_pagos data) s' with
          | (inl e, s'') => (respuesta_error (str_exn e), s'')
          | (inr _, s'') => (respuesta_ok (Some venta_id), s'')
          end
      end
  end.

(* ================================================================== *)
(** ** Currency configuration and price recomputation                  *)
(* ================================================================== *)

(** [SELECT valor FROM configuracion_monedas WHERE nombre = ?]. *)
Definition get_configuracion_moneda (nom : string) (s : store) : option string :=
  option_map snd (find (fun fila => String.eqb (fst fila) nom)
                       (configuracion_monedas s)).

(** [UPDATE configuracion_monedas SET valor = ? WHERE nombre = ?], commit. *)
Definition actualizar_configuracion_moneda (nom valor : string) : store -> store :=
  set_configuracion
    (map (fun fila => if String.eqb (fst fila) nom then (fst fila, valor) else fila)).

(** The row update of [recalcular_precios_ves]; rows outside the WHERE
    clause are left as they are. *)
Definition recalcula_fila (tasa : Q) (p : producto) : producto :=
  match precio_venta_usd p, precio_compra_usd p with
  | Some venta_usd, Some compra_usd =>
      {| id := id p; codigo_barras := codigo_barras p; nombre := nombre p;
         descripcion := descripcion p; categoria_id := categoria_id p;
         precio_venta := sql_round2 (venta_usd * tasa);
         precio_compra := Some (sql_round2 (compra_usd * tasa));
         precio_venta_usd := precio_venta_usd p;
         precio_compra_usd := precio_compra_usd p;
         stock_actual := stock_actual p; stock_minimo := stock_minimo p;
         tasa_camb := tasa; activo := activo p;
         vende_al_mayor := vende_al_mayor p;
         unidades_por_bulto := unidades_por_bulto p |}
  | _, _ => p
  end.

(** [cursor.rowcount] of that UPDATE. *)
Definition filas_recalculadas (s : store) : Z :=
  Z.of_nat (List.length (filter (fun p =>
    match precio_venta_usd p, precio_compra_usd p with
    | Some _, Some _ => true
    | _, _ => false
    end) (productos s))).

Section Moneda.
Context {FT : FloatText}.

Definition get_tasa_cambio (s : store) : exn + Q :=
  match get_configuracion_moneda "tasa_usd_ves" s with
  | Some tasa =>
      if string_nonempty tasa then
        match float_str tasa with
        | Some x => inr x
        | None => inl (ValueError "could not convert string to float")
        end
      else inr 36.50
  | None => inr 36.50
  end.

Definition recalcular_precios_ves (nueva_tasa : option Q) (s : store)
    : (exn + Z) * store :=
  match (match nueva_tasa with
         | Some t => inr t
         | None => get_tasa_cambio s
         end) with
  | inl e => (inl e, s)
  | inr tasa =>
      transaccion
        (productos_actualizados <- consulta filas_recalculadas ;;
         ejecuta (set_productos (map (recalcula_fila tasa))) ;;;
         ret productos_actualizados) s
  end.

(** The units of work of [actualizar_tasa_cambio], in the order they
    run: each opens its own connection and commits on its own. *)
Definition actualizar_tasa_cambio_pasos (nueva_tasa : Q) : list (store -> store) :=
  [ actualizar_configuracion_moneda "tasa_usd_ves" (str_float nueva_tasa);
    fun s => snd (recalcular_precios_ves (Some nueva_tasa) s) ].

Definition actualizar_tasa_cambio (nueva_tasa : Q) (s : store) : store :=
  fold_left (fun s' paso => paso s') (actualizar_tasa_cambio_pasos nueva_tasa) s.

(** [POST /api/tasa-cambio]; [tasa] is the body's ['tasa'] key. *)
Definition api_tasa_cambio_post (tasa : option Q) (s : store) : respuesta * store :=
  let nueva_tasa := o_default 0 tasa in
  if Qpos_bool nueva_tasa
  then (respuesta_ok None, actualizar_tasa_cambio nueva_tasa s)
  else (respuesta_error "Tasa inválida", s).

End Moneda.

(** The committed states a reader connection can see while a list of
    units of work runs: the state before, and the state after each
    commit. *)
Fixpoint estados_confirmados (pasos : list (store -> store)) (s : store)
    : list store :=
  s :: match pasos with
       | [] => []
       | paso :: r => estados_confirmados r (paso s)
       end.

(* ================================================================== *)
(** ** The product routes: [api_producto], [api_crear_producto]        *)
(* ================================================================== *)

(** The request body of the product routes; an absent key is [None].
    The optional columns [tipo_producto], [marca], [color] and
    [unidad_medida_mayor] are not in the schema [init_database] creates,
    so the routes' branches for them are not taken. *)
Record datos_producto := {
  d_codigo_barras : option string;
  d_nombre : option string;
  d_descripcion : option string;
  d_categoria_id : option Z;
  d_precio_venta_usd : option Q;
  d_precio_compra_usd : option Q;
  d_stock_actual : option Q;
  d_stock_minimo : option Q;
  d_vende_al_mayor : bool;
  d_unidades_por_bulto : option Z
}.

(** [float(x) or None]. *)
Definition num_or_none (x : Q) : option Q := if truthy x then Some x else None.

(** [int(data.get('categoria_id')) if data.get('categoria_id') else None]. *)
Definition categoria_de_datos (data : datos_producto) : option Z :=
  match d_categoria_id data with
  | Some c => if Z.eqb c 0 then None else Some c
  | None => None
  end.

(** [data.get(k, '').strip() or None]. *)
Definition texto_o_none (o : option string) : option string :=
  or_none (strip (o_default ""%string o)).

Section RutasProducto.
Context {FT : FloatText}.

(** The values both routes derive from the body and the current rate:
    the local sell price and the foreign and local purchase cost. *)
Definition precios_de_datos (data : datos_producto) (tasa : Q)
    : Q * option Q * option Q :=
  let precio_venta_ves := py_round2 (o_default 0 (d_precio_venta_usd data) * tasa) in
  let precio_compra_usd := num_or_none (o_default 0 (d_precio_compra_usd data)) in
  let precio_compra_ves :=
    match precio_compra_usd with
    | Some usd => Some (py_round2 (usd * tasa))
    | None => None
    end in
  (precio_venta_ves, precio_compra_usd, precio_compra_ves).

(** The SET list of the route's UPDATE. *)
Definition fila_put (data : datos_producto) (tasa : Q) (p : producto) : producto :=
  let '(precio_venta_ves, precio_compra_usd, precio_compra_ves) :=
    precios_de_datos data tasa in
  {| id := id p;
     codigo_barras := texto_o_none (d_codigo_barras data);
     nombre := strip (o_default ""%string (d_nombre data));
     descripcion := texto_o_none (d_descripcion data);
     categoria_id := categoria_de_datos data;
     precio_venta := precio_venta_ves;
     precio_compra :=
       match precio_compra_ves with
       | Some v => num_or_none v
       | None => None
       end;
     precio_venta_usd := Some (o_default 0 (d_precio_venta_usd data));
     precio_compra_usd := precio_compra_usd;
     stock_actual := o_default 0 (d_stock_actual data);
     stock_minimo := o_default 0 (d_stock_minimo data);
     tasa_camb := tasa_camb p; activo := activo p;
     vende_al_mayor := d_vende_al_mayor data;
     unidades_por_bulto :=
       if d_vende_al_mayor data
       then Some (o_default 1%Z (d_unidades_por_bulto data))
       else None |}.

Definition api_producto_put (producto_id : Z) (data : datos_producto)
    (s : store) : respuesta * store :=
  match
    transaccion
      (t <- consulta get_tasa_cambio ;;
       match t with
       | inl e => raise e
       | inr tasa =>
           fila <- consulta (select_producto producto_id) ;;
           match fila with
           | None => ret tt
           | Some _ =>
               choca <- consulta (codigo_en_uso
                          (texto_o_none (d_codigo_barras data)) (Some producto_id)) ;;
               if (choca : bool) then raise unique_codigo
               else ejecuta (update_producto producto_id (fila_put data tasa))
           end
       end) s
  with
  | (inl e, s') => (respuesta_error (str_exn e), s')
  | (inr _, s') => (respuesta_ok None, s')
  end.

Definition api_producto_delete (producto_id : Z) (s : store) : respuesta * store :=
  (respuesta_ok None, update_producto producto_id desactivado s).

Definition api_crear_producto (data : datos_producto) (s : store)
    : respuesta * store :=
  match
    transaccion
      (t <- consulta get_tasa_cambio ;;
       match t with
       | inl e => raise e
       | inr tasa =>
           let '(precio_venta_ves, precio_compra_usd, precio_compra_ves) :=
             precios_de_datos data tasa in
           producto_id <- insert_producto (fun pid =>
             {| id := pid;
                codigo_barras := texto_o_none (d_codigo_barras data);
                nombre := strip (o_default ""%string (d_nombre data));
                descripcion := texto_o_none (d_descripcion data);
                categoria_id := categoria_de_datos data;
                precio_venta := precio_venta_ves;
                precio_compra := precio_compra_ves;
                precio_venta_usd := Some (o_default 0 (d_precio_venta_usd data));
                precio_compra_usd := precio_compra_usd;
                stock_actual := o_default 0 (d_stock_actual data);
                stock_minimo := o_default 0 (d_stock_minimo data);
                tasa_camb := 36.50; activo := true;
                vende_al_mayor := d_vende_al_mayor data;
                unidades_por_bulto :=
                  if d_vende_al_mayor data
                  then Some (o_default 1%Z (d_unidades_por_bulto data))
                  else None |}) ;;
           let stock_inicial := o_default 0 (d_stock_actual data) in
           (if Qpos_bool stock_inicial
            then registrar_movimiento_inventario producto_id entrada
                   stock_inicial 0 stock_inicial "Stock inicial" "Sistema"
            else ret tt) ;;;
           ret producto_id
       end) s
  with
  | (inl e, s') => (respuesta_error (str_exn e), s')
  | (inr producto_id, s') => (respuesta_ok (Some producto_id), s')
  end.

End RutasProducto.

(* ================================================================== *)
(** ** Search: [buscar_productos]                                      *)
(* ================================================================== *)

(** An ORDER BY key: the CASE rank, then [p.nombre]. *)
Definition clave := (nat * string)%type.

Definition clave_leb (a b : clave) : bool :=
  (Nat.ltb (fst a) (fst b) ||
   (Nat.eqb (fst a) (fst b) && String.leb (snd a) (snd b)))%bool.

(** [ORDER BY] as a stable insertion sort: rows with equal keys stay in
    table order. *)
Fixpoint insertar (key : producto -> clave) (p : producto) (l : list producto)
    : list producto :=
  match l with
  | [] => [p]
  | q :: r => if clave_leb (key p) (key q) then p :: l
              else q :: insertar key p r
  end.

Definition order_by (key : producto -> clave) (l : list producto) : list producto :=
  fold_right (insertar key) [] l.

(** [LEFT JOIN categorias c ON p.categoria_id = c.id], column [c.nombre]. *)
Definition categoria_de (s : store) (p : producto) : option string :=
  match categoria_id p with
  | None => None
  | Some c => option_map cat_nombre
                (find (fun k => Z.eqb (cat_id k) c) (categorias s))
  end.

(** A result row: the product columns and the category name. *)
Definition fila_producto := (producto * option string)%type.

Definition filas (s : store) (l : list producto) : list fila_producto :=
  map (fun p => (p, categoria_de s p)) l.

(** WHERE and ORDER BY of [query_exacta]. *)
Definition where_exacta (t : string) (p : producto) : bool :=
  (activo p &&
   (sql_eq (codigo_barras p) t || sql_like (codigo_barras p) (contiene t)))%bool.

Definition rango_exacta (t : string) (p : producto) : nat :=
  if sql_eq (codigo_barras p) t then 1%nat else 2%nat.

(** WHERE and ORDER BY of [query_general]. *)
Definition where_general (t : string) (p : producto) : bool :=
  (activo p &&
   (sql_like (Some (nombre p)) (contiene t) ||
    sql_like (descripcion p) (contiene t) ||
    sql_like (codigo_barras p) (contiene t)))%bool.

Definition rango_general (t : string) (p : producto) : nat :=
  if sql_like (Some (nombre p)) (contiene t) then 1%nat
  else if sql_like (descripcion p) (contiene t) then 2%nat
  else 3%nat.

Definition buscar_productos (termino_busqueda : string) (s : store)
    : list fila_producto :=
  let termino_limpio := strip termino_busqueda in
  if negb (string_nonempty termino_limpio) then []
  else
    let productos_exactos :=
      order_by (fun p => (rango_exacta termino_limpio p, nombre p))
               (filter (where_exacta termino_limpio) (productos s)) in
    match productos_exactos with
    | _ :: _ => filas s productos_exactos
    | [] =>
        filas s
          (order_by (fun p => (rango_general termino_limpio p, nombre p))
                    (filter (where_general termino_limpio) (productos s)))
    end.

(* ================================================================== *)
(** ** The mutating entry points as one datatype                       *)
(* ================================================================== *)

(** Every modelled call that writes to the store. *)
Inductive operacion :=
| OpCrearVenta (items_venta : list item_venta) (cliente : option Z)
    (metodo : string) (desc imp : Q) (nota : string)
| OpApiCrearVenta (data : datos_venta)
| OpCrearCompra (proveedor_id : Z) (documento fecha : string) (tasa : Q)
    (items_compra : list item_compra) (nota : string)
| OpAgregarProducto (codigo : option string) (nom : string)
    (descr : option string) (categoria : option Z)
    (precio_v : Q) (precio_c : option Q) (stock_inicial stock_min : Q)
| OpApiCrearProducto (data : datos_producto)
| OpActualizarStockProducto (producto_id : Z) (cantidad_sumar : Q)
    (motivo usuario : string)
| OpApiProductoPut (producto_id : Z) (data : datos_producto)
| OpApiProductoDelete (producto_id : Z)
| OpActualizarTasaCambio (nueva_tasa : Q)
| OpRegistrarPago (venta_id : Z) (numero : option string) (tipo : string)
    (monto : Q) (moneda : string) (tasa : Q) (detalles : string).

Definition ejecutar {FT : FloatText} (op : operacion) (s : store) : store :=
  match op with
  | OpCrearVenta i c m d im n => snd (crear_venta i c m d im n s)
  | OpApiCrearVenta data => snd (api_crear_venta data s)
  | OpCrearCompra p d f t i n => snd (crear_compra p d f t i n s)
  | OpAgregarProducto c n d cat pv pc si sm =>
      snd (agregar_producto c n d cat pv pc si sm s)
  | OpApiCrearProducto data => snd (api_crear_producto data s)
  | OpActualizarStockProducto p c m u =>
      snd (actualizar_stock_producto p c m u s)
  | OpApiProductoPut p data => snd (api_producto_put p data s)
  | OpApiProductoDelete p => snd (api_producto_delete p s)
  | OpActualizarTasaCambio t => actualizar_tasa_cambio t s
  | OpRegistrarPago v n t m mo ta d =>
      snd (registrar_pago_documento v n t m mo ta d s)
  end.

(** The signed change a movement row stands for: its quantity, negated
    for an outbound row. *)
Definition delta (m : movimiento) : Q :=
  match mi_tipo_movimiento m with
  | salida => - mi_cantidad m
  | _ => mi_cantidad m
  end.

(** The line quantities a sale moves out of one product. *)
Definition cantidad_vendida (pid : Z) (items_venta : list item_venta) : Q :=
  fold_right (fun item acc =>
    if Z.eqb (iv_producto_id item) pid then iv_cantidad item + acc else acc)
    0 items_venta.

(** The line quantities a purchase moves into one product. *)
Definition cantidad_comprada (pid : Z) (items_compra : list item_compra) : Q :=
  fold_right (fun it acc =>
    if Z.eqb (ic_producto_id it) pid then ic_cantidad it + acc else acc)
    0 items_compra.

(** The last line of a purchase that names the product. *)
Definition ultima_linea (pid : Z) (items_compra : list item_compra)
    : option item_compra :=
  find (fun it => Z.eqb (ic_producto_id it) pid) (rev items_compra).

(** The cost columns of a product: foreign cost, local cost, rate. *)
Definition costo (pid : Z) (s : store) : option (option Q * option Q * Q) :=
  option_map (fun p => (precio_compra_usd p, precio_compra p, tasa_camb p))
             (select_producto pid s).

(* ================================================================== *)
(** ** The store after [init_database] and [insert_initial_data]       *)
(* ================================================================== *)

Definition store_inicial : store :=
  {| productos := []; seq_productos := 0;
     categorias := [];
     ventas := []; seq_ventas := 0;
     detalle_ventas := [];
     compras := []; seq_compras := 0;
     detalle_compras := [];
     movimientos_inventario := [];
     pagos_documentos := []; seq_pagos := 0;
     configuracion_monedas :=
       [ ("tasa_usd_ves", "36.50"); ("moneda_principal", "VES");
         ("moneda_secundaria", "USD"); ("mostrar_ambas_monedas", "1");
         ("simbolo_ves", "Bs."); ("simbolo_usd", "$") ]%string |}.

(* ================================================================== *)
(** ** A concrete [FloatText]                                          *)
(* ================================================================== *)

(** Numbers written as [numerator/denominator] and read back from that
    form, from a plain integer or from an unsigned decimal such as
    [36.50]; reading inverts writing, as Python's [float(str(x))] does. *)
Fixpoint partir (c : ascii) (s : string) : option (string * string) :=
  match s with
  | EmptyString => None
  | String d r =>
      if Ascii.eqb d c then Some (EmptyString, r)
      else match partir c r with
           | Some (a, b) => Some (String d a, b)
           | None => None
           end
  end.

Definition leer_Z (s : string) : option Z :=
  option_map Z.of_int (NilZero.int_of_string s).

Definition leer_Q (s : string) : option Q :=
  match partir "/" s with
  | Some (a, b) =>
      match leer_Z a, leer_Z b with
      | Some n, Some (Zpos d) => Some (n # d)
      | _, _ => None
      end
  | None =>
      match partir "." s with
      | Some (a, b) =>
          match leer_Z a, leer_Z b with
          | Some n, Some f =>
              let k := (10 ^ Z.of_nat (String.length b))%Z in
              Some ((n * k + f)%Z # Z.to_pos k)
          | _, _ => None
          end
      | None => option_map inject_Z (leer_Z s)
      end
  end.

Definition escribir_Q (q : Q) : string :=
  (str_int (Qnum q) ++ "/" ++ str_int (Zpos (Qden q)))%string.

Definition texto_racional : FloatText :=
  {| str_float := escribir_Q; float_str := leer_Q |}.

(* ================================================================== *)
(** ** Auxiliary definitions for the statements                        *)
(* ================================================================== *)

(** What the loop body of [crear_venta] does to the store when the
    product row is there. *)
Definition tras_venta_item (venta_id : Z) (item : item_venta)
    (stock_anterior : Q) (s : store) : store :=
  insert_movimiento
    (movimiento_venta venta_id item stock_anterior
       (stock_anterior - iv_cantidad item))
    (update_stock (iv_producto_id item) (stock_anterior - iv_cantidad item)
       (insert_detalle_venta
          {| dv_venta_id := venta_id; dv_producto_id := iv_producto_id item;
             dv_cantidad := iv_cantidad item;
             dv_precio_unitario := iv_precio_unitario item;
             dv_subtotal := iv_cantidad item * iv_precio_unitario item |} s)).

(** A one-product catalogue used in the examples. *)
Definition producto_demo : producto :=
  {| id := 1; codigo_barras := Some "123"%string; nombre := "P";
     descripcion := None; categoria_id := None;
     precio_venta := 365; precio_compra := None;
     precio_venta_usd := Some 10; precio_compra_usd := None;
     stock_actual := 5; stock_minimo := 0; tasa_camb := 36.50;
     activo := true; vende_al_mayor := false; unidades_por_bulto := None |}.

Definition store_demo : store :=
  set_productos (fun _ => [producto_demo]) store_inicial.



(** The currency configuration is the same in [s'] as in [s]. *)
Definition misma_configuracion (s s' : store) : Prop :=
  configuracion_monedas s' = configuracion_monedas s.

(** A computation whose successful runs relate the store before to the
    store after by [R]. *)
Definition respeta (R : store -> store -> Prop) {A} (m : tx A) : Prop :=
  forall s a s', m s = inr (a, s') -> R s s'.

(** What the loop body of [crear_compra] does to the store when the
    product row is there. *)
Definition tras_compra_item (compra_id : Z) (tasa_cambio : Q)
    (it : item_compra) (stock_anterior : Q) (s : store) : store :=
  let precio_usd := precio_usd_de it in
  let precio_ves := py_round2 (precio_usd * tasa_cambio) in
  insert_movimiento
    (movimiento_compra compra_id it stock_anterior
       (stock_anterior + ic_cantidad it))
    (update_stock (ic_producto_id it) (stock_anterior + ic_cantidad it)
       (update_producto (ic_producto_id it)
          (con_costo precio_usd precio_ves tasa_cambio)
          (insert_detalle_compra
             {| dc_compra_id := compra_id;
                dc_producto_id := ic_producto_id it;
                dc_cantidad := ic_cantidad it;
                dc_precio_unitario_usd := precio_usd;
                dc_precio_unitario_ves := precio_ves;
                dc_subtotal_ves := py_round2 (precio_ves * ic_cantidad it) |}
             s))).

(** The cost columns a purchase line writes. *)
Definition costo_de_linea (tasa_cambio : Q) (it : item_compra)
    : option Q * option Q * Q :=
  (Some (precio_usd_de it),
   Some (py_round2 (precio_usd_de it * tasa_cambio)),
   tasa_cambio).

(** The movement row of a purchase line, field by field. *)
Definition es_movimiento_de_compra (compra_id : Z) (it : item_compra)
    (m : movimiento) : Prop :=
  mi_producto_id m = ic_producto_id it /\
  mi_tipo_movimiento m = entrada /\
  mi_cantidad m = ic_cantidad it /\
  mi_cantidad_nueva m = mi_cantidad_anterior m + ic_cantidad it /\
  mi_motivo m = ("Compra #" ++ str_int compra_id)%string.

(** A product with both foreign prices, priced at the initial rate. *)
Definition producto_dos_precios : producto :=
  {| id := 2; codigo_barras := Some "1234"%string; nombre := "Q";
     descripcion := None; categoria_id := None;
     precio_venta := 365; precio_compra := Some 292;
     precio_venta_usd := Some 10; precio_compra_usd := Some 8;
     stock_actual := 3; stock_minimo := 0; tasa_camb := 36.50;
     activo := true; vende_al_mayor := false; unidades_por_bulto := None |}.

Definition store_dos_precios : store :=
  set_productos (fun _ => [producto_demo; producto_dos_precios]) store_inicial.

(** A product update request that renames nothing and sets the stock
    field to 7. *)
Definition datos_demo : datos_producto :=
  {| d_codigo_barras := Some "123"%string; d_nombre := Some "P"%string;
     d_descripcion := None; d_categoria_id := None;
     d_precio_venta_usd := Some 10; d_precio_compra_usd := None;
     d_stock_actual := Some 7; d_stock_minimo := None;
     d_vende_al_mayor := false; d_unidades_por_bulto := None |}.

(** The character [c] does not occur in [s]. *)
Fixpoint sin_caracter (c : ascii) (s : string) : Prop :=
  match s with
  | EmptyString => True
  | String d r => Ascii.eqb d c = false /\ sin_caracter c r
  end.

From Stdlib Require Import Sorted.


(* ================================================================== *)
(** ** Further reads of [database.py]                                  *)
(* ================================================================== *)

(** The [detalle_ventas] row written for a sold line. *)
Definition detalle_de_venta (venta_id : Z) (item : item_venta) : detalle_venta :=
  {| dv_venta_id := venta_id; dv_producto_id := iv_producto_id item;
     dv_cantidad := iv_cantidad item;
     dv_precio_unitario := iv_precio_unitario item;
     dv_subtotal := iv_cantidad item * iv_precio_unitario item |}.

(** The [detalle_compras] row written for a purchased line. *)
Definition detalle_de_compra (compra_id : Z) (tasa_cambio : Q)
    (it : item_compra) : detalle_compra :=
  {| dc_compra_id := compra_id; dc_producto_id := ic_producto_id it;
     dc_cantidad := ic_cantidad it;
     dc_precio_unitario_usd := precio_usd_de it;
     dc_precio_unitario_ves := py_round2 (precio_usd_de it * tasa_cambio);
     dc_subtotal_ves :=
       py_round2 (py_round2 (precio_usd_de it * tasa_cambio) * ic_cantidad it) |}.

(** The signed changes a list of movement rows makes to one product. *)
Definition suma_delta (pid : Z) (movs : list movimiento) : Q :=
  fold_right (fun m acc =>
    if Z.eqb (mi_producto_id m) pid then delta m + acc else acc) 0 movs.

(** From [s] to [s'] the movement log grew by rows whose signed changes
    account for the change of every product's stock. *)
Definition cuadra (s s' : store) : Prop :=
  exists nuevos,
    movimientos_inventario s' = movimientos_inventario s ++ nuevos /\
    forall pid q,
      select_stock_actual pid s = Some q ->
      exists q', select_stock_actual pid s' = Some q' /\
                 q' == q + suma_delta pid nuevos.

(** Every product key is at most the sequence counter and no key
    occurs twice: what [AUTOINCREMENT] and [PRIMARY KEY] give. *)
Definition ids_acotados (s : store) : Prop :=
  Forall (fun p => (id p <= seq_productos s)%Z) (productos s) /\
  NoDup (map id (productos s)).

(** The entry point is the product update route. *)
Definition es_put (op : operacion) : bool :=
  match op with
  | OpApiProductoPut _ _ => true
  | _ => false
  end.

(** [ids_acotados] is kept from [s] to [s']. *)
Definition conserva_ids (s s' : store) : Prop :=
  ids_acotados s -> ids_acotados s'.

(** A catalogue whose sequence counter covers its two products. *)
Definition store_catalogo : store :=
  {| productos := [producto_demo; producto_dos_precios]; seq_productos := 2;
     categorias := [];
     ventas := []; seq_ventas := 0;
     detalle_ventas := [];
     compras := []; seq_compras := 0;
     detalle_compras := [];
     movimientos_inventario := [];
     pagos_documentos := []; seq_pagos := 0;
     configuracion_monedas := configuracion_monedas store_inicial |}.

(** From [s] to [s'] the committed history only grew: the sale,
    sale-line, purchase, purchase-line and payment rows of [s] are all
    still there, unchanged and in place, and so is every product key. *)
Definition solo_crece (s s' : store) : Prop :=
  (exists n, ventas s' = ventas s ++ n) /\
  (exists n, detalle_ventas s' = detalle_ventas s ++ n) /\
  (exists n, compras s' = compras s ++ n) /\
  (exists n, detalle_compras s' = detalle_compras s ++ n) /\
  (exists n, pagos_documentos s' = pagos_documentos s ++ n) /\
  (exists n, map id (productos s') = map id (productos s) ++ n).

(** The row [agregar_producto] inserts under key [pid]. *)
Definition fila_agregada (pid : Z) (codigo : option string) (nom : string)
    (descr : option string) (categoria : option Z)
    (precio_v : Q) (precio_c : option Q) (stock_inicial stock_min : Q) : producto :=
  {| id := pid; codigo_barras := codigo; nombre := nom;
     descripcion := descr; categoria_id := categoria;
     precio_venta := precio_v; precio_compra := precio_c;
     precio_venta_usd := None; precio_compra_usd := None;
     stock_actual := stock_inicial; stock_minimo := stock_min;
     tasa_camb := 36.50; activo := true;
     vende_al_mayor := false; unidades_por_bulto := None |}.

(** The movement row written for a product's initial stock. *)
Definition movimiento_stock_inicial (pid : Z) (stock_inicial : Q) : movimiento :=
  {| mi_producto_id := pid; mi_tipo_movimiento := entrada;
     mi_cantidad := stock_inicial; mi_cantidad_anterior := 0;
     mi_cantidad_nueva := stock_inicial;
     mi_motivo := "Stock inicial"; mi_usuario := "Sistema" |}.

(** The barcodes present in [productos], NULLs left out. *)
Definition codigos (l : list producto) : list string :=
  flat_map (fun p => match codigo_barras p with
                     | Some c => [c]
                     | None => []
                     end) l.

(** The catalogue is sound: keys are sound and no barcode occurs on
    two rows. *)
Definition catalogo_bien (s : store) : Prop :=
  ids_acotados s /\ NoDup (codigos (productos s)).

Definition conserva_catalogo (s s' : store) : Prop :=
  catalogo_bien s -> catalogo_bien s'.

(** [get_productos]: the optional category filter is applied when the
    argument is neither [None] nor 0; rows come in name order. *)
Definition where_productos (categoria : option Z) (activos_solo : bool)
    (p : producto) : bool :=
  ((if activos_solo then activo p else true) &&
   match categoria with
   | Some c =>
       if Z.eqb c 0 then true
       else match categoria_id p with
            | Some k => Z.eqb k c
            | None => false
            end
   | None => true
   end)%bool.

Definition get_productos (categoria : option Z) (activos_solo : bool)
    (s : store) : list fila_producto :=
  filas s (order_by (fun p => (0%nat, nombre p))
                    (filter (where_productos categoria activos_solo)
                            (productos s))).

(** Every character of the text is whitespace for [str.strip()]. *)
Fixpoint solo_espacios (s : string) : Prop :=
  match s with
  | EmptyString => True
  | String c r => is_space c = true /\ solo_espacios r
  end.

(* ================================================================== *)
(** ** Currency helpers                                                *)
(* ================================================================== *)

(** [self.get_configuracion_moneda(nombre) or default]. *)
Definition configuracion_o (nom default : string) (s : store) : string :=
  match get_configuracion_moneda nom s with
  | Some v => if string_nonempty v then v else default
  | None => default
  end.

Section Conversiones.
Context {FT : FloatText}.



(** [get_monedas_activas]: pairs of currency code and symbol. *)
Definition get_monedas_activas (s : store) : exn + list (string * string) :=
  let simbolo_ves := configuracion_o "simbolo_ves" "Bs." s in
  match get_tasa_cambio s with
  | inl e => inl e
  | inr tasa_usd =>
      inr (("VES", simbolo_ves)%string ::
           if (truthy tasa_usd && Qpos_bool tasa_usd)%bool
           then [("USD", configuracion_o "simbolo_usd" "$" s)%string]
           else [])
  end.

End Conversiones.

(** The [pagos_documentos] row [api_crear_venta] registers for an entry
    of ['pagos'], apart from its key. *)
Definition monto_de_pago (pg : pago) : Q := o_default 0 (pg_monto_pagado pg).

(* ================================================================== *)
(** ** References between tables                                       *)
(* ================================================================== *)

(** The product a row names has a row in [productos]. *)
Definition existe_producto (s : store) (pid : Z) : Prop :=
  select_producto pid s <> None.

(** No orphans: every movement row, sale line and purchase line names a
    product that has a row, every sale line names a sale header that
    has a row, and every purchase line a purchase header that has one. *)
Definition sin_huerfanos (s : store) : Prop :=
  Forall (fun m => existe_producto s (mi_producto_id m))
         (movimientos_inventario s) /\
  Forall (fun d => existe_producto s (dv_producto_id d) /\
                   In (dv_venta_id d) (map v_id (ventas s)))
         (detalle_ventas s) /\
  Forall (fun d => existe_producto s (dc_producto_id d) /\
                   In (dc_compra_id d) (map c_id (compras s)))
         (detalle_compras s).

(** What can be referred to in [s] can still be referred to in [s']. *)
Definition referibles_crecen (s s' : store) : Prop :=
  (forall pid, existe_producto s pid -> existe_producto s' pid) /\
  (forall v, In v (map v_id (ventas s)) -> In v (map v_id (ventas s'))) /\
  (forall c, In c (map c_id (compras s)) -> In c (map c_id (compras s'))).

(** A step that keeps references valid, given that sale [v] and
    purchase [c] have their header rows. *)
Definition paso_integro (v c : option Z) (s s' : store) : Prop :=
  referibles_crecen s s' /\
  ((forall i, v = Some i -> In i (map v_id (ventas s))) ->
   (forall i, c = Some i -> In i (map c_id (compras s))) ->
   sin_huerfanos s -> sin_huerfanos s').

(* ================================================================== *)
(** ** Categories: [get_categorias], [eliminar_categoria]              *)
(* ================================================================== *)

Definition set_categorias (f : list categoria -> list categoria) (s : store) : store :=
  {| productos := productos s; seq_productos := seq_productos s;
     categorias := f (categorias s);
     ventas := ventas s; seq_ventas := seq_ventas s;
     detalle_ventas := detalle_ventas s;
     compras := compras s; seq_compras := seq_compras s;
     detalle_compras := detalle_compras s;
     movimientos_inventario := movimientos_inventario s;
     pagos_documentos := pagos_documentos s; seq_pagos := seq_pagos s;
     configuracion_monedas := configuracion_monedas s |}.

(** [UPDATE categorias SET activo = 0 WHERE id = ?], commit. *)
Definition eliminar_categoria (categoria_id : Z) : store -> store :=
  set_categorias (map (fun c =>
    if Z.eqb (cat_id c) categoria_id
    then {| cat_id := cat_id c; cat_nombre := cat_nombre c; cat_activo := false |}
    else c)).

(** [ORDER BY nombre] on categories, rows with equal names in table
    order. *)
Fixpoint insertar_categoria (c : categoria) (l : list categoria) : list categoria :=
  match l with
  | [] => [c]
  | d :: r => if String.leb (cat_nombre c) (cat_nombre d) then c :: l
              else d :: insertar_categoria c r
  end.

(** [get_categorias]: id and name of the active categories, by name. *)
Definition get_categorias (s : store) : list (Z * string) :=
  map (fun c => (cat_id c, cat_nombre c))
      (fold_right insertar_categoria [] (filter cat_activo (categorias s))).

(* ================================================================== *)
(** ** Users: [crear_usuario], [validar_usuario], the user routes      *)
(* ================================================================== *)

(** [hashlib.sha256(text.encode()).hexdigest()]. *)
Class Resumen := { sha256_hexdigest : string -> string }.

(** A row of [usuarios]. *)
Record usuario := {
  u_id : Z;
  u_username : string;
  u_password_hash : string;
  u_nombre_completo : string;
  u_rol : string;
  u_activo : bool
}.

(** The [usuarios] table with its sequence counter; the methods below
    touch no other table. *)
Record tabla_usuarios := {
  usuarios : list usuario;
  seq_usuarios : Z
}.

(** What [validar_usuario] returns for a match. *)
Record sesion := {
  se_id : Z;
  se_username : string;
  se_nombre_completo : string;
  se_rol : string
}.

Section Usuarios.
Context {RS : Resumen}.

(** [crear_usuario]: a taken [username] violates the UNIQUE constraint;
    the method rolls back and re-raises. *)
Definition crear_usuario (username password nombre_completo rol : string)
    (t : tabla_usuarios) : (exn + Z) * tabla_usuarios :=
  if existsb (fun u => String.eqb (u_username u) username) (usuarios t)
  then (inl (IntegrityError "UNIQUE constraint failed: usuarios.username"), t)
  else
    let usuario_id := (seq_usuarios t + 1)%Z in
    (inr usuario_id,
     {| usuarios := usuarios t ++
          [{| u_id := usuario_id; u_username := username;
              u_password_hash := sha256_hexdigest password;
              u_nombre_completo := nombre_completo; u_rol := rol;
              u_activo := true |}];
        seq_usuarios := usuario_id |}).

(** [validar_usuario]: the first active row with that name and
    password hash; the update of the login time stamp is not
    represented. *)
Definition validar_usuario (username password : string) (t : tabla_usuarios)
    : option sesion :=
  match find (fun u =>
          (String.eqb (u_username u) username &&
           String.eqb (u_password_hash u) (sha256_hexdigest password) &&
           u_activo u)%bool) (usuarios t) with
  | Some u => Some {| se_id := u_id u; se_username := u_username u;
                      se_nombre_completo := u_nombre_completo u;
                      se_rol := u_rol u |}
  | None => None
  end.

End Usuarios.

(** [DELETE /api/usuario/<id>]: [UPDATE usuarios SET activo = 0]. *)
Definition api_usuario_delete (usuario_id : Z) (t : tabla_usuarios) : tabla_usuarios :=
  {| usuarios := map (fun u =>
       if Z.eqb (u_id u) usuario_id
       then {| u_id := u_id u; u_username := u_username u;
               u_password_hash := u_password_hash u;
               u_nombre_completo := u_nombre_completo u; u_rol := u_rol u;
               u_activo := false |}
       else u) (usuarios t);
     seq_usuarios := seq_usuarios t |}.

(** A digest for the examples: the text itself, which tells any two
    passwords apart. *)
Definition resumen_identidad : Resumen := {| sha256_hexdigest := fun x => x |}.

(** The [usuarios] table [insert_initial_data] leaves, under a given
    digest. *)
Definition usuarios_iniciales {RS : Resumen} : tabla_usuarios :=
  {| usuarios :=
       [{| u_id := 1; u_username := "soporte";
           u_password_hash := sha256_hexdigest "soporte123";
           u_nombre_completo := "Soporte"; u_rol := "sistema";
           u_activo := true |}];
     seq_usuarios := 1 |}.


(* ================================================================== *)
(** * Properties                                                       *)
(* ================================================================== *)

(** ** Row lookups under row updates *)

Lemma find_map_id (g : producto -> producto) (pid : Z) (l : list producto) :
  (forall p, id (g p) = id p) ->
  find (fun p => Z.eqb (id p) pid) (map g l)
  = option_map g (find (fun p => Z.eqb (id p) pid) l).
Proof.
  intros Hg. induction l as [|p l IH]; simpl; [reflexivity|].
  rewrite Hg. destruct (Z.eqb (id p) pid); [reflexivity | exact IH].
Qed.

Lemma select_producto_update (pid pid' : Z) (f : producto -> producto) (s : store) :
  (forall p, id (f p) = id p) ->
  select_producto pid (update_producto pid' f s)
  = option_map (fun p => if Z.eqb (id p) pid' then f p else p)
               (select_producto pid s).
Proof.
  intros Hf. unfold select_producto, update_producto. simpl.
  apply find_map_id. intros p. destruct (Z.eqb (id p) pid'); auto.
Qed.

Lemma select_producto_id (pid : Z) (s : store) (p : producto) :
  select_producto pid s = Some p -> id p = pid.
Proof.
  unfold select_producto. intros H. apply find_some in H.
  destruct H as [_ H]. now apply Z.eqb_eq.
Qed.

Lemma select_stock_update_stock (pid pid' : Z) (q : Q) (s : store) :
  select_stock_actual pid (update_stock pid' q s)
  = if Z.eqb pid pid'
    then option_map (fun _ => q) (select_stock_actual pid s)
    else select_stock_actual pid s.
Proof.
  unfold select_stock_actual, update_stock.
  rewrite select_producto_update by reflexivity.
  destruct (select_producto pid s) as [p|] eqn:E; simpl.
  - rewrite (select_producto_id _ _ _ E).
    destruct (Z.eqb pid pid'); reflexivity.
  - destruct (Z.eqb pid pid'); reflexivity.
Qed.

(** ** One sold line *)


Lemma venta_item_existe (venta_id : Z) (item : item_venta) (s : store) (q : Q) :
  select_stock_actual (iv_producto_id item) s = Some q ->
  venta_item venta_id item s = inr (tt, tras_venta_item venta_id item q s).
Proof.
  intros H. unfold venta_item, bind, ejecuta, consulta.
  change (select_stock_actual (iv_producto_id item) (insert_detalle_venta _ s))
    with (select_stock_actual (iv_producto_id item) s).
  rewrite H. reflexivity.
Qed.

Lemma venta_item_falta (venta_id : Z) (item : item_venta) (s : store) :
  select_producto (iv_producto_id item) s = None ->
  venta_item venta_id item s = inl TypeError_None_subscript.
Proof.
  intros H. unfold venta_item, bind, ejecuta, consulta.
  change (select_stock_actual (iv_producto_id item) (insert_detalle_venta _ s))
    with (select_stock_actual (iv_producto_id item) s).
  unfold select_stock_actual. rewrite H. reflexivity.
Qed.

Lemma select_stock_Some (pid : Z) (s : store) :
  select_producto pid s <> None -> exists q, select_stock_actual pid s = Some q.
Proof.
  unfold select_stock_actual. destruct (select_producto pid s) as [p|].
  - intros _. now exists (stock_actual p).
  - intros H. now elim H.
Qed.

Lemma select_stock_None (pid : Z) (s : store) :
  select_stock_actual pid s = None <-> select_producto pid s = None.
Proof.
  unfold select_stock_actual. destruct (select_producto pid s); simpl; split;
    congruence.
Qed.

Lemma select_stock_tras_venta_item (venta_id : Z) (item : item_venta)
    (q0 : Q) (s : store) (pid : Z) :
  select_stock_actual pid (tras_venta_item venta_id item q0 s)
  = if Z.eqb pid (iv_producto_id item)
    then option_map (fun _ => q0 - iv_cantidad item) (select_stock_actual pid s)
    else select_stock_actual pid s.
Proof.
  unfold tras_venta_item.
  change (select_stock_actual pid (insert_movimiento ?m ?t))
    with (select_stock_actual pid t).
  rewrite select_stock_update_stock. reflexivity.
Qed.

(** ** The loop of [crear_venta] *)


Lemma for_each_venta_existe (venta_id : Z) (items_venta : list item_venta) :
  forall s,
    (forall item, In item items_venta ->
                  select_producto (iv_producto_id item) s <> None) ->
    exists s',
      for_each (venta_item venta_id) items_venta s = inr (tt, s') /\
      forall pid q,
        select_stock_actual pid s = Some q ->
        exists q', select_stock_actual pid s' = Some q' /\
                   q' == q - cantidad_vendida pid items_venta.
Proof.
  induction items_venta as [|item r IH]; intros s Hall.
  - exists s. split; [reflexivity|]. intros pid q Hq. exists q.
    split; [exact Hq|]. simpl. ring.
  - destruct (select_stock_Some (iv_producto_id item) s) as [q0 Hq0];
      [apply Hall; now left|].
    destruct (IH (tras_venta_item venta_id item q0 s)) as [s' [Hrun Hstock]].
    { intros x Hx Hnone. apply (Hall x (or_intror Hx)).
      apply select_stock_None. apply select_stock_None in Hnone.
      rewrite select_stock_tras_venta_item in Hnone.
      destruct (Z.eqb _ _); [|exact Hnone].
      destruct (select_stock_actual (iv_producto_id x) s); [discriminate|reflexivity]. }
    exists s'. split.
    + simpl. unfold bind. rewrite (venta_item_existe _ _ _ _ Hq0). exact Hrun.
    + intros pid q Hq.
      pose proof (select_stock_tras_venta_item venta_id item q0 s pid) as Hmid.
      simpl. rewrite (Z.eqb_sym (iv_producto_id item) pid).
      destruct (Z.eqb pid (iv_producto_id item)) eqn:E.
      * apply Z.eqb_eq in E. subst pid.
        rewrite Hq in Hmid. simpl in Hmid.
        destruct (Hstock _ _ Hmid) as [q' [Hq' Heq]].
        exists q'. split; [exact Hq'|].
        rewrite Heq. assert (q0 = q) by congruence. subst q0. ring.
      * rewrite Hq in Hmid.
        destruct (Hstock _ _ Hmid) as [q' [Hq' Heq]].
        exists q'. split; [exact Hq'|exact Heq].
Qed.

(** ** Claims on [crear_venta] and [api_crear_venta] *)




(** C4. When every line names an existing product, [crear_venta]
    commits and returns the new sale id whatever the stock levels are;
    afterwards each product's stock is its stock before minus the
    quantities of the lines that name it, with no lower bound. *)
Theorem crear_venta_sobreventa :
  forall (items_venta : list item_venta) (cliente : option Z) (metodo : string)
         (desc imp : Q) (nota : string) (s : store),
    (forall item, In item items_venta ->
                  select_producto (iv_producto_id item) s <> None) ->
    exists s',
      crear_venta items_venta cliente metodo desc imp nota s
      = (inr (seq_ventas s + 1)%Z, s') /\
      forall pid q,
        select_stock_actual pid s = Some q ->
        exists q', select_stock_actual pid s' = Some q' /\
                   q' == q - cantidad_vendida pid items_venta.
Proof.
  intros items_venta cliente metodo desc imp nota s Hall.
  unfold crear_venta, transaccion, bind.
  cbv beta zeta. unfold insert_venta at 1. cbv beta zeta.
  match goal with
  | |- context [for_each (venta_item ?v) items_venta ?s0] =>
      destruct (for_each_venta_existe v items_venta s0) as [s' [Hrun Hstock]];
        [exact Hall|]
  end.
  exists s'. rewrite Hrun. split; [reflexivity|].
  intros pid q Hq. apply Hstock. exact Hq.
Qed.

Lemma crear_venta_sobreventa_witness :
  exists s',
    crear_venta [ {| iv_producto_id := 1; iv_cantidad := 8; iv_precio_unitario := 400 |} ]
      None "efectivo" 0 0 "" store_demo = (inr 1%Z, s') /\
    exists q', select_stock_actual 1 s' = Some q' /\ q' == - (3).
Proof.
  destruct (crear_venta_sobreventa
    [ {| iv_producto_id := 1; iv_cantidad := 8; iv_precio_unitario := 400 |} ]
    None "efectivo" 0 0 "" store_demo) as [s' [Hrun Hstock]].
  - intros item [<-|[]]. vm_compute. discriminate.
  - exists s'. split; [exact Hrun|].
    destruct (Hstock 1%Z 5 eq_refl) as [q' [Hq' Heq]].
    exists q'. split; [exact Hq'|]. rewrite Heq. vm_compute. reflexivity.
Defined.



(** The guard lives in the route only: [crear_venta] itself, given no
    lines, commits a sale header with zero totals and returns its id. *)
Remark crear_venta_sin_lineas :
  forall (cliente : option Z) (metodo : string) (desc imp : Q) (nota : string)
         (s : store),
    fst (crear_venta [] cliente metodo desc imp nota s) = inr (seq_ventas s + 1)%Z /\
    ventas (snd (crear_venta [] cliente metodo desc imp nota s))
    = ventas s ++
      [{| v_id := (seq_ventas s + 1)%Z; v_cliente_id := cliente;
          v_subtotal := 0; v_impuesto := imp; v_descuento := desc;
          v_total := 0 + imp - desc; v_metodo_pago := metodo;
          v_notas := nota |}].
Proof. intros. split; reflexivity. Qed.

(** ** Relations every successful step keeps *)

Section Respeta.
Variable R : store -> store -> Prop.
Hypothesis R_refl : forall s, R s s.
Hypothesis R_trans : forall a b c, R a b -> R b c -> R a c.

Lemma respeta_ret {A} (a : A) : respeta R (ret a).
Proof. intros s a' s' H. inversion H; subst. apply R_refl. Qed.

Lemma respeta_raise {A} (e : exn) : respeta R (@raise A e).
Proof. intros s a s' H. discriminate. Qed.

Lemma respeta_consulta {A} (q : store -> A) : respeta R (consulta q).
Proof. intros s a s' H. inversion H; subst. apply R_refl. Qed.

Lemma respeta_ejecuta (f : store -> store) :
  (forall s, R s (f s)) -> respeta R (ejecuta f).
Proof. intros Hf s a s' H. inversion H; subst. apply Hf. Qed.

Lemma respeta_bind {A B} (m : tx A) (k : A -> tx B) :
  respeta R m -> (forall a, respeta R (k a)) -> respeta R (bind m k).
Proof.
  intros Hm Hk s b s' H. unfold bind in H.
  destruct (m s) as [e|[a s1]] eqn:E; [discriminate|].
  apply R_trans with s1; [exact (Hm _ _ _ E) | exact (Hk a _ _ _ H)].
Qed.

Lemma respeta_for_each {A} (body : A -> tx unit) (xs : list A) :
  (forall x, respeta R (body x)) -> respeta R (for_each body xs).
Proof.
  intros Hb. induction xs as [|x r IH]; simpl.
  - apply respeta_ret.
  - apply respeta_bind; [apply Hb | intros _; exact IH].
Qed.

Lemma respeta_transaccion {A} (m : tx A) (s : store) :
  respeta R m -> R s (snd (transaccion m s)).
Proof.
  intros Hm. unfold transaccion.
  destruct (m s) as [e|[a s']] eqn:E; simpl;
    [apply R_refl | exact (Hm _ _ _ E)].
Qed.

End Respeta.





Lemma misma_configuracion_refl (s : store) : misma_configuracion s s.
Proof. reflexivity. Qed.

Lemma misma_configuracion_trans (a b c : store) :
  misma_configuracion a b -> misma_configuracion b c ->
  misma_configuracion a c.
Proof. unfold misma_configuracion. congruence. Qed.

(** Walks a unit of work statement by statement; [hoja] settles the
    single statements. *)
Ltac recorre Hrefl Htrans hoja :=
  repeat first
    [ apply (respeta_ret _ Hrefl)
    | apply respeta_raise
    | apply (respeta_consulta _ Hrefl)
    | apply (respeta_bind _ Htrans); [ | intro ]
    | apply (respeta_for_each _ Hrefl Htrans); intro
    | match goal with
      | |- respeta _ (match ?x with _ => _ end) => destruct x
      end
    | progress cbv zeta
    | progress hoja ].


Ltac hoja_configuracion :=
  first
    [ apply respeta_ejecuta; intro; reflexivity
    | match goal with
      | |- respeta _ _ =>
          let s := fresh "s" in let a := fresh "a" in
          let s' := fresh "s" in let H := fresh "H" in
          intros s a s' H;
          first [ unfold insert_producto in H;
                  destruct (codigo_en_uso _ _ _); [discriminate|] | idtac ];
          inversion H; subst; reflexivity
      end ].


Ltac por_configuracion :=
  recorre misma_configuracion_refl misma_configuracion_trans hoja_configuracion.

(** ** The movement log only grows *)


Section Libro.
Context {FT : FloatText}.



End Libro.


(** ** One purchased line *)

Lemma select_stock_update_costo (pid pid' : Z) (a b c : Q) (s : store) :
  select_stock_actual pid (update_producto pid' (con_costo a b c) s)
  = select_stock_actual pid s.
Proof.
  unfold select_stock_actual.
  rewrite select_producto_update by reflexivity.
  destruct (select_producto pid s) as [p|]; simpl; [|reflexivity].
  destruct (Z.eqb (id p) pid'); reflexivity.
Qed.

Lemma costo_update_stock (pid pid' : Z) (q : Q) (s : store) :
  costo pid (update_stock pid' q s) = costo pid s.
Proof.
  unfold costo, update_stock.
  rewrite select_producto_update by reflexivity.
  destruct (select_producto pid s) as [p|]; simpl; [|reflexivity].
  destruct (Z.eqb (id p) pid'); reflexivity.
Qed.

Lemma costo_update_costo (pid pid' : Z) (a b c : Q) (s : store) :
  costo pid (update_producto pid' (con_costo a b c) s)
  = if Z.eqb pid pid'
    then option_map (fun _ => (Some a, Some b, c)) (costo pid s)
    else costo pid s.
Proof.
  unfold costo.
  rewrite select_producto_update by reflexivity.
  destruct (select_producto pid s) as [p|] eqn:E; simpl.
  - rewrite (select_producto_id _ _ _ E).
    destruct (Z.eqb pid pid'); reflexivity.
  - destruct (Z.eqb pid pid'); reflexivity.
Qed.

Lemma compra_item_existe (compra_id : Z) (tasa : Q) (it : item_compra)
    (s : store) (q : Q) :
  select_stock_actual (ic_producto_id it) s = Some q ->
  compra_item compra_id tasa it s
  = inr (tt, tras_compra_item compra_id tasa it q s).
Proof.
  intros H. unfold compra_item, bind, ejecuta, consulta. cbv zeta.
  rewrite select_stock_update_costo.
  change (select_stock_actual (ic_producto_id it) (insert_detalle_compra _ s))
    with (select_stock_actual (ic_producto_id it) s).
  rewrite H. reflexivity.
Qed.

Lemma select_stock_tras_compra_item (compra_id : Z) (tasa : Q)
    (it : item_compra) (q0 : Q) (s : store) (pid : Z) :
  select_stock_actual pid (tras_compra_item compra_id tasa it q0 s)
  = if Z.eqb pid (ic_producto_id it)
    then option_map (fun _ => q0 + ic_cantidad it) (select_stock_actual pid s)
    else select_stock_actual pid s.
Proof.
  unfold tras_compra_item. cbv zeta.
  change (select_stock_actual pid (insert_movimiento ?m ?t))
    with (select_stock_actual pid t).
  rewrite select_stock_update_stock, select_stock_update_costo. reflexivity.
Qed.

Lemma costo_tras_compra_item (compra_id : Z) (tasa : Q)
    (it : item_compra) (q0 : Q) (s : store) (pid : Z) :
  costo pid (tras_compra_item compra_id tasa it q0 s)
  = if Z.eqb pid (ic_producto_id it)
    then option_map (fun _ => costo_de_linea tasa it) (costo pid s)
    else costo pid s.
Proof.
  unfold tras_compra_item. cbv zeta.
  change (costo pid (insert_movimiento ?m ?t)) with (costo pid t).
  rewrite costo_update_stock, costo_update_costo. reflexivity.
Qed.

Lemma costo_Some_iff_stock (pid : Z) (s : store) :
  costo pid s = None <-> select_stock_actual pid s = None.
Proof.
  unfold costo, select_stock_actual.
  destruct (select_producto pid s); simpl; split; congruence.
Qed.

Lemma ultima_linea_cons (pid : Z) (it : item_compra) (r : list item_compra) :
  ultima_linea pid (it :: r)
  = match ultima_linea pid r with
    | Some x => Some x
    | None => if Z.eqb (ic_producto_id it) pid then Some it else None
    end.
Proof.
  unfold ultima_linea. simpl.
  generalize (rev r) as l. induction l as [|y l IH]; simpl.
  - reflexivity.
  - destruct (Z.eqb (ic_producto_id y) pid); [reflexivity|exact IH].
Qed.

Lemma ultima_linea_In (pid : Z) (items_compra : list item_compra) (it : item_compra) :
  ultima_linea pid items_compra = Some it ->
  In it items_compra /\ ic_producto_id it = pid.
Proof.
  unfold ultima_linea. intros H. apply find_some in H. destruct H as [Hin Hid].
  split; [now apply in_rev | now apply Z.eqb_eq].
Qed.

(** ** The loop of [crear_compra] *)

Lemma for_each_compra_existe (compra_id : Z) (tasa : Q)
    (items_compra : list item_compra) :
  forall s,
    (forall it, In it items_compra ->
                select_producto (ic_producto_id it) s <> None) ->
    exists s' nuevos,
      for_each (compra_item compra_id tasa) items_compra s = inr (tt, s') /\
      movimientos_inventario s' = movimientos_inventario s ++ nuevos /\
      Forall2 (es_movimiento_de_compra compra_id) items_compra nuevos /\
      (forall pid q,
         select_stock_actual pid s = Some q ->
         exists q', select_stock_actual pid s' = Some q' /\
                    q' == q + cantidad_comprada pid items_compra) /\
      (forall pid,
         costo pid s'
         = match ultima_linea pid items_compra with
           | Some it => option_map (fun _ => costo_de_linea tasa it) (costo pid s)
           | None => costo pid s
           end).
Proof.
  induction items_compra as [|it r IH]; intros s Hall.
  - exists s, []. split; [reflexivity|]. split; [now rewrite app_nil_r|].
    split; [constructor|]. split; [|reflexivity].
    intros pid q Hq. exists q. split; [exact Hq|]. simpl. ring.
  - destruct (select_stock_Some (ic_producto_id it) s) as [q0 Hq0];
      [apply Hall; now left|].
    set (s1 := tras_compra_item compra_id tasa it q0 s).
    destruct (IH s1) as [s' [n [Hrun [Hmov [Hrows [Hstock Hcost]]]]]].
    { intros x Hx Hnone. apply (Hall x (or_intror Hx)).
      apply select_stock_None. apply select_stock_None in Hnone.
      unfold s1 in Hnone. rewrite select_stock_tras_compra_item in Hnone.
      destruct (Z.eqb _ _); [|exact Hnone].
      destruct (select_stock_actual (ic_producto_id x) s);
        [discriminate|reflexivity]. }
    exists s', (movimiento_compra compra_id it q0 (q0 + ic_cantidad it) :: n).
    split; [|split; [|split; [|split]]].
    + simpl. unfold bind. rewrite (compra_item_existe _ _ _ _ _ Hq0). exact Hrun.
    + rewrite Hmov. unfold s1, tras_compra_item, insert_movimiento. simpl.
      now rewrite <- app_assoc.
    + constructor; [|exact Hrows]. repeat split.
    + intros pid q Hq.
      pose proof (select_stock_tras_compra_item compra_id tasa it q0 s pid) as Hmid.
      fold s1 in Hmid.
      simpl. rewrite (Z.eqb_sym (ic_producto_id it) pid).
      destruct (Z.eqb pid (ic_producto_id it)) eqn:E.
      * apply Z.eqb_eq in E. subst pid.
        rewrite Hq in Hmid. simpl in Hmid.
        destruct (Hstock _ _ Hmid) as [q' [Hq' Heq]].
        exists q'. split; [exact Hq'|].
        rewrite Heq. assert (q0 = q) by congruence. subst q0. ring.
      * rewrite Hq in Hmid.
        destruct (Hstock _ _ Hmid) as [q' [Hq' Heq]].
        exists q'. split; [exact Hq'|exact Heq].
    + intros pid. rewrite Hcost, ultima_linea_cons.
      pose proof (costo_tras_compra_item compra_id tasa it q0 s pid) as Hmid.
      fold s1 in Hmid. rewrite Hmid.
      rewrite (Z.eqb_sym (ic_producto_id it) pid).
      destruct (ultima_linea pid r) as [x|];
        destruct (Z.eqb pid (ic_producto_id it));
        destruct (costo pid s); reflexivity.
Qed.

(** C8, as the code has it.  When every line names an existing product,
    [crear_compra] commits and returns the new purchase id, and:
    one ['entrada'] movement per line is appended, in line order, with
    the line's quantity, after = before + quantity and the reason
    ["Compra #<id>"]; each product's stock grows by the quantities of
    the lines that name it; and the product named by a line ends with
    the foreign cost of its last line, the local cost
    [round(foreign cost * rate, 2)] and the purchase's rate as its
    derivation rate. *)
Theorem crear_compra_lineas :
  forall (proveedor_id : Z) (documento fecha : string) (tasa : Q)
         (items_compra : list item_compra) (nota : string) (s : store),
    (forall it, In it items_compra ->
                select_producto (ic_producto_id it) s <> None) ->
    exists s' nuevos,
      crear_compra proveedor_id documento fecha tasa items_compra nota s
      = (inr (seq_compras s + 1)%Z, s') /\
      movimientos_inventario s' = movimientos_inventario s ++ nuevos /\
      Forall2 (es_movimiento_de_compra (seq_compras s + 1)) items_compra nuevos /\
      (forall pid q,
         select_stock_actual pid s = Some q ->
         exists q', select_stock_actual pid s' = Some q' /\
                    q' == q + cantidad_comprada pid items_compra) /\
      (forall pid it,
         ultima_linea pid items_compra = Some it ->
         costo pid s'
         = Some (Some (precio_usd_de it),
                 Some (py_round2 (precio_usd_de it * tasa)),
                 tasa)).
Proof.
  intros proveedor_id documento fecha tasa items_compra nota s Hall.
  unfold crear_compra, transaccion, bind.
  cbv beta zeta. unfold insert_compra at 1. cbv beta zeta.
  match goal with
  | |- context [for_each (compra_item ?v tasa) items_compra ?s0] =>
      destruct (for_each_compra_existe v tasa items_compra s0)
        as [s' [n [Hrun [Hmov [Hrows [Hstock Hcost]]]]]]; [exact Hall|]
  end.
  exists s', n. rewrite Hrun.
  split; [reflexivity|]. split; [exact Hmov|]. split; [exact Hrows|].
  split; [exact Hstock|].
  intros pid it Hlast. rewrite Hcost, Hlast.
  destruct (ultima_linea_In _ _ _ Hlast) as [Hin Hid].
  change (costo pid ?t) with (costo pid s) at 1.
  destruct (costo pid s) eqn:E; [reflexivity|].
  exfalso. apply (Hall it Hin). rewrite Hid.
  apply select_stock_None, costo_Some_iff_stock. exact E.
Qed.

Lemma crear_compra_lineas_witness :
  exists s',
    crear_compra 1 "F-001" "2024-01-15" 40
      [ {| ic_producto_id := 1; ic_cantidad := 10;
           ic_precio_unitario_usd := Some 8 |} ] "" store_demo
    = (inr 1%Z, s') /\
    costo 1 s' = Some (Some 8, Some (py_round2 (8 * 40)), 40) /\
    exists q', select_stock_actual 1 s' = Some q' /\ q' == 15.
Proof.
  destruct (crear_compra_lineas 1 "F-001" "2024-01-15" 40
    [ {| ic_producto_id := 1; ic_cantidad := 10;
         ic_precio_unitario_usd := Some 8 |} ] "" store_demo)
    as [s' [n [Hrun [_ [_ [Hstock Hcost]]]]]].
  - intros it [<-|[]]. vm_compute. discriminate.
  - exists s'. split; [exact Hrun|]. split.
    + exact (Hcost 1%Z _ eq_refl).
    + destruct (Hstock 1%Z 5 eq_refl) as [q' [Hq' Heq]].
      exists q'. split; [exact Hq'|]. rewrite Heq. vm_compute. reflexivity.
Defined.

(** C8, as worded: the local unit cost is not the bare product.  A line
    at foreign cost 8.99 under rate 36.57 stores 328.76, while
    8.99 * 36.57 is 328.7643. *)
Lemma crear_compra_costo_redondeado :
  exists ves,
    costo 1
      (snd (crear_compra 1 "F-002" "2024-01-15" 36.57
              [ {| ic_producto_id := 1; ic_cantidad := 1;
                   ic_precio_unitario_usd := Some 8.99 |} ] "" store_demo))
    = Some (Some 8.99, Some ves, 36.57) /\
    ves == 328.76 /\
    ~ (ves == 8.99 * 36.57).
Proof.
  eexists. split; [vm_compute; reflexivity|].
  split; vm_compute; [reflexivity|discriminate].
Qed.

(** ** Rate changes *)

Section Tasa.
Context {FT : FloatText}.

Lemma productos_actualizar_tasa_cambio (nueva_tasa : Q) (s : store) :
  productos (actualizar_tasa_cambio nueva_tasa s)
  = map (recalcula_fila nueva_tasa) (productos s).
Proof. reflexivity. Qed.

Lemma configuracion_actualizar_tasa_cambio (nueva_tasa : Q) (s : store) :
  get_configuracion_moneda "tasa_usd_ves" (actualizar_tasa_cambio nueva_tasa s)
  = option_map (fun _ => str_float nueva_tasa)
      (get_configuracion_moneda "tasa_usd_ves" s).
Proof.
  unfold actualizar_tasa_cambio, get_configuracion_moneda. simpl.
  induction (configuracion_monedas s) as [|[k v] l IH]; simpl; [reflexivity|].
  destruct (String.eqb k "tasa_usd_ves") eqn:E; simpl; rewrite E; simpl;
    [reflexivity|exact IH].
Qed.


(** C10. Once [actualizar_tasa_cambio r] has run on a store that holds
    the rate row, [get_tasa_cambio] returns [r], and running
    [actualizar_tasa_cambio] again with that value leaves the whole
    [productos] table, so every derived sell and purchase price, as the
    first call left it.  The reading of the stored text is asked to
    give back the number that was written. *)
Theorem actualizar_tasa_cambio_idempotente :
  forall (r : Q) (s : store),
    get_configuracion_moneda "tasa_usd_ves" s <> None ->
    string_nonempty (str_float r) = true ->
    float_str (str_float r) = Some r ->
    get_tasa_cambio (actualizar_tasa_cambio r s) = inr r /\
    forall r',
      get_tasa_cambio (actualizar_tasa_cambio r s) = inr r' ->
      productos (actualizar_tasa_cambio r' (actualizar_tasa_cambio r s))
      = productos (actualizar_tasa_cambio r s).
Proof.
  intros r s Hrow Hne Hrt.
  assert (Hget : get_tasa_cambio (actualizar_tasa_cambio r s) = inr r).
  { unfold get_tasa_cambio. rewrite configuracion_actualizar_tasa_cambio.
    destruct (get_configuracion_moneda "tasa_usd_ves" s); [|now elim Hrow].
    simpl. now rewrite Hne, Hrt. }
  split; [exact Hget|].
  intros r' Hr'. rewrite Hget in Hr'. inversion Hr'; subst r'.
  rewrite !productos_actualizar_tasa_cambio. rewrite map_map.
  apply map_ext. intros p. unfold recalcula_fila.
  destruct (precio_venta_usd p) as [v|] eqn:Ev;
    [destruct (precio_compra_usd p) as [c|] eqn:Ec|]; simpl;
    rewrite ?Ev, ?Ec; reflexivity.
Qed.

(** C7, as the code has it.  [actualizar_tasa_cambio] is two units of
    work committed one after the other.  The committed states are the
    state before, a state in which only the rate row has changed (the
    products are as before), and the final state, in which the products
    are recomputed from the new rate. *)
Theorem actualizar_tasa_cambio_dos_confirmaciones :
  forall (nueva_tasa : Q) (s : store),
    exists s1,
      estados_confirmados (actualizar_tasa_cambio_pasos nueva_tasa) s
      = [s; s1; actualizar_tasa_cambio nueva_tasa s] /\
      productos s1 = productos s /\
      get_configuracion_moneda "tasa_usd_ves" s1
      = option_map (fun _ => str_float nueva_tasa)
          (get_configuracion_moneda "tasa_usd_ves" s) /\
      configuracion_monedas (actualizar_tasa_cambio nueva_tasa s)
      = configuracion_monedas s1 /\
      productos (actualizar_tasa_cambio nueva_tasa s)
      = map (recalcula_fila nueva_tasa) (productos s).
Proof.
  intros nueva_tasa s.
  exists (actualizar_configuracion_moneda "tasa_usd_ves" (str_float nueva_tasa) s).
  split; [reflexivity|]. split; [reflexivity|].
  split; [exact (configuracion_actualizar_tasa_cambio nueva_tasa s)|].
  split; reflexivity.
Qed.

(** The rate row written by [insert_initial_data] is never removed:
    every entry point keeps a row named [tasa_usd_ves]. *)
Lemma fila_tasa_se_conserva (op : operacion) (s : store) :
  get_configuracion_moneda "tasa_usd_ves" s <> None ->
  get_configuracion_moneda "tasa_usd_ves" (ejecutar op s) <> None.
Proof.
  intros H.
  assert (Hsame : forall s', misma_configuracion s s' ->
            get_configuracion_moneda "tasa_usd_ves" s' <> None).
  { intros s' E. unfold get_configuracion_moneda. rewrite E. exact H. }
  destruct op; cbn [ejecutar].
  - apply Hsame. apply (respeta_transaccion _ misma_configuracion_refl).
    por_configuracion.
  - apply Hsame. unfold api_crear_venta. destruct (req_items data) as [|i r];
      [reflexivity|].
    match goal with
    | |- context [crear_venta ?a ?b ?c ?d ?e ?f s] =>
        assert (H1 : misma_configuracion s (snd (crear_venta a b c d e f s)))
          by (apply (respeta_transaccion _ misma_configuracion_refl);
              por_configuracion);
        destruct (crear_venta a b c d e f s) as [[e0|v] s1]; simpl in H1
    end; [exact H1|].
    assert (Hp : forall l t, misma_configuracion t (snd (registrar_pagos v l t))).
    { induction l as [|pg l IH]; intros t; [reflexivity|].
      simpl. unfold registrar_pago_documento, transaccion. cbv zeta.
      unfold misma_configuracion in *. rewrite IH. reflexivity. }
    specialize (Hp (req_pagos data) s1).
    destruct (registrar_pagos v (req_pagos data) s1) as [[e0|u] s2];
      simpl in *; unfold misma_configuracion in *; congruence.
  - apply Hsame. apply (respeta_transaccion _ misma_configuracion_refl).
    por_configuracion.
  - apply Hsame. unfold agregar_producto.
    match goal with
    | |- context [transaccion ?m s] =>
        assert (H1 : misma_configuracion s (snd (transaccion m s)))
          by (apply (respeta_transaccion _ misma_configuracion_refl);
              por_configuracion);
        destruct (transaccion m s) as [[e|a] s']
    end; [destruct e|]; exact H1.
  - apply Hsame. unfold api_crear_producto.
    match goal with
    | |- context [transaccion ?m s] =>
        assert (H1 : misma_configuracion s (snd (transaccion m s)))
          by (apply (respeta_transaccion _ misma_configuracion_refl);
              por_configuracion);
        destruct (transaccion m s) as [[e|a] s']
    end; exact H1.
  - apply Hsame. apply (respeta_transaccion _ misma_configuracion_refl).
    por_configuracion.
  - apply Hsame. unfold api_producto_put.
    match goal with
    | |- context [transaccion ?m s] =>
        assert (H1 : misma_configuracion s (snd (transaccion m s)))
          by (apply (respeta_transaccion _ misma_configuracion_refl);
              por_configuracion);
        destruct (transaccion m s) as [[e|a] s']
    end; exact H1.
  - apply Hsame. reflexivity.
  - rewrite configuracion_actualizar_tasa_cambio.
    destruct (get_configuracion_moneda "tasa_usd_ves" s); [discriminate|].
    now elim H.
  - apply Hsame. apply (respeta_transaccion _ misma_configuracion_refl).
    por_configuracion.
Qed.

End Tasa.



Lemma actualizar_tasa_cambio_idempotente_witness :
  @get_tasa_cambio texto_racional
    (@actualizar_tasa_cambio texto_racional 50 store_dos_precios) = inr 50 /\
  forall r',
    @get_tasa_cambio texto_racional
      (@actualizar_tasa_cambio texto_racional 50 store_dos_precios) = inr r' ->
    productos (@actualizar_tasa_cambio texto_racional r'
                 (@actualizar_tasa_cambio texto_racional 50 store_dos_precios))
    = productos (@actualizar_tasa_cambio texto_racional 50 store_dos_precios).
Proof.
  apply (@actualizar_tasa_cambio_idempotente texto_racional 50 store_dos_precios).
  - vm_compute. discriminate.
  - vm_compute. reflexivity.
  - vm_compute. reflexivity.
Defined.

(** C7, as worded: between the two commits a reader sees the new rate
    next to a price derived from the old one.  With the rate going from
    36.50 to 40, the middle committed state answers 40 to
    [get_tasa_cambio] while the product with both foreign prices still
    shows 365 = ROUND(10 * 36.50, 2), not 400. *)
Lemma tasa_nueva_con_precios_viejos :
  exists s1 p,
    In s1 (estados_confirmados
             (@actualizar_tasa_cambio_pasos texto_racional 40) store_dos_precios) /\
    @get_tasa_cambio texto_racional store_dos_precios = inr 36.50 /\
    @get_tasa_cambio texto_racional s1 = inr 40 /\
    In p (productos s1) /\
    precio_venta_usd p = Some 10 /\ precio_compra_usd p = Some 8 /\
    precio_venta p == sql_round2 (10 * 36.50) /\
    ~ (precio_venta p == sql_round2 (10 * 40)).
Proof.
  exists (actualizar_configuracion_moneda "tasa_usd_ves"
            (@str_float texto_racional 40) store_dos_precios),
         producto_dos_precios.
  split; [right; left; reflexivity|].
  split; [vm_compute; reflexivity|].
  split; [vm_compute; reflexivity|].
  split; [right; left; reflexivity|].
  split; [reflexivity|]. split; [reflexivity|].
  split; vm_compute; [reflexivity|discriminate].
Qed.

(** ** Product update and soft delete *)

Section Producto.
Context {FT : FloatText}.

Lemma id_fila_put (data : datos_producto) (tasa : Q) (p : producto) :
  id (fila_put data tasa p) = id p.
Proof. reflexivity. Qed.

Lemma select_stock_desactivado (pid pid' : Z) (s : store) :
  select_stock_actual pid' (update_producto pid desactivado s)
  = select_stock_actual pid' s.
Proof.
  unfold select_stock_actual.
  rewrite select_producto_update by reflexivity.
  destruct (select_producto pid' s) as [p|]; simpl; [|reflexivity].
  destruct (Z.eqb (id p) pid); reflexivity.
Qed.

Lemma select_stock_fila_put (pid pid' : Z) (data : datos_producto) (tasa : Q)
    (s : store) :
  select_stock_actual pid' (update_producto pid (fila_put data tasa) s)
  = if Z.eqb pid' pid
    then option_map (fun _ => o_default 0 (d_stock_actual data))
           (select_stock_actual pid' s)
    else select_stock_actual pid' s.
Proof.
  unfold select_stock_actual.
  rewrite select_producto_update by (intros; apply id_fila_put).
  destruct (select_producto pid' s) as [p|] eqn:E; simpl.
  - rewrite (select_producto_id _ _ _ E).
    destruct (Z.eqb pid' pid); reflexivity.
  - destruct (Z.eqb pid' pid); reflexivity.
Qed.

(** C6, as the code has it.  The soft delete leaves every product's
    stock as it was, and neither the soft delete nor the update writes
    a movement row.  The update does write the stock column: when it
    succeeds, the product it names gets the stock value of the request
    body, 0 when the body has none, and the other products keep
    theirs. *)
Theorem producto_put_delete_stock :
  forall (producto_id : Z) (data : datos_producto) (s : store) (pid : Z),
    select_stock_actual pid (snd (api_producto_delete producto_id s))
    = select_stock_actual pid s /\
    movimientos_inventario (snd (api_producto_delete producto_id s))
    = movimientos_inventario s /\
    movimientos_inventario (snd (api_producto_put producto_id data s))
    = movimientos_inventario s /\
    select_stock_actual pid (snd (api_producto_put producto_id data s))
    = if (r_success (fst (api_producto_put producto_id data s))
          && Z.eqb pid producto_id)%bool
      then option_map (fun _ => o_default 0 (d_stock_actual data))
             (select_stock_actual pid s)
      else select_stock_actual pid s.
Proof.
  intros producto_id data s pid.
  split; [apply select_stock_desactivado|].
  split; [reflexivity|].
  unfold api_producto_put, transaccion, bind, consulta.
  destruct (get_tasa_cambio s) as [e|tasa]; [split; reflexivity|].
  destruct (select_producto producto_id s) as [p|] eqn:Ep.
  - destruct (codigo_en_uso _ _ s); [split; reflexivity|].
    unfold ejecuta. cbn [fst snd r_success respuesta_ok andb].
    split; [reflexivity|]. apply select_stock_fila_put.
  - unfold ret. cbn [fst snd r_success respuesta_ok andb].
    split; [reflexivity|].
    destruct (Z.eqb pid producto_id) eqn:E; [|reflexivity].
    apply Z.eqb_eq in E. subst pid.
    unfold select_stock_actual. rewrite Ep. reflexivity.
Qed.

End Producto.

(** C6, as worded: the update sets stock.  The product has 5 in stock;
    a successful update whose body carries 7 leaves it at 7, and no
    movement row records the change. *)
Lemma api_producto_put_cambia_stock :
  select_stock_actual 1 store_demo = Some 5 /\
  r_success (fst (@api_producto_put texto_racional 1 datos_demo store_demo)) = true /\
  movimientos_inventario
    (snd (@api_producto_put texto_racional 1 datos_demo store_demo)) = [] /\
  exists q,
    select_stock_actual 1
      (snd (@api_producto_put texto_racional 1 datos_demo store_demo)) = Some q /\
    ~ (q == 5).
Proof.
  split; [reflexivity|]. split; [vm_compute; reflexivity|].
  split; [vm_compute; reflexivity|].
  eexists. split; [vm_compute; reflexivity|]. vm_compute. discriminate.
Qed.

(** ** Search *)

Lemma insertar_perm (key : producto -> clave) (p : producto) (l : list producto) :
  Permutation (insertar key p l) (p :: l).
Proof.
  induction l as [|q r IH]; simpl; [apply Permutation_refl|].
  destruct (clave_leb (key p) (key q)); [apply Permutation_refl|].
  apply Permutation_trans with (q :: p :: r).
  - now apply perm_skip.
  - apply perm_swap.
Qed.

Lemma order_by_perm (key : producto -> clave) (l : list producto) :
  Permutation (order_by key l) l.
Proof.
  induction l as [|p r IH]; simpl; [apply perm_nil|].
  apply Permutation_trans with (p :: order_by key r).
  - apply insertar_perm.
  - now apply perm_skip.
Qed.

Lemma insertar_Forall (P : producto -> Prop) (key : producto -> clave)
    (p : producto) (l : list producto) :
  P p -> Forall P l -> Forall P (insertar key p l).
Proof.
  intros Hp Hl. induction Hl as [|q r Hq Hr IH]; simpl.
  - now constructor.
  - destruct (clave_leb (key p) (key q)); repeat constructor; assumption.
Qed.

Section PrimeroExactos.
Variable e : producto -> bool.

Let key (p : producto) : clave := (if e p then 1%nat else 2%nat, nombre p).

Lemma insertar_particion (p : producto) (ex pa : list producto) :
  Forall (fun x => e x = true) ex ->
  Forall (fun x => e x = false) pa ->
  exists ex' pa',
    insertar key p (ex ++ pa) = ex' ++ pa' /\
    Forall (fun x => e x = true) ex' /\
    Forall (fun x => e x = false) pa'.
Proof.
  intros Hex Hpa. induction Hex as [|q ex0 Hq Hex0 IH].
  - simpl. destruct (e p) eqn:Ep.
    + exists [p], pa. split; [|split; [now repeat constructor|exact Hpa]].
      destruct Hpa as [|q r Hq Hr]; [reflexivity|].
      simpl. unfold clave_leb, key. rewrite Ep, Hq. reflexivity.
    + exists [], (insertar key p pa). split; [reflexivity|].
      split; [constructor|]. now apply insertar_Forall.
  - simpl. destruct (clave_leb (key p) (key q)) eqn:El.
    + exists (p :: q :: ex0), pa. split; [reflexivity|].
      split; [|exact Hpa].
      constructor; [|now constructor].
      unfold clave_leb, key in El. rewrite Hq in El.
      destruct (e p); [reflexivity|discriminate].
    + destruct IH as [ex' [pa' [Heq [H1 H2]]]].
      exists (q :: ex'), pa'. split; [simpl; now rewrite Heq|].
      split; [now constructor|exact H2].
Qed.

Lemma order_by_particion (l : list producto) :
  exists ex pa,
    order_by key l = ex ++ pa /\
    Forall (fun x => e x = true) ex /\
    Forall (fun x => e x = false) pa.
Proof.
  induction l as [|p r IH]; simpl.
  - exists [], []. repeat split; constructor.
  - destruct IH as [ex [pa [Heq [H1 H2]]]]. rewrite Heq.
    now apply insertar_particion.
Qed.

End PrimeroExactos.

(** C9, as the code has it.  When the stripped term is not empty and is
    the scan code of an active product, [buscar_productos] returns the
    rows of the code query: the active products whose scan code equals
    the term or matches [LIKE '%term%'], each as often as the table has
    it, and nothing else; those whose code equals the term come first,
    the partial matches after them. *)
Theorem buscar_productos_codigo_exacto :
  forall (termino_busqueda : string) (s : store),
    string_nonempty (strip termino_busqueda) = true ->
    (exists p, In p (productos s) /\ activo p = true /\
               codigo_barras p = Some (strip termino_busqueda)) ->
    exists exactos parciales,
      buscar_productos termino_busqueda s = filas s (exactos ++ parciales) /\
      Permutation (exactos ++ parciales)
        (filter (where_exacta (strip termino_busqueda)) (productos s)) /\
      Forall (fun p => sql_eq (codigo_barras p) (strip termino_busqueda) = true)
             exactos /\
      Forall (fun p => sql_eq (codigo_barras p) (strip termino_busqueda) = false)
             parciales.
Proof.
  intros termino_busqueda s Hne [p [Hin [Hact Hcod]]].
  set (t := strip termino_busqueda) in *.
  destruct (order_by_particion (fun x => sql_eq (codigo_barras x) t)
              (filter (where_exacta t) (productos s)))
    as [ex [pa [Heq [Hex Hpa]]]].
  exists ex, pa.
  assert (Hperm : Permutation (ex ++ pa) (filter (where_exacta t) (productos s))).
  { rewrite <- Heq. apply order_by_perm. }
  split; [|split; [exact Hperm|split; assumption]].
  unfold buscar_productos. fold t. rewrite Hne. cbn [negb].
  unfold rango_exacta.
  change (order_by _ (filter (where_exacta t) (productos s))) with
    (order_by (fun p0 => (if sql_eq (codigo_barras p0) t then 1%nat else 2%nat,
                          nombre p0))
              (filter (where_exacta t) (productos s))) in Heq.
  rewrite Heq.
  destruct (ex ++ pa) as [|x r] eqn:E; [|reflexivity].
  exfalso.
  assert (Hp : In p (filter (where_exacta t) (productos s))).
  { apply filter_In. split; [exact Hin|].
    unfold where_exacta, sql_eq. rewrite Hact, Hcod, String.eqb_refl.
    reflexivity. }
  apply (Permutation_in _ (Permutation_sym Hperm)) in Hp. destruct Hp.
Qed.

Lemma buscar_productos_codigo_exacto_witness :
  exists exactos parciales,
    buscar_productos " 123 " store_dos_precios
    = filas store_dos_precios (exactos ++ parciales) /\
    Permutation (exactos ++ parciales)
      (filter (where_exacta (strip " 123 ")) (productos store_dos_precios)) /\
    Forall (fun p => sql_eq (codigo_barras p) (strip " 123 ") = true) exactos /\
    Forall (fun p => sql_eq (codigo_barras p) (strip " 123 ") = false) parciales.
Proof.
  apply buscar_productos_codigo_exacto.
  - reflexivity.
  - exists producto_demo. split; [left; reflexivity|].
    split; reflexivity.
Defined.

(** C9, as worded: partial matches are returned too.  Searching the
    code 123, which an active product carries, also returns the product
    whose code is 1234, after the exact match. *)
Lemma buscar_productos_devuelve_parciales :
  (exists p, In p (productos store_dos_precios) /\ activo p = true /\
             codigo_barras p = Some "123"%string) /\
  map (fun f => codigo_barras (fst f))
      (buscar_productos "123" store_dos_precios)
  = [Some "123"%string; Some "1234"%string] /\
  exists f,
    In f (buscar_productos "123" store_dos_precios) /\
    sql_eq (codigo_barras (fst f)) "123" = false.
Proof.
  split; [exists producto_demo; split; [left; reflexivity|split; reflexivity]|].
  split; [vm_compute; reflexivity|].
  exists (producto_dos_precios, None).
  split; [vm_compute; right; left; reflexivity|reflexivity].
Qed.

(** ** The rate row in every reachable store *)

(** Starting from the store [insert_initial_data] leaves, any sequence
    of entry points ends in a store that still holds the rate row, so
    the row asked for by the idempotence statement is always there. *)
Lemma fila_tasa_presente {FT : FloatText} (ops : list operacion) :
  get_configuracion_moneda "tasa_usd_ves"
    (fold_left (fun s op => ejecutar op s) ops store_inicial) <> None.
Proof.
  assert (H : forall s, get_configuracion_moneda "tasa_usd_ves" s <> None ->
            get_configuracion_moneda "tasa_usd_ves"
              (fold_left (fun s op => ejecutar op s) ops s) <> None).
  { induction ops as [|op r IH]; intros s Hs; [exact Hs|].
    simpl. apply IH. now apply fila_tasa_se_conserva. }
  apply H. discriminate.
Qed.

(** ** The concrete text interface reads back what it writes *)

Lemma partir_app (c : ascii) (a b : string) :
  sin_caracter c a ->
  partir c (a ++ String c b) = Some (a, b).
Proof.
  induction a as [|d r IH]; simpl.
  - intros _. now rewrite Ascii.eqb_refl.
  - intros [Hd Hr]. rewrite Hd, (IH Hr). reflexivity.
Qed.

Lemma string_of_uint_vacio_sin_barra (d : Decimal.uint) :
  sin_caracter "/" (NilEmpty.string_of_uint d).
Proof. induction d; simpl; try split; try reflexivity; auto. Qed.

Lemma string_of_uint_sin_barra (d : Decimal.uint) :
  sin_caracter "/" (NilZero.string_of_uint d).
Proof.
  destruct d; try exact (string_of_uint_vacio_sin_barra _).
  simpl. split; reflexivity.
Qed.

Lemma str_int_sin_barra (n : Z) : sin_caracter "/" (str_int n).
Proof.
  unfold str_int. destruct (Z.to_int n) as [d|d]; simpl.
  - apply string_of_uint_sin_barra.
  - split; [reflexivity|apply string_of_uint_sin_barra].
Qed.

Lemma leer_Z_str_int (n : Z) : leer_Z (str_int n) = Some n.
Proof.
  unfold leer_Z, str_int.
  rewrite NilZero.isi.
  - simpl. now rewrite DecimalZ.of_to.
  - destruct n; simpl; try discriminate.
    intro H. injection H as H.
    exact (DecimalPos.Unsigned.to_uint_nonnil p H).
  - destruct n; simpl; try discriminate.
    intro H. injection H as H.
    exact (DecimalPos.Unsigned.to_uint_nonnil p H).
Qed.

Lemma leer_escribir (q : Q) : leer_Q (escribir_Q q) = Some q.
Proof.
  unfold leer_Q, escribir_Q.
  change ("/" ++ ?x)%string with (String "/" x).
  rewrite partir_app by apply str_int_sin_barra.
  rewrite !leer_Z_str_int. destruct q; reflexivity.
Qed.

Lemma escribir_no_vacio (q : Q) : string_nonempty (escribir_Q q) = true.
Proof.
  unfold escribir_Q.
  destruct (str_int (Qnum q)); reflexivity.
Qed.

(** With that interface the rate survives the round trip through the
    configuration table in every reachable store, whatever it is. *)
Lemma get_tasa_cambio_tras_actualizar (r : Q) (ops : list operacion) :
  let s := fold_left (fun s op => @ejecutar texto_racional op s) ops store_inicial in
  @get_tasa_cambio texto_racional (@actualizar_tasa_cambio texto_racional r s)
  = inr r.
Proof.
  intros s. unfold get_tasa_cambio.
  rewrite configuracion_actualizar_tasa_cambio.
  pose proof (@fila_tasa_presente texto_racional ops) as H. fold s in H.
  destruct (get_configuracion_moneda "tasa_usd_ves" s); [|now elim H].
  simpl. now rewrite escribir_no_vacio, leer_escribir.
Qed.


(* ================================================================== *)
(** * Further properties of the ledger                                 *)
(* ================================================================== *)

(** ** Loops over a list in two parts *)

Lemma for_each_app {A} (body : A -> tx unit) (xs ys : list A) (s : store) :
  for_each body (xs ++ ys) s
  = match for_each body xs s with
    | inl e => inl e
    | inr (_, s1) => for_each body ys s1
    end.
Proof.
  revert s. induction xs as [|x r IH]; intros s; simpl; [reflexivity|].
  unfold bind. destruct (body x s) as [e|[u s1]]; [reflexivity|]. apply IH.
Qed.

(** ** A purchase naming a missing product *)

Lemma compra_item_falta (compra_id : Z) (tasa : Q) (it : item_compra) (s : store) :
  select_producto (ic_producto_id it) s = None ->
  compra_item compra_id tasa it s
  = inl (Exception_msg
           ("Producto id " ++ str_int (ic_producto_id it) ++ " no encontrado")%string).
Proof.
  intros H. unfold compra_item, bind, ejecuta, consulta. cbv zeta.
  rewrite select_stock_update_costo.
  change (select_stock_actual (ic_producto_id it) (insert_detalle_compra _ s))
    with (select_stock_actual (ic_producto_id it) s).
  unfold select_stock_actual. rewrite H. reflexivity.
Qed.

(** X1. A purchase whose lines name existing products up to a first
    line that names a product without a row raises the not-found
    exception carrying that line's product id, and the committed store
    is the store before the call. *)
Theorem crear_compra_producto_inexistente :
  forall (proveedor_id : Z) (documento fecha : string) (tasa : Q)
         (previos : list item_compra) (it : item_compra)
         (resto : list item_compra) (nota : string) (s : store),
    (forall x, In x previos -> select_producto (ic_producto_id x) s <> None) ->
    select_producto (ic_producto_id it) s = None ->
    crear_compra proveedor_id documento fecha tasa (previos ++ it :: resto) nota s
    = (inl (Exception_msg
              ("Producto id " ++ str_int (ic_producto_id it) ++ " no encontrado")%string),
       s).
Proof.
  intros proveedor_id documento fecha tasa previos it resto nota s Hprev Hit.
  unfold crear_compra, transaccion, bind.
  cbv beta zeta. unfold insert_compra at 1. cbv beta zeta.
  rewrite for_each_app.
  match goal with
  | |- context [for_each (compra_item ?v tasa) previos ?s0] =>
      destruct (for_each_compra_existe v tasa previos s0)
        as [s1 [n [Hrun [_ [_ [_ Hcost]]]]]]; [exact Hprev|];
      rewrite Hrun;
      assert (Hnone : select_producto (ic_producto_id it) s1 = None)
  end.
  { apply select_stock_None, costo_Some_iff_stock. rewrite Hcost.
    match goal with
    | |- context [costo ?p ?t] =>
        assert (E : costo p t = None)
          by (apply costo_Some_iff_stock, select_stock_None; exact Hit)
    end.
    rewrite E. destruct (ultima_linea _ _); reflexivity. }
  simpl. unfold bind. rewrite (compra_item_falta _ _ _ _ Hnone). reflexivity.
Qed.

Lemma crear_compra_producto_inexistente_witness :
  crear_compra 1 "F-003" "2024-02-01" 40
    ([ {| ic_producto_id := 1; ic_cantidad := 2; ic_precio_unitario_usd := Some 8 |} ]
     ++ {| ic_producto_id := 9; ic_cantidad := 1; ic_precio_unitario_usd := None |}
     :: [ {| ic_producto_id := 1; ic_cantidad := 1; ic_precio_unitario_usd := Some 8 |} ])
    "" store_demo
  = (inl (Exception_msg
            ("Producto id " ++ str_int 9 ++ " no encontrado")%string), store_demo).
Proof.
  apply (crear_compra_producto_inexistente 1 "F-003" "2024-02-01" 40
    [ {| ic_producto_id := 1; ic_cantidad := 2; ic_precio_unitario_usd := Some 8 |} ]
    {| ic_producto_id := 9; ic_cantidad := 1; ic_precio_unitario_usd := None |}).
  - intros x [<-|[]]. vm_compute. discriminate.
  - reflexivity.
Defined.

(** ** What a successful line left behind *)

Lemma venta_item_inv (venta_id : Z) (item : item_venta) (s s1 : store) (u : unit) :
  venta_item venta_id item s = inr (u, s1) ->
  exists q, select_stock_actual (iv_producto_id item) s = Some q /\
            s1 = tras_venta_item venta_id item q s.
Proof.
  intros H. destruct (select_stock_actual (iv_producto_id item) s) as [q|] eqn:E.
  - rewrite (venta_item_existe _ _ _ _ E) in H. inversion H. now exists q.
  - apply select_stock_None in E. rewrite (venta_item_falta _ _ _ E) in H.
    discriminate.
Qed.

Lemma compra_item_inv (compra_id : Z) (tasa : Q) (it : item_compra)
    (s s1 : store) (u : unit) :
  compra_item compra_id tasa it s = inr (u, s1) ->
  exists q, select_stock_actual (ic_producto_id it) s = Some q /\
            s1 = tras_compra_item compra_id tasa it q s.
Proof.
  intros H. destruct (select_stock_actual (ic_producto_id it) s) as [q|] eqn:E.
  - rewrite (compra_item_existe _ _ _ _ _ E) in H. inversion H. now exists q.
  - apply select_stock_None in E. rewrite (compra_item_falta _ _ _ _ E) in H.
    discriminate.
Qed.

Lemma for_each_venta_filas (venta_id : Z) (items_venta : list item_venta) :
  forall s s',
    for_each (venta_item venta_id) items_venta s = inr (tt, s') ->
    detalle_ventas s' = detalle_ventas s ++ map (detalle_de_venta venta_id) items_venta /\
    ventas s' = ventas s /\ seq_ventas s' = seq_ventas s.
Proof.
  induction items_venta as [|item r IH]; intros s s' H.
  - inversion H; subst. now rewrite app_nil_r.
  - simpl in H. unfold bind in H.
    destruct (venta_item venta_id item s) as [e|[u s1]] eqn:E; [discriminate|].
    destruct (venta_item_inv _ _ _ _ _ E) as [q [_ ->]].
    destruct (IH _ _ H) as [Hd [Hv Hs]].
    rewrite Hd, Hv, Hs. simpl. rewrite <- app_assoc. repeat split.
Qed.

Lemma for_each_compra_filas (compra_id : Z) (tasa : Q) (items_compra : list item_compra) :
  forall s s',
    for_each (compra_item compra_id tasa) items_compra s = inr (tt, s') ->
    detalle_compras s'
    = detalle_compras s ++ map (detalle_de_compra compra_id tasa) items_compra /\
    compras s' = compras s /\ seq_compras s' = seq_compras s.
Proof.
  induction items_compra as [|it r IH]; intros s s' H.
  - inversion H; subst. now rewrite app_nil_r.
  - simpl in H. unfold bind in H.
    destruct (compra_item compra_id tasa it s) as [e|[u s1]] eqn:E; [discriminate|].
    destruct (compra_item_inv _ _ _ _ _ _ E) as [q [_ ->]].
    destruct (IH _ _ H) as [Hd [Hv Hs]].
    rewrite Hd, Hv, Hs. simpl. rewrite <- app_assoc. repeat split.
Qed.

Lemma fold_left_suma_map {A} (f : A -> Q) (l : list A) (a : Q) :
  fold_left (fun acc x => acc + f x) l a = fold_left Qplus (map f l) a.
Proof.
  revert a. induction l as [|x r IH]; intros a; simpl; [reflexivity|]. apply IH.
Qed.

(** X2. A sale whose lines all name existing products appends one
    header row and one detail row per line, in line order; the header's
    subtotal is the sum of the detail rows' subtotals and its total is
    that subtotal plus tax minus discount. *)
Theorem crear_venta_filas :
  forall (items_venta : list item_venta) (cliente : option Z) (metodo : string)
         (desc imp : Q) (nota : string) (s : store),
    (forall item, In item items_venta ->
                  select_producto (iv_producto_id item) s <> None) ->
    exists s' cabecera,
      crear_venta items_venta cliente metodo desc imp nota s
      = (inr (seq_ventas s + 1)%Z, s') /\
      ventas s' = ventas s ++ [cabecera] /\
      v_id cabecera = (seq_ventas s + 1)%Z /\
      detalle_ventas s'
      = detalle_ventas s ++ map (detalle_de_venta (seq_ventas s + 1)) items_venta /\
      v_subtotal cabecera
      = Qsum (map dv_subtotal
                  (map (detalle_de_venta (seq_ventas s + 1)) items_venta)) /\
      v_total cabecera = v_subtotal cabecera + imp - desc.
Proof.
  intros items_venta cliente metodo desc imp nota s Hall.
  unfold crear_venta, transaccion, bind.
  cbv beta zeta. unfold insert_venta at 1. cbv beta zeta.
  match goal with
  | |- context [for_each (venta_item ?v) items_venta ?s0] =>
      destruct (for_each_venta_existe v items_venta s0) as [s' [Hrun _]];
        [exact Hall|];
      destruct (for_each_venta_filas v items_venta s0 s' Hrun) as [Hd [Hv _]]
  end.
  rewrite Hrun. simpl in Hd, Hv.
  eexists s', _. split; [reflexivity|]. split; [exact Hv|].
  split; [reflexivity|]. split; [exact Hd|]. split; [|reflexivity].
  simpl. rewrite map_map. reflexivity.
Qed.

Lemma crear_venta_filas_witness :
  exists s' cabecera,
    crear_venta
      [ {| iv_producto_id := 1; iv_cantidad := 2; iv_precio_unitario := 400 |} ]
      None "efectivo" 0 0 "" store_demo = (inr 1%Z, s') /\
    ventas s' = [cabecera] /\
    v_total cabecera == 800.
Proof.
  destruct (crear_venta_filas
    [ {| iv_producto_id := 1; iv_cantidad := 2; iv_precio_unitario := 400 |} ]
    None "efectivo" 0 0 "" store_demo)
    as [s' [h [Hrun [Hv [_ [_ [Hsub Htot]]]]]]].
  - intros item [<-|[]]. vm_compute. discriminate.
  - exists s', h. split; [exact Hrun|]. split; [exact Hv|].
    rewrite Htot, Hsub. vm_compute. reflexivity.
Defined.

(** X3. A purchase whose lines all name existing products appends one
    header row, stamped with the purchase's rate, and one detail row
    per line, in line order; the header's subtotal is the sum of the
    detail rows' local subtotals, and its total equals its subtotal. *)
Theorem crear_compra_filas :
  forall (proveedor_id : Z) (documento fecha : string) (tasa : Q)
         (items_compra : list item_compra) (nota : string) (s : store),
    (forall it, In it items_compra ->
                select_producto (ic_producto_id it) s <> None) ->
    exists s' cabecera,
      crear_compra proveedor_id documento fecha tasa items_compra nota s
      = (inr (seq_compras s + 1)%Z, s') /\
      compras s' = compras s ++ [cabecera] /\
      c_id cabecera = (seq_compras s + 1)%Z /\
      c_tasa_cambio cabecera = tasa /\
      detalle_compras s'
      = detalle_compras s
        ++ map (detalle_de_compra (seq_compras s + 1) tasa) items_compra /\
      c_subtotal_ves cabecera
      = Qsum (map dc_subtotal_ves
                  (map (detalle_de_compra (seq_compras s + 1) tasa) items_compra)) /\
      c_total_ves cabecera = c_subtotal_ves cabecera.
Proof.
  intros proveedor_id documento fecha tasa items_compra nota s Hall.
  unfold crear_compra, transaccion, bind.
  cbv beta zeta. unfold insert_compra at 1. cbv beta zeta.
  match goal with
  | |- context [for_each (compra_item ?v tasa) items_compra ?s0] =>
      destruct (for_each_compra_existe v tasa items_compra s0)
        as [s' [n [Hrun _]]]; [exact Hall|];
      destruct (for_each_compra_filas v tasa items_compra s0 s' Hrun)
        as [Hd [Hv _]]
  end.
  rewrite Hrun. simpl in Hd, Hv.
  eexists s', _. split; [reflexivity|]. split; [exact Hv|].
  split; [reflexivity|]. split; [reflexivity|]. split; [exact Hd|].
  split; [|reflexivity].
  simpl. rewrite map_map. unfold Qsum. apply fold_left_suma_map.
Qed.

Lemma crear_compra_filas_witness :
  exists s' cabecera,
    crear_compra 1 "F-001" "2024-01-15" 40
      [ {| ic_producto_id := 1; ic_cantidad := 10;
           ic_precio_unitario_usd := Some 8 |} ] "" store_demo
    = (inr 1%Z, s') /\
    compras s' = [cabecera] /\
    c_total_ves cabecera == 3200.
Proof.
  destruct (crear_compra_filas 1 "F-001" "2024-01-15" 40
    [ {| ic_producto_id := 1; ic_cantidad := 10;
         ic_precio_unitario_usd := Some 8 |} ] "" store_demo)
    as [s' [h [Hrun [Hv [_ [_ [_ [Hsub Htot]]]]]]]].
  - intros it [<-|[]]. vm_compute. discriminate.
  - exists s', h. split; [exact Hrun|]. split; [exact Hv|].
    rewrite Htot, Hsub. vm_compute. reflexivity.
Defined.

(** ** Product keys *)

Lemma ids_ajeno (s s' : store) :
  productos s' = productos s -> seq_productos s' = seq_productos s ->
  ids_acotados s -> ids_acotados s'.
Proof. unfold ids_acotados. intros -> ->. auto. Qed.

Lemma ids_map (g : producto -> producto) (s : store) :
  (forall p, id (g p) = id p) ->
  ids_acotados s -> ids_acotados (set_productos (map g) s).
Proof.
  intros Hg [Hb Hn]. split; simpl.
  - apply Forall_map. eapply Forall_impl; [|exact Hb].
    intros p Hp. simpl. now rewrite Hg.
  - rewrite map_map. rewrite (map_ext _ id Hg). exact Hn.
Qed.

Lemma ids_update_producto (pid : Z) (f : producto -> producto) (s : store) :
  (forall p, id (f p) = id p) ->
  ids_acotados s -> ids_acotados (update_producto pid f s).
Proof.
  intros Hf. apply ids_map. intros p. destruct (Z.eqb (id p) pid); auto.
Qed.

Lemma ids_insert_producto (fila : Z -> producto) (s s1 : store) (pid : Z) :
  (forall i, id (fila i) = i) ->
  insert_producto fila s = inr (pid, s1) ->
  ids_acotados s -> ids_acotados s1.
Proof.
  intros Hid H [Hb Hn]. unfold insert_producto in H.
  destruct (codigo_en_uso _ _ _); [discriminate|]. inversion H; subst.
  split; simpl.
  - apply Forall_app. split.
    + eapply Forall_impl; [|exact Hb]. intros p Hp. simpl in *. lia.
    + constructor; [rewrite Hid; lia|constructor].
  - rewrite map_app. simpl. rewrite Hid.
    apply NoDup_app; [exact Hn|repeat constructor; intros []|].
    intros x Hx [<-|[]]. apply in_map_iff in Hx. destruct Hx as [p [Hp Hin]].
    rewrite Forall_forall in Hb. specialize (Hb p Hin). simpl in Hb. lia.
Qed.

Lemma conserva_ids_refl (s : store) : conserva_ids s s.
Proof. intros H. exact H. Qed.

Lemma conserva_ids_trans (a b c : store) :
  conserva_ids a b -> conserva_ids b c -> conserva_ids a c.
Proof. unfold conserva_ids. auto. Qed.

Lemma id_recalcula_fila (tasa : Q) (p : producto) :
  id (recalcula_fila tasa p) = id p.
Proof.
  unfold recalcula_fila.
  destruct (precio_venta_usd p); [destruct (precio_compra_usd p)|]; reflexivity.
Qed.

Ltac hoja_ids :=
  first
    [ apply respeta_ejecuta; intro; unfold conserva_ids;
      first [ apply ids_update_producto; intro; reflexivity
            | apply ids_map; intro; apply id_recalcula_fila
            | apply ids_ajeno; reflexivity ]
    | match goal with
      | |- respeta _ (insert_producto _) =>
          let s := fresh "s" in let a := fresh "a" in
          let s' := fresh "s" in let H := fresh "H" in
          intros s a s' H; unfold conserva_ids;
          eapply ids_insert_producto; [ | exact H ]; intro; reflexivity
      | |- respeta _ _ =>
          let s := fresh "s" in let a := fresh "a" in
          let s' := fresh "s" in let H := fresh "H" in
          intros s a s' H; inversion H; subst; unfold conserva_ids;
          apply ids_ajeno; reflexivity
      end ].

Ltac por_ids := recorre conserva_ids_refl conserva_ids_trans hoja_ids.

(** Settles a goal about the store after a route built on one
    [transaccion], from what the unit of work respects. *)
Tactic Notation "en_transaccion" constr(R) constr(Hrefl) tactic(tac) :=
  match goal with
  | |- context [transaccion ?m ?s0] =>
      let H := fresh "Htx" in
      let e := fresh "e" in let a := fresh "a" in let s' := fresh "s" in
      assert (H : R s0 (snd (transaccion m s0)))
        by (apply (respeta_transaccion _ Hrefl); tac);
      destruct (transaccion m s0) as [[e|a] s'];
      [try destruct e|]; exact H
  end.

Lemma registrar_pagos_respeta (R : store -> store -> Prop) :
  (forall s, R s s) -> (forall a b c, R a b -> R b c -> R a c) ->
  (forall v n t m mo ta d s, R s (snd (registrar_pago_documento v n t m mo ta d s))) ->
  forall v l s, R s (snd (registrar_pagos v l s)).
Proof.
  intros Hrefl Htrans Hpago v l. induction l as [|pg r IH]; intros s.
  - apply Hrefl.
  - cbn [registrar_pagos].
    match goal with
    | |- context [registrar_pago_documento ?a ?b ?c ?d ?e ?f ?g s] =>
        pose proof (Hpago a b c d e f g s) as H1;
        destruct (registrar_pago_documento a b c d e f g s) as [[e0|i] s1]
    end; simpl in *; [exact H1|].
    eapply Htrans; [exact H1|apply IH].
Qed.

Section Claves.
Context {FT : FloatText}.

(** X4. Every entry point keeps the product keys sound: if no key
    exceeds the sequence counter and no key occurs twice before the
    call, the same holds after it. *)
Theorem ejecutar_conserva_ids :
  forall (op : operacion) (s : store),
    ids_acotados s -> ids_acotados (ejecutar op s).
Proof.
  intros op s. change (conserva_ids s (ejecutar op s)).
  destruct op; cbn [ejecutar].
  - apply (respeta_transaccion _ conserva_ids_refl). por_ids.
  - unfold api_crear_venta. destruct (req_items data) as [|i r];
      [apply conserva_ids_refl|].
    match goal with
    | |- context [crear_venta ?a ?b ?c ?d ?e ?f s] =>
        assert (H : conserva_ids s (snd (crear_venta a b c d e f s)))
          by (apply (respeta_transaccion _ conserva_ids_refl); por_ids);
        destruct (crear_venta a b c d e f s) as [[e0|v] s1]; simpl in H
    end; [exact H|].
    assert (Hp : conserva_ids s1 (snd (registrar_pagos v (req_pagos data) s1))).
    { apply (registrar_pagos_respeta _ conserva_ids_refl conserva_ids_trans).
      intros. apply (respeta_transaccion _ conserva_ids_refl). por_ids. }
    destruct (registrar_pagos v (req_pagos data) s1) as [[e0|u] s2];
      simpl in *; eapply conserva_ids_trans; eassumption.
  - apply (respeta_transaccion _ conserva_ids_refl). por_ids.
  - unfold agregar_producto.
    en_transaccion conserva_ids conserva_ids_refl por_ids.
  - unfold api_crear_producto.
    en_transaccion conserva_ids conserva_ids_refl por_ids.
  - apply (respeta_transaccion _ conserva_ids_refl). por_ids.
  - unfold api_producto_put.
    en_transaccion conserva_ids conserva_ids_refl por_ids.
  - simpl. unfold conserva_ids. apply ids_update_producto. intro; reflexivity.
  - unfold conserva_ids. intros H.
    change (ids_acotados
      (set_productos (map (recalcula_fila nueva_tasa))
         (actualizar_configuracion_moneda "tasa_usd_ves" (str_float nueva_tasa) s))).
    apply ids_map; [apply id_recalcula_fila|]. revert H. now apply ids_ajeno.
  - apply (respeta_transaccion _ conserva_ids_refl). por_ids.
Qed.

End Claves.

Lemma ejecutar_conserva_ids_witness :
  ids_acotados
    (@ejecutar texto_racional
       (OpAgregarProducto (Some "999"%string) "R" None None 10 None 4 0)
       store_catalogo).
Proof.
  apply ejecutar_conserva_ids. split; simpl.
  - repeat constructor; simpl; lia.
  - repeat constructor; simpl; intuition discriminate.
Defined.

(** ** The ledger accounts for the stock *)

Lemma suma_delta_app (pid : Z) (a b : list movimiento) :
  suma_delta pid (a ++ b) == suma_delta pid a + suma_delta pid b.
Proof.
  induction a as [|m r IH]; simpl; [ring|].
  destruct (Z.eqb (mi_producto_id m) pid); [rewrite IH; ring|exact IH].
Qed.

Lemma cuadra_refl (s : store) : cuadra s s.
Proof.
  exists []. split; [now rewrite app_nil_r|].
  intros pid q H. exists q. split; [exact H|]. simpl. ring.
Qed.

Lemma cuadra_trans (a b c : store) : cuadra a b -> cuadra b c -> cuadra a c.
Proof.
  intros [n1 [H1 S1]] [n2 [H2 S2]]. exists (n1 ++ n2). split.
  - rewrite H2, H1. now rewrite app_assoc.
  - intros pid q Hq. destruct (S1 _ _ Hq) as [q1 [Hq1 E1]].
    destruct (S2 _ _ Hq1) as [q2 [Hq2 E2]].
    exists q2. split; [exact Hq2|].
    rewrite E2, E1, suma_delta_app. ring.
Qed.

Lemma cuadra_stock_ajeno (s s' : store) :
  (forall pid, select_stock_actual pid s' = select_stock_actual pid s) ->
  movimientos_inventario s' = movimientos_inventario s ->
  cuadra s s'.
Proof.
  intros Hs Hm. exists []. split; [now rewrite app_nil_r|].
  intros pid q H. exists q. rewrite Hs. split; [exact H|]. simpl. ring.
Qed.

Lemma cuadra_ajeno (s s' : store) :
  productos s' = productos s ->
  movimientos_inventario s' = movimientos_inventario s ->
  cuadra s s'.
Proof.
  intros Hp Hm. apply cuadra_stock_ajeno; [|exact Hm].
  intros pid. unfold select_stock_actual, select_producto. now rewrite Hp.
Qed.

Lemma cuadra_stock_mov (pid0 : Z) (q0 q1 : Q) (m : movimiento) (s : store) :
  select_stock_actual pid0 s = Some q0 ->
  mi_producto_id m = pid0 ->
  delta m == q1 - q0 ->
  cuadra s (insert_movimiento m (update_stock pid0 q1 s)).
Proof.
  intros H0 Hm Hd. exists [m]. split; [reflexivity|].
  intros pid q Hq.
  change (select_stock_actual pid (insert_movimiento m ?t))
    with (select_stock_actual pid t).
  rewrite select_stock_update_stock. simpl. rewrite Hm.
  rewrite (Z.eqb_sym pid0 pid).
  destruct (Z.eqb pid pid0) eqn:E.
  - apply Z.eqb_eq in E. subst pid. rewrite Hq. simpl.
    exists q1. split; [reflexivity|].
    assert (q = q0) by congruence. subst q. rewrite Hd. ring.
  - exists q. split; [exact Hq|]. ring.
Qed.

Lemma respeta_cuadra_venta_item (venta_id : Z) (item : item_venta) :
  respeta cuadra (venta_item venta_id item).
Proof.
  intros s u s1 H. destruct (venta_item_inv _ _ _ _ _ H) as [q [Hq ->]].
  unfold tras_venta_item.
  eapply cuadra_trans; [|apply cuadra_stock_mov with (q0 := q)].
  - apply cuadra_ajeno; reflexivity.
  - exact Hq.
  - reflexivity.
  - unfold delta. simpl. ring.
Qed.

Lemma respeta_cuadra_compra_item (compra_id : Z) (tasa : Q) (it : item_compra) :
  respeta cuadra (compra_item compra_id tasa it).
Proof.
  intros s u s1 H. destruct (compra_item_inv _ _ _ _ _ _ H) as [q [Hq ->]].
  unfold tras_compra_item. cbv zeta.
  eapply cuadra_trans; [|apply cuadra_stock_mov with (q0 := q)].
  - apply cuadra_stock_ajeno; [|reflexivity].
    intros pid. rewrite select_stock_update_costo. reflexivity.
  - rewrite select_stock_update_costo. exact Hq.
  - reflexivity.
  - unfold delta. simpl. ring.
Qed.

Lemma respeta_cuadra_ajuste (producto_id : Z) (cantidad_sumar : Q)
    (motivo usuario : string) (s : store) :
  cuadra s (snd (actualizar_stock_producto producto_id cantidad_sumar
                   motivo usuario s)).
Proof.
  unfold actualizar_stock_producto, transaccion, bind, consulta.
  destruct (select_stock_actual producto_id s) as [q|] eqn:E; simpl.
  - apply cuadra_stock_mov with (q0 := q); [exact E|reflexivity|].
    unfold delta. simpl. ring.
  - apply cuadra_refl.
Qed.

Lemma select_stock_acotado (pid : Z) (q : Q) (s : store) :
  ids_acotados s -> select_stock_actual pid s = Some q ->
  (pid <= seq_productos s)%Z.
Proof.
  intros [Hb _] H. unfold select_stock_actual in H.
  destruct (select_producto pid s) as [p|] eqn:E; [|discriminate].
  pose proof (select_producto_id _ _ _ E) as Hid.
  unfold select_producto in E. apply find_some in E. destruct E as [Hin _].
  rewrite Forall_forall in Hb. specialize (Hb p Hin). simpl in Hb. lia.
Qed.

Lemma find_app_some {A} (f : A -> bool) (l r : list A) (x : A) :
  find f l = Some x -> find f (l ++ r) = Some x.
Proof.
  induction l as [|y l IH]; simpl; [discriminate|].
  destruct (f y); [auto|exact IH].
Qed.

Lemma find_app_none {A} (f : A -> bool) (l r : list A) :
  find f l = None -> find f (l ++ r) = find f r.
Proof.
  induction l as [|y l IH]; simpl; [reflexivity|].
  destruct (f y); [discriminate|exact IH].
Qed.

Lemma cuadra_alta (fila : Z -> producto) (s s1 : store) (pid : Z) :
  ids_acotados s ->
  insert_producto fila s = inr (pid, s1) ->
  cuadra s s1 /\
  forall m, mi_producto_id m = pid -> cuadra s (insert_movimiento m s1).
Proof.
  intros Hids H. unfold insert_producto in H.
  destruct (codigo_en_uso _ _ _); [discriminate|]. inversion H; subst. clear H.
  assert (Hst : forall p q, select_stock_actual p s = Some q ->
            select_stock_actual p
              (set_productos (fun l => l ++ [fila (seq_productos s + 1)%Z]) s)
            = Some q).
  { intros p q Hq. unfold select_stock_actual, select_producto in *. simpl.
    destruct (find (fun x => Z.eqb (id x) p) (productos s)) as [x|] eqn:E;
      [|discriminate].
    erewrite find_app_some; [exact Hq|exact E]. }
  split.
  - exists []. split; [simpl; now rewrite app_nil_r|].
    intros p q Hq. exists q. split; [exact (Hst p q Hq)|]. simpl. ring.
  - intros m Hm. exists [m]. split; [reflexivity|].
    intros p q Hq. exists q. split; [exact (Hst p q Hq)|].
    simpl. rewrite Hm.
    pose proof (select_stock_acotado _ _ _ Hids Hq) as Hle.
    destruct (Z.eqb (seq_productos s + 1) p) eqn:E; [|ring].
    apply Z.eqb_eq in E. lia.
Qed.

(** Like [recorre], but a loop body proved as a whole is used as it
    stands before it is taken apart. *)
Ltac recorre_unidades Hrefl Htrans unidad hoja :=
  repeat first
    [ progress unidad
    | apply (respeta_ret _ Hrefl)
    | apply respeta_raise
    | apply (respeta_consulta _ Hrefl)
    | apply (respeta_bind _ Htrans); [ | intro ]
    | apply (respeta_for_each _ Hrefl Htrans); intro
    | match goal with
      | |- respeta _ (match ?x with _ => _ end) => destruct x
      end
    | progress cbv zeta
    | progress hoja ].

Ltac unidad_cuadra :=
  first [ apply respeta_cuadra_venta_item | apply respeta_cuadra_compra_item ].

Ltac hoja_cuadra :=
  first
    [ apply respeta_ejecuta; intro; apply cuadra_ajeno; reflexivity
    | match goal with
      | |- respeta _ _ =>
          let s := fresh "s" in let a := fresh "a" in
          let s' := fresh "s" in let H := fresh "H" in
          intros s a s' H; inversion H; subst; apply cuadra_ajeno; reflexivity
      end ].

Ltac por_cuadra :=
  recorre_unidades cuadra_refl cuadra_trans unidad_cuadra hoja_cuadra.

Lemma stock_recalcula_fila (tasa : Q) (p : producto) :
  stock_actual (recalcula_fila tasa p) = stock_actual p.
Proof.
  unfold recalcula_fila.
  destruct (precio_venta_usd p); [destruct (precio_compra_usd p)|]; reflexivity.
Qed.

Section Cuadre.
Context {FT : FloatText}.

Lemma select_stock_actualizar_tasa_cambio (nueva_tasa : Q) (s : store) (pid : Z) :
  select_stock_actual pid (actualizar_tasa_cambio nueva_tasa s)
  = select_stock_actual pid s.
Proof.
  unfold select_stock_actual, select_producto.
  change (productos (actualizar_tasa_cambio nueva_tasa s))
    with (map (recalcula_fila nueva_tasa) (productos s)).
  rewrite find_map_id by apply id_recalcula_fila.
  destruct (find _ (productos s)) as [p|]; simpl; [|reflexivity].
  now rewrite stock_recalcula_fila.
Qed.

(** X5. Every entry point except the product update route leaves the
    ledger in step with the stock: from a store with sound keys, the
    movement rows it appends account, product by product, for the
    change of stock it makes (stock after = stock before + the signed
    quantities of the product's new rows). *)
Theorem ejecutar_cuadra :
  forall (op : operacion) (s : store),
    es_put op = false ->
    ids_acotados s ->
    cuadra s (ejecutar op s).
Proof.
  intros op s Hput Hids. destruct op; cbn [ejecutar]; try discriminate Hput.
  - apply (respeta_transaccion _ cuadra_refl). por_cuadra.
  - unfold api_crear_venta. destruct (req_items data) as [|i r];
      [apply cuadra_refl|].
    match goal with
    | |- context [crear_venta ?a ?b ?c ?d ?e ?f s] =>
        assert (H : cuadra s (snd (crear_venta a b c d e f s)))
          by (apply (respeta_transaccion _ cuadra_refl); por_cuadra);
        destruct (crear_venta a b c d e f s) as [[e0|v] s1]; simpl in H
    end; [exact H|].
    assert (Hp : cuadra s1 (snd (registrar_pagos v (req_pagos data) s1))).
    { apply (registrar_pagos_respeta _ cuadra_refl cuadra_trans).
      intros. apply (respeta_transaccion _ cuadra_refl). por_cuadra. }
    destruct (registrar_pagos v (req_pagos data) s1) as [[e0|u] s2];
      simpl in *; eapply cuadra_trans; eassumption.
  - apply (respeta_transaccion _ cuadra_refl). por_cuadra.
  - unfold agregar_producto, transaccion, bind.
    match goal with
    | |- context [insert_producto ?f s] =>
        destruct (insert_producto f s) as [e|[pid s1]] eqn:E
    end.
    + destruct e; apply cuadra_refl.
    + destruct (cuadra_alta _ _ _ _ Hids E) as [H1 H2].
      destruct (Qpos_bool stock_inicial); simpl; [now apply H2|exact H1].
  - unfold api_crear_producto, transaccion, bind, consulta.
    destruct (get_tasa_cambio s) as [e|tasa]; [apply cuadra_refl|].
    destruct (precios_de_datos data tasa) as [[pv pcu] pcv].
    match goal with
    | |- context [insert_producto ?f s] =>
        destruct (insert_producto f s) as [e|[pid s1]] eqn:E
    end.
    + apply cuadra_refl.
    + destruct (cuadra_alta _ _ _ _ Hids E) as [H1 H2]. cbv zeta.
      destruct (Qpos_bool (o_default 0 (d_stock_actual data))); simpl;
        [now apply H2|exact H1].
  - apply respeta_cuadra_ajuste.
  - apply cuadra_stock_ajeno; [|reflexivity].
    intros pid. apply select_stock_desactivado.
  - apply cuadra_stock_ajeno; [|reflexivity].
    intros pid. apply select_stock_actualizar_tasa_cambio.
  - apply (respeta_transaccion _ cuadra_refl). por_cuadra.
Qed.

End Cuadre.

Lemma ejecutar_cuadra_witness :
  cuadra store_catalogo
    (@ejecutar texto_racional
       (OpCrearVenta
          [ {| iv_producto_id := 1; iv_cantidad := 2; iv_precio_unitario := 400 |};
            {| iv_producto_id := 2; iv_cantidad := 1; iv_precio_unitario := 400 |} ]
          None "efectivo" 0 0 "")
       store_catalogo).
Proof.
  apply ejecutar_cuadra; [reflexivity|]. split; simpl.
  - repeat constructor; simpl; lia.
  - repeat constructor; simpl; intuition discriminate.
Defined.

(** The product update route is the exception: it moves the stock from
    5 to 7 and writes no movement row, so nothing accounts for the 2. *)
Remark api_producto_put_no_cuadra :
  ~ cuadra store_demo (snd (@api_producto_put texto_racional 1 datos_demo store_demo)).
Proof.
  intros [n [Hn Hs]].
  assert (n = []).
  { vm_compute in Hn. destruct n; [reflexivity|discriminate]. }
  subst n. destruct (Hs 1%Z 5 eq_refl) as [q' [Hq' E]].
  vm_compute in Hq'. inversion Hq'; subst q'. vm_compute in E. discriminate.
Qed.

(** ** Nothing committed is ever removed *)

Lemma prefijo_refl {A} (l : list A) : exists n, l = l ++ n.
Proof. exists []. now rewrite app_nil_r. Qed.

Lemma prefijo_trans {A} (a b c : list A) :
  (exists n, b = a ++ n) -> (exists n, c = b ++ n) -> exists n, c = a ++ n.
Proof.
  intros [n1 ->] [n2 ->]. exists (n1 ++ n2). now rewrite app_assoc.
Qed.

Lemma solo_crece_refl (s : store) : solo_crece s s.
Proof. repeat split; apply prefijo_refl. Qed.

Lemma solo_crece_trans (a b c : store) :
  solo_crece a b -> solo_crece b c -> solo_crece a c.
Proof.
  intros [A1 [A2 [A3 [A4 [A5 A6]]]]] [B1 [B2 [B3 [B4 [B5 B6]]]]].
  repeat split; eapply prefijo_trans; eassumption.
Qed.

Lemma map_id_map (g : producto -> producto) (l : list producto) :
  (forall p, id (g p) = id p) -> map id (map g l) = map id l.
Proof. intros Hg. rewrite map_map. now apply map_ext. Qed.

Lemma solo_crece_map (g : producto -> producto) (s : store) :
  (forall p, id (g p) = id p) -> solo_crece s (set_productos (map g) s).
Proof.
  intros Hg. repeat split; simpl; try apply prefijo_refl.
  rewrite (map_id_map g _ Hg). apply prefijo_refl.
Qed.

Lemma solo_crece_update_producto (pid : Z) (f : producto -> producto) (s : store) :
  (forall p, id (f p) = id p) -> solo_crece s (update_producto pid f s).
Proof.
  intros Hf. apply solo_crece_map. intros p. destruct (Z.eqb (id p) pid); auto.
Qed.

Ltac crece_directo :=
  repeat split; simpl;
  first [ apply prefijo_refl
        | eexists; reflexivity
        | rewrite map_app; eexists; reflexivity ].

Ltac hoja_crece :=
  first
    [ apply respeta_ejecuta; intro;
      first [ apply solo_crece_update_producto; intro; reflexivity
            | crece_directo ]
    | match goal with
      | |- respeta _ _ =>
          let s := fresh "s" in let a := fresh "a" in
          let s' := fresh "s" in let H := fresh "H" in
          intros s a s' H;
          first [ unfold insert_producto in H;
                  destruct (codigo_en_uso _ _ _); [discriminate|] | idtac ];
          inversion H; subst; crece_directo
      end ].

Ltac por_crece := recorre solo_crece_refl solo_crece_trans hoja_crece.

Section Historia.
Context {FT : FloatText}.

(** X6. No entry point removes or rewrites committed history: after
    any call, the sale, sale-line, purchase, purchase-line and payment
    rows that were there before are still there, unchanged and in the
    same place, new rows only follow them; and no product row is ever
    removed (the keys of the products before are a prefix of the keys
    after). *)
Theorem ejecutar_solo_crece :
  forall (op : operacion) (s : store), solo_crece s (ejecutar op s).
Proof.
  intros op s. destruct op; cbn [ejecutar].
  - apply (respeta_transaccion _ solo_crece_refl). por_crece.
  - unfold api_crear_venta. destruct (req_items data) as [|i r];
      [apply solo_crece_refl|].
    match goal with
    | |- context [crear_venta ?a ?b ?c ?d ?e ?f s] =>
        assert (H : solo_crece s (snd (crear_venta a b c d e f s)))
          by (apply (respeta_transaccion _ solo_crece_refl); por_crece);
        destruct (crear_venta a b c d e f s) as [[e0|v] s1]; simpl in H
    end; [exact H|].
    assert (Hp : solo_crece s1 (snd (registrar_pagos v (req_pagos data) s1))).
    { apply (registrar_pagos_respeta _ solo_crece_refl solo_crece_trans).
      intros. apply (respeta_transaccion _ solo_crece_refl). por_crece. }
    destruct (registrar_pagos v (req_pagos data) s1) as [[e0|u] s2];
      simpl in *; eapply solo_crece_trans; eassumption.
  - apply (respeta_transaccion _ solo_crece_refl). por_crece.
  - unfold agregar_producto.
    en_transaccion solo_crece solo_crece_refl por_crece.
  - unfold api_crear_producto.
    en_transaccion solo_crece solo_crece_refl por_crece.
  - apply (respeta_transaccion _ solo_crece_refl). por_crece.
  - unfold api_producto_put.
    en_transaccion solo_crece solo_crece_refl por_crece.
  - simpl. apply solo_crece_update_producto. intro; reflexivity.
  - change (solo_crece s
      (set_productos (map (recalcula_fila nueva_tasa))
         (actualizar_configuracion_moneda "tasa_usd_ves" (str_float nueva_tasa) s))).
    eapply solo_crece_trans; [|apply solo_crece_map; apply id_recalcula_fila].
    crece_directo.
  - apply (respeta_transaccion _ solo_crece_refl). por_crece.
Qed.

End Historia.

(** ** Creating a product *)

Lemma codigo_en_uso_true (c : string) (excepto : option Z) (s : store) (p : producto) :
  In p (productos s) ->
  codigo_barras p = Some c ->
  (forall pid, excepto = Some pid -> id p <> pid) ->
  codigo_en_uso (Some c) excepto s = true.
Proof.
  intros Hin Hc Hex. unfold codigo_en_uso. apply existsb_exists.
  exists p. split; [exact Hin|]. unfold sql_eq. rewrite Hc, String.eqb_refl.
  destruct excepto as [pid|]; simpl; [|reflexivity].
  apply negb_true_iff, Z.eqb_neq. now apply Hex.
Qed.

(** X7. [agregar_producto] with a barcode that some product row
    already carries, active or soft-deleted, raises "El código de
    barras ya existe" and leaves the store as it was. *)
Theorem agregar_producto_codigo_repetido :
  forall (c nom : string) (descr : option string) (categoria : option Z)
         (precio_v : Q) (precio_c : option Q) (stock_inicial stock_min : Q)
         (s : store) (p : producto),
    In p (productos s) ->
    codigo_barras p = Some c ->
    agregar_producto (Some c) nom descr categoria precio_v precio_c
      stock_inicial stock_min s
    = (inl (Exception_msg "El código de barras ya existe"), s).
Proof.
  intros c nom descr categoria precio_v precio_c stock_inicial stock_min s p Hin Hc.
  unfold agregar_producto, transaccion, bind, insert_producto. cbv zeta.
  cbn [codigo_barras].
  rewrite (codigo_en_uso_true c None s p Hin Hc) by discriminate.
  reflexivity.
Qed.

Lemma agregar_producto_codigo_repetido_witness :
  agregar_producto (Some "123"%string) "Otro" None None 10 None 4 0
    (snd (api_producto_delete 1 store_demo))
  = (inl (Exception_msg "El código de barras ya existe"),
     snd (api_producto_delete 1 store_demo)).
Proof.
  apply (agregar_producto_codigo_repetido "123" "Otro" None None 10 None 4 0
           (snd (api_producto_delete 1 store_demo)) (desactivado producto_demo)).
  - left. reflexivity.
  - reflexivity.
Defined.

Lemma select_producto_nuevo (s : store) (fila : producto) :
  ids_acotados s ->
  id fila = (seq_productos s + 1)%Z ->
  find (fun p => Z.eqb (id p) (seq_productos s + 1)) (productos s ++ [fila])
  = Some fila.
Proof.
  intros [Hb _] Hid. rewrite find_app_none.
  - simpl. rewrite Hid, Z.eqb_refl. reflexivity.
  - destruct (find _ (productos s)) as [p|] eqn:E; [|reflexivity].
    apply find_some in E. destruct E as [Hin He].
    rewrite Forall_forall in Hb. specialize (Hb p Hin). simpl in Hb.
    apply Z.eqb_eq in He. lia.
Qed.

(** X8. [agregar_producto] with no barcode, or one no row carries, on
    a store with sound keys: it returns the next key; looking that key
    up gives the row as passed, active, with no foreign prices and the
    schema's rate 36.50; and the movement log gains exactly one
    ['entrada'] row "Stock inicial" (before 0, after the initial stock)
    when the initial stock is positive, and nothing otherwise. *)
Theorem agregar_producto_alta :
  forall (codigo : option string) (nom : string) (descr : option string)
         (categoria : option Z) (precio_v : Q) (precio_c : option Q)
         (stock_inicial stock_min : Q) (s : store),
    ids_acotados s ->
    codigo_en_uso codigo None s = false ->
    exists s',
      agregar_producto codigo nom descr categoria precio_v precio_c
        stock_inicial stock_min s
      = (inr (seq_productos s + 1)%Z, s') /\
      select_producto (seq_productos s + 1) s'
      = Some (fila_agregada (seq_productos s + 1) codigo nom descr categoria
                precio_v precio_c stock_inicial stock_min) /\
      movimientos_inventario s'
      = movimientos_inventario s ++
        (if Qpos_bool stock_inicial
         then [movimiento_stock_inicial (seq_productos s + 1) stock_inicial]
         else []).
Proof.
  intros codigo nom descr categoria precio_v precio_c stock_inicial stock_min s
         Hids Hlibre.
  unfold agregar_producto, transaccion, bind, insert_producto. cbv zeta.
  cbn [codigo_barras]. rewrite Hlibre.
  destruct (Qpos_bool stock_inicial); simpl; eexists; (split; [reflexivity|]);
    (split; [unfold select_producto; simpl;
             apply (select_producto_nuevo s); [exact Hids|reflexivity]
            | simpl; try rewrite app_nil_r; reflexivity]).
Qed.

Lemma agregar_producto_alta_witness :
  exists s',
    agregar_producto (Some "999"%string) "R" None None 10 None 4 0 store_catalogo
    = (inr 3%Z, s') /\
    select_producto 3 s'
    = Some (fila_agregada 3 (Some "999"%string) "R" None None 10 None 4 0) /\
    movimientos_inventario s' = [movimiento_stock_inicial 3 4].
Proof.
  apply (agregar_producto_alta (Some "999"%string) "R" None None 10 None 4 0
           store_catalogo).
  - split; simpl.
    + repeat constructor; simpl; lia.
    + repeat constructor; simpl; intuition discriminate.
  - reflexivity.
Defined.

(** ** Barcodes stay unique *)

Lemma codigos_map (g : producto -> producto) (l : list producto) :
  (forall p, codigo_barras (g p) = codigo_barras p) ->
  codigos (map g l) = codigos l.
Proof.
  intros Hg. induction l as [|p r IH]; simpl; [reflexivity|].
  now rewrite Hg, IH.
Qed.

Lemma catalogo_ajeno (s s' : store) :
  productos s' = productos s -> seq_productos s' = seq_productos s ->
  catalogo_bien s -> catalogo_bien s'.
Proof.
  intros Hp Hs [Hi Hc]. split; [now apply (ids_ajeno s)|now rewrite Hp].
Qed.

Lemma catalogo_map (g : producto -> producto) (s : store) :
  (forall p, id (g p) = id p) ->
  (forall p, codigo_barras (g p) = codigo_barras p) ->
  catalogo_bien s -> catalogo_bien (set_productos (map g) s).
Proof.
  intros Hid Hcod [Hi Hc]. split; [now apply ids_map|].
  simpl. now rewrite codigos_map.
Qed.

Lemma catalogo_update_producto (pid : Z) (f : producto -> producto) (s : store) :
  (forall p, id (f p) = id p) ->
  (forall p, codigo_barras (f p) = codigo_barras p) ->
  catalogo_bien s -> catalogo_bien (update_producto pid f s).
Proof.
  intros Hid Hcod. apply catalogo_map; intros p;
    destruct (Z.eqb (id p) pid); auto.
Qed.

Lemma In_codigos (c : string) (l : list producto) :
  In c (codigos l) <-> exists p, In p l /\ codigo_barras p = Some c.
Proof.
  unfold codigos. rewrite in_flat_map. split.
  - intros [p [Hin Hc]]. exists p. split; [exact Hin|].
    destruct (codigo_barras p) as [d|]; [|destruct Hc].
    destruct Hc as [->|[]]. reflexivity.
  - intros [p [Hin Hc]]. exists p. split; [exact Hin|]. rewrite Hc. now left.
Qed.

Lemma codigo_en_uso_false (c : string) (excepto : option Z) (s : store) (p : producto) :
  codigo_en_uso (Some c) excepto s = false ->
  In p (productos s) ->
  codigo_barras p = Some c ->
  exists pid, excepto = Some pid /\ id p = pid.
Proof.
  intros Hf Hin Hc. destruct excepto as [pid|].
  - exists pid. split; [reflexivity|].
    destruct (Z.eq_dec (id p) pid) as [E|E]; [exact E|].
    rewrite (codigo_en_uso_true c (Some pid) s p Hin Hc) in Hf; [discriminate|].
    intros q Hq. inversion Hq; subst. exact E.
  - rewrite (codigo_en_uso_true c None s p Hin Hc) in Hf; [discriminate|].
    discriminate.
Qed.

Lemma catalogo_insert_producto (fila : Z -> producto) (s s1 : store) (pid : Z) :
  (forall i, id (fila i) = i) ->
  insert_producto fila s = inr (pid, s1) ->
  catalogo_bien s -> catalogo_bien s1.
Proof.
  intros Hid H [Hi Hc]. split; [exact (ids_insert_producto _ _ _ _ Hid H Hi)|].
  unfold insert_producto in H.
  destruct (codigo_en_uso _ None s) eqn:E; [discriminate|].
  inversion H; subst. simpl. unfold codigos. rewrite flat_map_app. simpl.
  fold (codigos (productos s)).
  destruct (codigo_barras (fila (seq_productos s + 1)%Z)) as [c|];
    [|now rewrite !app_nil_r].
  rewrite app_nil_r. apply NoDup_app; [exact Hc|repeat constructor; intros []|].
  intros x Hx [<-|[]]. apply In_codigos in Hx. destruct Hx as [p [Hin Hp]].
  destruct (codigo_en_uso_false _ _ _ _ E Hin Hp) as [q [Hq _]]. discriminate.
Qed.

Lemma map_update_sin_id (pid : Z) (g : producto -> producto) (l : list producto) :
  ~ In pid (map id l) ->
  map (fun p => if Z.eqb (id p) pid then g p else p) l = l.
Proof.
  induction l as [|p r IH]; simpl; [reflexivity|]. intros H.
  destruct (Z.eqb (id p) pid) eqn:E.
  - apply Z.eqb_eq in E. elim H. now left.
  - rewrite IH; [reflexivity|]. intros Hin. apply H. now right.
Qed.

Lemma codigos_update (pid : Z) (g : producto -> producto) (c : option string)
    (l : list producto) :
  (forall p, codigo_barras (g p) = c) ->
  NoDup (map id l) ->
  NoDup (codigos l) ->
  (forall p x, In p l -> codigo_barras p = Some x -> c = Some x -> id p = pid) ->
  NoDup (codigos (map (fun p => if Z.eqb (id p) pid then g p else p) l)) /\
  (forall x, In x (codigos (map (fun p => if Z.eqb (id p) pid then g p else p) l)) ->
             In x (codigos l) \/ c = Some x).
Proof.
  intros Hg. induction l as [|p r IH]; intros Hids Hcod Hlibre.
  - split; [constructor|intros x []].
  - inversion Hids as [|? ? Hnot Hids']; subst.
    assert (Hcod' : NoDup (codigos r)).
    { simpl in Hcod. destruct (codigo_barras p); [now inversion Hcod|exact Hcod]. }
    destruct (IH Hids' Hcod') as [IH1 IH2].
    { intros q x Hq. apply Hlibre. now right. }
    simpl. destruct (Z.eqb (id p) pid) eqn:E.
    + apply Z.eqb_eq in E.
      rewrite map_update_sin_id in * by (rewrite <- E; exact Hnot).
      rewrite Hg. split.
      * destruct c as [x|]; [|exact Hcod']. simpl. constructor; [|exact Hcod'].
        intros Hx. apply In_codigos in Hx. destruct Hx as [q [Hq Hqc]].
        apply Hnot. rewrite E. rewrite <- (Hlibre q x (or_intror Hq) Hqc eq_refl).
        now apply in_map.
      * intros x Hx. destruct c as [y|]; simpl in Hx.
        -- destruct Hx as [<-|Hx]; [now right|].
           left. simpl. destruct (codigo_barras p); [now right|exact Hx].
        -- left. simpl. destruct (codigo_barras p); [now right|exact Hx].
    + simpl. split.
      * destruct (codigo_barras p) as [y|] eqn:Ep; [|exact IH1].
        simpl. constructor; [|exact IH1].
        intros Hy. destruct (IH2 y Hy) as [Hin|Hc].
        -- simpl in Hcod. rewrite ?Ep in Hcod. now inversion Hcod.
        -- apply Z.eqb_neq in E. apply E.
           apply (Hlibre p y (or_introl eq_refl) Ep Hc).
      * intros x Hx. destruct (codigo_barras p) as [y|] eqn:Ep; simpl in Hx.
        -- destruct Hx as [<-|Hx]; [left; simpl; rewrite ?Ep; now left|].
           destruct (IH2 x Hx) as [Hin|Hc]; [left|now right].
           simpl. rewrite ?Ep. now right.
        -- destruct (IH2 x Hx) as [Hin|Hc]; [left|now right].
           simpl. now rewrite ?Ep.
Qed.

Lemma catalogo_put (pid : Z) (g : producto -> producto) (c : option string)
    (s : store) :
  (forall p, id (g p) = id p) ->
  (forall p, codigo_barras (g p) = c) ->
  codigo_en_uso c (Some pid) s = false ->
  catalogo_bien s -> catalogo_bien (update_producto pid g s).
Proof.
  intros Hid Hg Hlibre [Hi Hc]. split; [now apply ids_update_producto|].
  simpl. destruct Hi as [_ Hn].
  apply (codigos_update pid g c (productos s) Hg Hn Hc).
  intros p x Hin Hp Hcx. subst c.
  destruct (codigo_en_uso_false _ _ _ _ Hlibre Hin Hp) as [q [Hq Hq']].
  inversion Hq; subst. reflexivity.
Qed.

Lemma conserva_catalogo_refl (s : store) : conserva_catalogo s s.
Proof. intros H. exact H. Qed.

Lemma conserva_catalogo_trans (a b c : store) :
  conserva_catalogo a b -> conserva_catalogo b c -> conserva_catalogo a c.
Proof. unfold conserva_catalogo. auto. Qed.

Lemma codigo_recalcula_fila (tasa : Q) (p : producto) :
  codigo_barras (recalcula_fila tasa p) = codigo_barras p.
Proof.
  unfold recalcula_fila.
  destruct (precio_venta_usd p); [destruct (precio_compra_usd p)|]; reflexivity.
Qed.

Ltac hoja_catalogo :=
  first
    [ apply respeta_ejecuta; intro; unfold conserva_catalogo;
      first [ apply catalogo_update_producto; intro; reflexivity
            | apply catalogo_ajeno; reflexivity ]
    | match goal with
      | |- respeta _ (insert_producto _) =>
          let s := fresh "s" in let a := fresh "a" in
          let s' := fresh "s" in let H := fresh "H" in
          intros s a s' H; unfold conserva_catalogo;
          eapply catalogo_insert_producto; [ | exact H ]; intro; reflexivity
      | |- respeta _ _ =>
          let s := fresh "s" in let a := fresh "a" in
          let s' := fresh "s" in let H := fresh "H" in
          intros s a s' H; inversion H; subst; unfold conserva_catalogo;
          apply catalogo_ajeno; reflexivity
      end ].

Ltac por_catalogo :=
  recorre conserva_catalogo_refl conserva_catalogo_trans hoja_catalogo.

Section Catalogo.
Context {FT : FloatText}.

(** X9. Every entry point keeps the catalogue sound: if the product
    keys are sound and no barcode is on two rows before the call, the
    same holds after it.  Creation and update refuse a barcode another
    row carries; nothing else writes barcodes. *)
Theorem ejecutar_conserva_catalogo :
  forall (op : operacion) (s : store),
    catalogo_bien s -> catalogo_bien (ejecutar op s).
Proof.
  intros op s. change (conserva_catalogo s (ejecutar op s)).
  destruct op; cbn [ejecutar].
  - apply (respeta_transaccion _ conserva_catalogo_refl). por_catalogo.
  - unfold api_crear_venta. destruct (req_items data) as [|i r];
      [apply conserva_catalogo_refl|].
    match goal with
    | |- context [crear_venta ?a ?b ?c ?d ?e ?f s] =>
        assert (H : conserva_catalogo s (snd (crear_venta a b c d e f s)))
          by (apply (respeta_transaccion _ conserva_catalogo_refl); por_catalogo);
        destruct (crear_venta a b c d e f s) as [[e0|v] s1]; simpl in H
    end; [exact H|].
    assert (Hp : conserva_catalogo s1 (snd (registrar_pagos v (req_pagos data) s1))).
    { apply (registrar_pagos_respeta _ conserva_catalogo_refl conserva_catalogo_trans).
      intros. apply (respeta_transaccion _ conserva_catalogo_refl). por_catalogo. }
    destruct (registrar_pagos v (req_pagos data) s1) as [[e0|u] s2];
      simpl in *; eapply conserva_catalogo_trans; eassumption.
  - apply (respeta_transaccion _ conserva_catalogo_refl). por_catalogo.
  - unfold agregar_producto.
    en_transaccion conserva_catalogo conserva_catalogo_refl por_catalogo.
  - unfold api_crear_producto.
    en_transaccion conserva_catalogo conserva_catalogo_refl por_catalogo.
  - apply (respeta_transaccion _ conserva_catalogo_refl). por_catalogo.
  - unfold api_producto_put, transaccion, bind, consulta.
    destruct (get_tasa_cambio s) as [e|tasa]; [apply conserva_catalogo_refl|].
    destruct (select_producto producto_id s) as [p|];
      [|apply conserva_catalogo_refl].
    destruct (codigo_en_uso _ _ s) eqn:E; [apply conserva_catalogo_refl|].
    simpl. unfold conserva_catalogo.
    apply (catalogo_put producto_id (fila_put data tasa)
             (texto_o_none (d_codigo_barras data))); try exact E;
      intro; reflexivity.
  - simpl. unfold conserva_catalogo.
    apply catalogo_update_producto; intro; reflexivity.
  - unfold conserva_catalogo. intros H.
    change (catalogo_bien
      (set_productos (map (recalcula_fila nueva_tasa))
         (actualizar_configuracion_moneda "tasa_usd_ves" (str_float nueva_tasa) s))).
    apply catalogo_map;
      [apply id_recalcula_fila|apply codigo_recalcula_fila|].
    revert H. now apply catalogo_ajeno.
  - apply (respeta_transaccion _ conserva_catalogo_refl). por_catalogo.
Qed.

End Catalogo.

Lemma ejecutar_conserva_catalogo_witness :
  catalogo_bien
    (@ejecutar texto_racional (OpApiProductoPut 2 datos_demo) store_catalogo).
Proof.
  apply ejecutar_conserva_catalogo. split; [split|]; simpl.
  - repeat constructor; simpl; lia.
  - repeat constructor; simpl; intuition discriminate.
  - repeat constructor; simpl; intuition discriminate.
Defined.

(** ** Search and listing *)

Lemma lstrip_solo_espacios (t : string) :
  solo_espacios t -> lstrip t = EmptyString.
Proof.
  induction t as [|c r IH]; simpl; [reflexivity|].
  intros [Hc Hr]. rewrite Hc. now apply IH.
Qed.

(** X10. A search term made only of whitespace (or empty) returns no
    row: it is never read as "match everything". *)
Theorem buscar_productos_termino_en_blanco :
  forall (termino_busqueda : string) (s : store),
    solo_espacios termino_busqueda ->
    buscar_productos termino_busqueda s = [].
Proof.
  intros t s H. unfold buscar_productos, strip.
  rewrite (lstrip_solo_espacios t H). reflexivity.
Qed.

Lemma buscar_productos_termino_en_blanco_witness :
  buscar_productos "   " store_dos_precios = [].
Proof.
  apply buscar_productos_termino_en_blanco. simpl. repeat split.
Defined.

Lemma In_filas (s : store) (l : list producto) (f : fila_producto) :
  In f (filas s l) <-> In (fst f) l /\ snd f = categoria_de s (fst f).
Proof.
  unfold filas. rewrite in_map_iff. split.
  - intros [p [<- Hin]]. simpl. now split.
  - intros [Hin Hc]. exists (fst f). split; [|exact Hin].
    destruct f as [p c]. simpl in *. now subst.
Qed.

Lemma In_order_by (key : producto -> clave) (l : list producto) (p : producto) :
  In p (order_by key l) <-> In p l.
Proof.
  split; apply Permutation_in;
    [apply order_by_perm | apply Permutation_sym, order_by_perm].
Qed.

Lemma buscar_productos_activos (t : string) (s : store) (f : fila_producto) :
  In f (buscar_productos t s) ->
  In (fst f) (productos s) /\ activo (fst f) = true.
Proof.
  unfold buscar_productos.
  destruct (negb (string_nonempty (strip t))); [intros []|].
  destruct (order_by _ (filter (where_exacta (strip t)) (productos s)))
    as [|x r] eqn:E.
  - intros H. apply In_filas in H. destruct H as [H _].
    apply In_order_by, filter_In in H. destruct H as [Hin Hw].
    split; [exact Hin|]. unfold where_general in Hw.
    now apply andb_true_iff in Hw.
  - intros H. apply In_filas in H. destruct H as [H _].
    rewrite <- E in H.
    apply In_order_by, filter_In in H. destruct H as [Hin Hw].
    split; [exact Hin|]. unfold where_exacta in Hw.
    now apply andb_true_iff in Hw.
Qed.

Lemma get_productos_activos (c : option Z) (s : store) (f : fila_producto) :
  In f (get_productos c true s) ->
  In (fst f) (productos s) /\ activo (fst f) = true.
Proof.
  unfold get_productos. intros H. apply In_filas in H. destruct H as [H _].
  apply In_order_by, filter_In in H. destruct H as [Hin Hw].
  split; [exact Hin|]. unfold where_productos in Hw.
  now apply andb_true_iff in Hw.
Qed.

Lemma In_update_producto (pid : Z) (g : producto -> producto) (s : store)
    (p : producto) :
  In p (productos (update_producto pid g s)) ->
  (In p (productos s) /\ id p <> pid) \/
  (exists p0, In p0 (productos s) /\ id p0 = pid /\ p = g p0).
Proof.
  unfold update_producto. simpl. rewrite in_map_iff.
  intros [p0 [Hp Hin]]. destruct (Z.eqb (id p0) pid) eqn:E.
  - right. exists p0. apply Z.eqb_eq in E. now repeat split.
  - left. subst p. apply Z.eqb_neq in E. now split.
Qed.

(** X11. After a product is soft-deleted, no search and no listing of
    active products returns a row with its key, whatever the term or
    category; its row is still there for a lookup by key, with the
    stock it had. *)
Theorem api_producto_delete_oculta :
  forall (producto_id : Z) (s : store) (termino : string) (categoria : option Z)
         (f : fila_producto),
    let s' := snd (api_producto_delete producto_id s) in
    (In f (buscar_productos termino s') -> id (fst f) <> producto_id) /\
    (In f (get_productos categoria true s') -> id (fst f) <> producto_id) /\
    select_producto producto_id s'
    = option_map desactivado (select_producto producto_id s) /\
    select_stock_actual producto_id s' = select_stock_actual producto_id s.
Proof.
  intros producto_id s termino categoria f s'.
  assert (Hoculto : forall p, In p (productos s') -> activo p = true ->
            id p <> producto_id).
  { intros p Hin Hact. apply In_update_producto in Hin.
    destruct Hin as [[_ Hne]|[p0 [_ [_ ->]]]]; [exact Hne|discriminate]. }
  split; [|split; [|split]].
  - intros H. apply buscar_productos_activos in H. destruct H. now apply Hoculto.
  - intros H. apply get_productos_activos in H. destruct H. now apply Hoculto.
  - unfold s'. simpl. rewrite select_producto_update by reflexivity.
    destruct (select_producto producto_id s) as [p|] eqn:E; [|reflexivity].
    simpl. rewrite (select_producto_id _ _ _ E), Z.eqb_refl. reflexivity.
  - apply select_stock_desactivado.
Qed.

(** ** [LIKE '%t%'] finds every text that contains [t] *)

Lemma like_todo (s : list ascii) : like ["%"%char] s = true.
Proof.
  induction s as [|c r IH]; [reflexivity|].
  change (like ["%"%char] (c :: r))
    with (like [] (c :: r) || like ["%"%char] r)%bool.
  rewrite IH. apply orb_true_r.
Qed.

Lemma like_porcentaje_cons (pat : list ascii) (c : ascii) (s : list ascii) :
  like ("%"%char :: pat) (c :: s)
  = (like pat (c :: s) || like ("%"%char :: pat) s)%bool.
Proof. reflexivity. Qed.

Lemma like_porcentaje_aqui (pat s : list ascii) :
  like pat s = true -> like ("%"%char :: pat) s = true.
Proof.
  intros H. destruct s as [|c r].
  - change (like ("%"%char :: pat) []) with (like pat [] || false)%bool.
    now rewrite H.
  - rewrite like_porcentaje_cons, H. reflexivity.
Qed.

Lemma like_porcentaje_salta (pat a s : list ascii) :
  like pat s = true -> like ("%"%char :: pat) (a ++ s) = true.
Proof.
  intros H. induction a as [|c r IH]; simpl app.
  - now apply like_porcentaje_aqui.
  - rewrite like_porcentaje_cons, IH. apply orb_true_r.
Qed.

Lemma like_literal (t pat s : list ascii) :
  like pat s = true -> like (t ++ pat) (t ++ s) = true.
Proof.
  intros H. induction t as [|c r IH]; [exact H|].
  simpl app. destruct (Ascii.eqb c "%"%char) eqn:E1.
  - apply Ascii.eqb_eq in E1. subst c.
    rewrite like_porcentaje_cons.
    rewrite (like_porcentaje_aqui _ _ IH). apply orb_true_r.
  - cbn [like]. rewrite E1. destruct (Ascii.eqb c "_"%char); [exact IH|].
    rewrite Ascii.eqb_refl, IH. reflexivity.
Qed.

Lemma list_ascii_of_string_app (a b : string) :
  list_ascii_of_string (a ++ b)
  = list_ascii_of_string a ++ list_ascii_of_string b.
Proof. induction a as [|c r IH]; simpl; [reflexivity|]. now rewrite IH. Qed.

Lemma sql_like_contiene (t a b : string) :
  sql_like (Some (a ++ t ++ b)%string) (contiene t) = true.
Proof.
  unfold sql_like, contiene.
  rewrite !list_ascii_of_string_app. simpl list_ascii_of_string at 1.
  simpl app at 1.
  apply like_porcentaje_salta. apply like_literal. apply like_todo.
Qed.

(** X12. An active product whose barcode contains the stripped,
    non-empty search term is always among the rows returned, whatever
    else is in the catalogue and even when the term holds [%] or [_]. *)
Theorem buscar_productos_por_codigo :
  forall (termino_busqueda : string) (s : store) (p : producto) (a b : string),
    string_nonempty (strip termino_busqueda) = true ->
    In p (productos s) ->
    activo p = true ->
    codigo_barras p = Some (a ++ strip termino_busqueda ++ b)%string ->
    In (p, categoria_de s p) (buscar_productos termino_busqueda s).
Proof.
  intros t s p a b Hne Hin Hact Hcod.
  unfold buscar_productos. rewrite Hne. cbn [negb].
  assert (Hp : In p (order_by (fun p0 => (rango_exacta (strip t) p0, nombre p0))
                       (filter (where_exacta (strip t)) (productos s)))).
  { apply In_order_by, filter_In. split; [exact Hin|].
    unfold where_exacta. rewrite Hact, Hcod, sql_like_contiene.
    now rewrite orb_true_r. }
  destruct (order_by _ (filter (where_exacta (strip t)) (productos s)))
    as [|x r]; [destruct Hp|].
  apply In_filas. split; [exact Hp|reflexivity].
Qed.

Lemma buscar_productos_por_codigo_witness :
  In (producto_dos_precios, categoria_de store_dos_precios producto_dos_precios)
     (buscar_productos " 23 " store_dos_precios).
Proof.
  apply (buscar_productos_por_codigo " 23 " store_dos_precios
           producto_dos_precios "1" "4").
  - reflexivity.
  - right. left. reflexivity.
  - reflexivity.
  - reflexivity.
Defined.

(** ** The fallback query and the listing order *)

Lemma insertar_ext_in (k1 k2 : producto -> clave) (p : producto) (l : list producto) :
  k1 p = k2 p -> (forall q, In q l -> k1 q = k2 q) ->
  insertar k1 p l = insertar k2 p l.
Proof.
  intros Hp. induction l as [|q r IH]; intros Hl; simpl; [reflexivity|].
  rewrite Hp, (Hl q (or_introl eq_refl)).
  destruct (clave_leb (k2 p) (k2 q)); [reflexivity|].
  rewrite IH; [reflexivity|]. intros x Hx. apply Hl. now right.
Qed.

Lemma order_by_ext_in (k1 k2 : producto -> clave) (l : list producto) :
  (forall q, In q l -> k1 q = k2 q) -> order_by k1 l = order_by k2 l.
Proof.
  induction l as [|p r IH]; intros Hl; simpl; [reflexivity|].
  rewrite <- IH by (intros x Hx; apply Hl; now right).
  apply insertar_ext_in; [apply Hl; now left|].
  intros q Hq. apply Hl. right. now apply (In_order_by k1 r q).
Qed.

Lemma filter_nil_false {A} (f : A -> bool) (l : list A) (x : A) :
  filter f l = [] -> In x l -> f x = false.
Proof.
  intros H Hin. destruct (f x) eqn:E; [|reflexivity].
  assert (Hx : In x (filter f l)) by (apply filter_In; now split).
  rewrite H in Hx. destruct Hx.
Qed.

(** X13. When no active product's barcode equals or contains the
    stripped, non-empty term, the search falls back to names and
    descriptions: it returns exactly the active products whose name or
    description matches [LIKE '%term%'], those matching by name first
    and those matching by description only after them. *)
Theorem buscar_productos_general :
  forall (termino_busqueda : string) (s : store),
    string_nonempty (strip termino_busqueda) = true ->
    filter (where_exacta (strip termino_busqueda)) (productos s) = [] ->
    exists por_nombre por_descripcion,
      buscar_productos termino_busqueda s
      = filas s (por_nombre ++ por_descripcion) /\
      Permutation (por_nombre ++ por_descripcion)
        (filter (where_general (strip termino_busqueda)) (productos s)) /\
      Forall (fun p => sql_like (Some (nombre p))
                         (contiene (strip termino_busqueda)) = true)
             por_nombre /\
      Forall (fun p => sql_like (Some (nombre p))
                         (contiene (strip termino_busqueda)) = false /\
                       sql_like (descripcion p)
                         (contiene (strip termino_busqueda)) = true)
             por_descripcion.
Proof.
  intros termino s Hne Hnada.
  set (t := strip termino) in *.
  set (L := filter (where_general t) (productos s)).
  set (e := fun p => sql_like (Some (nombre p)) (contiene t)).
  assert (HL : forall p, In p L ->
            sql_like (Some (nombre p)) (contiene t) = true \/
            (sql_like (Some (nombre p)) (contiene t) = false /\
             sql_like (descripcion p) (contiene t) = true)).
  { intros p Hp. apply filter_In in Hp. destruct Hp as [Hin Hw].
    pose proof (filter_nil_false _ _ p Hnada Hin) as Hx.
    unfold where_general in Hw. unfold where_exacta in Hx.
    apply andb_true_iff in Hw. destruct Hw as [Hact Hw]. rewrite Hact in Hx.
    simpl in Hx. apply orb_false_iff in Hx. destruct Hx as [_ Hlk].
    rewrite Hlk, orb_false_r in Hw.
    destruct (sql_like (Some (nombre p)) (contiene t)); [now left|].
    right. split; [reflexivity|exact Hw]. }
  destruct (order_by_particion e L) as [ex [pa [Heq [Hex Hpa]]]].
  assert (Hkey : order_by (fun p => (rango_general t p, nombre p)) L
                 = order_by (fun p => (if e p then 1%nat else 2%nat, nombre p)) L).
  { apply order_by_ext_in. intros q Hq. unfold rango_general, e.
    destruct (HL q Hq) as [H1|[H1 H2]]; rewrite H1; [reflexivity|].
    now rewrite H2. }
  assert (Hperm : Permutation (ex ++ pa) L).
  { rewrite <- Heq. apply order_by_perm. }
  exists ex, pa. split; [|split; [exact Hperm|split; [exact Hex|]]].
  - unfold buscar_productos. fold t. rewrite Hne, Hnada. cbn [negb order_by fold_right].
    fold L. rewrite Hkey, Heq. reflexivity.
  - rewrite Forall_forall in *. intros p Hp.
    assert (Hin : In p L).
    { apply (Permutation_in _ Hperm). apply in_or_app. now right. }
    specialize (Hpa p Hp). unfold e in Hpa.
    destruct (HL p Hin) as [H1|H]; [congruence|exact H].
Qed.

Lemma buscar_productos_general_witness :
  exists por_nombre por_descripcion,
    buscar_productos "q" store_dos_precios
    = filas store_dos_precios (por_nombre ++ por_descripcion) /\
    Permutation (por_nombre ++ por_descripcion)
      (filter (where_general (strip "q")) (productos store_dos_precios)) /\
    Forall (fun p => sql_like (Some (nombre p)) (contiene (strip "q")) = true)
           por_nombre /\
    Forall (fun p => sql_like (Some (nombre p)) (contiene (strip "q")) = false /\
                     sql_like (descripcion p) (contiene (strip "q")) = true)
           por_descripcion.
Proof.
  apply buscar_productos_general; reflexivity.
Defined.

Lemma clave_leb_total (a b : clave) :
  clave_leb a b = false -> clave_leb b a = true.
Proof.
  unfold clave_leb. destruct a as [n x], b as [m y]. simpl.
  destruct (Nat.ltb n m) eqn:E1; [discriminate|].
  destruct (Nat.eqb n m) eqn:E2; simpl.
  - apply Nat.eqb_eq in E2. subst m. rewrite Nat.eqb_refl, Nat.ltb_irrefl. simpl.
    intros H. destruct (String.leb_total x y) as [H1|H1]; congruence.
  - intros _. apply Nat.ltb_ge in E1. apply Nat.eqb_neq in E2.
    assert (H : (m < n)%nat) by lia. apply Nat.ltb_lt in H. now rewrite H.
Qed.

Lemma insertar_sorted (key : producto -> clave) (p : producto) (l : list producto) :
  Sorted (fun a b => clave_leb (key a) (key b) = true) l ->
  Sorted (fun a b => clave_leb (key a) (key b) = true) (insertar key p l).
Proof.
  induction l as [|q r IH]; intros H; simpl.
  - repeat constructor.
  - destruct (clave_leb (key p) (key q)) eqn:E.
    + constructor; [exact H|now constructor].
    + inversion H as [|? ? Hs Hh]; subst. constructor; [now apply IH|].
      apply clave_leb_total in E.
      destruct r as [|x r']; simpl; [now constructor|].
      destruct (clave_leb (key p) (key x)); constructor; [exact E|].
      now inversion Hh.
Qed.

Lemma order_by_sorted (key : producto -> clave) (l : list producto) :
  Sorted (fun a b => clave_leb (key a) (key b) = true) (order_by key l).
Proof.
  induction l as [|p r IH]; simpl; [constructor|]. now apply insertar_sorted.
Qed.

Lemma map_fst_filas (s : store) (l : list producto) : map fst (filas s l) = l.
Proof. unfold filas. rewrite map_map. simpl. apply map_id. Qed.

Lemma Sorted_impl_rel {A} (R1 R2 : A -> A -> Prop) (l : list A) :
  (forall a b, R1 a b -> R2 a b) -> Sorted R1 l -> Sorted R2 l.
Proof.
  intros Himp H. induction H as [|a l Hs IH Hh]; constructor; [exact IH|].
  destruct Hh; constructor. now apply Himp.
Qed.

(** X14. [get_productos] returns exactly the products that pass its
    filter (active ones when asked for, and of the given category when
    one other than 0 is given), each as often as the table has it, in
    ascending order of name. *)
Theorem get_productos_ordenado :
  forall (categoria : option Z) (activos_solo : bool) (s : store),
    Permutation (map fst (get_productos categoria activos_solo s))
      (filter (where_productos categoria activos_solo) (productos s)) /\
    Sorted (fun a b => String.leb (nombre a) (nombre b) = true)
      (map fst (get_productos categoria activos_solo s)).
Proof.
  intros categoria activos_solo s. unfold get_productos.
  rewrite map_fst_filas. split; [apply order_by_perm|].
  eapply Sorted_impl_rel; [|apply order_by_sorted].
  intros a b H. unfold clave_leb in H. simpl in H. exact H.
Qed.

(** ** Currency helpers *)

Lemma Qpos_bool_true (x : Q) : Qpos_bool x = true <-> 0 < x.
Proof.
  unfold Qpos_bool. rewrite negb_true_iff. split.
  - intros H. apply Qnot_le_lt. intros Hle.
    apply Qle_bool_iff in Hle. congruence.
  - intros H. destruct (Qle_bool x 0) eqn:E; [|reflexivity].
    apply Qle_bool_iff in E. exfalso. now apply (Qlt_not_le _ _ H).
Qed.

Lemma Qpos_bool_false (x : Q) : Qpos_bool x = false <-> x <= 0.
Proof.
  unfold Qpos_bool. rewrite negb_false_iff. apply Qle_bool_iff.
Qed.

Section Conversion.
Context {FT : FloatText}.


End Conversion.


Lemma actualizar_configuracion_moneda_lectura_aux (nom valor : string) (s : store) :
  get_configuracion_moneda nom (actualizar_configuracion_moneda nom valor s)
  = option_map (fun _ => valor) (get_configuracion_moneda nom s).
Proof.
  unfold get_configuracion_moneda, actualizar_configuracion_moneda. simpl.
  induction (configuracion_monedas s) as [|[k v] l IH]; simpl; [reflexivity|].
  destruct (String.eqb k nom) eqn:E; simpl; rewrite E; simpl;
    [reflexivity|exact IH].
Qed.

(** X16. [actualizar_configuracion_moneda] overwrites, it never
    creates: afterwards a lookup of the same name gives the new value
    exactly when the name had a row before, a name without a row still
    has none, and every other name reads as before. *)
Theorem actualizar_configuracion_moneda_lectura :
  forall (nom valor otro : string) (s : store),
    get_configuracion_moneda otro (actualizar_configuracion_moneda nom valor s)
    = if String.eqb otro nom
      then option_map (fun _ => valor) (get_configuracion_moneda otro s)
      else get_configuracion_moneda otro s.
Proof.
  intros nom valor otro s.
  unfold get_configuracion_moneda, actualizar_configuracion_moneda. simpl.
  rewrite (String.eqb_sym otro nom).
  induction (configuracion_monedas s) as [|[k v] l IH]; simpl.
  - destruct (String.eqb nom otro); reflexivity.
  - destruct (String.eqb_spec k nom) as [E1|E1]; simpl.
    + subst k. destruct (String.eqb nom otro) eqn:E2; [reflexivity|exact IH].
    + destruct (String.eqb_spec k otro) as [E2|E2]; [|exact IH].
      subst k. destruct (String.eqb_spec nom otro) as [E3|E3];
        [subst; contradiction|reflexivity].
Qed.


Lemma configuracion_o_no_vacia (nom default : string) (s : store) :
  string_nonempty default = true ->
  string_nonempty (configuracion_o nom default s) = true.
Proof.
  intros H. unfold configuracion_o.
  destruct (get_configuracion_moneda nom s) as [v|]; [|exact H].
  destruct (string_nonempty v) eqn:E; [exact E|exact H].
Qed.

Lemma truthy_de_positivo (x : Q) : Qpos_bool x = true -> truthy x = true.
Proof.
  intros H. apply Qpos_bool_true in H. unfold truthy.
  apply negb_true_iff. destruct (Qeq_bool x 0) eqn:E; [|reflexivity].
  apply Qeq_bool_eq in E. rewrite E in H. now elim (Qlt_irrefl 0).
Qed.

Section Monedas.
Context {FT : FloatText}.

(** X18. When the rate can be read, [get_monedas_activas] lists the
    local currency first and always, and the foreign currency after it
    exactly when the rate is positive; neither symbol is ever empty,
    a missing or empty symbol row being replaced by its default. *)
Theorem get_monedas_activas_lista :
  forall (s : store) (tasa : Q),
    get_tasa_cambio s = inr tasa ->
    exists simbolo_ves simbolo_usd,
      string_nonempty simbolo_ves = true /\
      string_nonempty simbolo_usd = true /\
      get_monedas_activas s
      = inr (("VES", simbolo_ves)%string ::
             if Qpos_bool tasa then [("USD", simbolo_usd)%string] else []).
Proof.
  intros s tasa Ht.
  exists (configuracion_o "simbolo_ves" "Bs." s),
         (configuracion_o "simbolo_usd" "$" s).
  split; [now apply configuracion_o_no_vacia|].
  split; [now apply configuracion_o_no_vacia|].
  unfold get_monedas_activas. rewrite Ht. cbv zeta.
  destruct (Qpos_bool tasa) eqn:E.
  - now rewrite (truthy_de_positivo _ E).
  - now rewrite andb_false_r.
Qed.

End Monedas.

Lemma get_monedas_activas_lista_witness :
  exists simbolo_ves simbolo_usd,
    string_nonempty simbolo_ves = true /\
    string_nonempty simbolo_usd = true /\
    @get_monedas_activas texto_racional store_inicial
    = inr (("VES", simbolo_ves)%string ::
           if Qpos_bool 36.50 then [("USD", simbolo_usd)%string] else []).
Proof.
  apply (@get_monedas_activas_lista texto_racional store_inicial 36.50).
  vm_compute. reflexivity.
Defined.

(** ** The sale route *)

Lemma registrar_pagos_filas (venta_id : Z) (l : list pago) :
  forall s,
    fst (registrar_pagos venta_id l s) = inr tt /\
    exists nuevos,
      pagos_documentos (snd (registrar_pagos venta_id l s))
      = pagos_documentos s ++ nuevos /\
      Forall (fun f => pd_venta_id f = venta_id) nuevos /\
      map pd_monto_pagado nuevos = map monto_de_pago l /\
      ventas (snd (registrar_pagos venta_id l s)) = ventas s /\
      productos (snd (registrar_pagos venta_id l s)) = productos s.
Proof.
  induction l as [|pg r IH]; intros s.
  - split; [reflexivity|]. exists []. simpl. rewrite app_nil_r.
    repeat split. constructor.
  - cbn [registrar_pagos]. unfold registrar_pago_documento, transaccion.
    cbv zeta.
    match goal with
    | |- context [registrar_pagos venta_id r ?s1] =>
        destruct (IH s1) as [Hok [n [Hn [Hv [Hm [Hve Hpr]]]]]]
    end.
    split; [exact Hok|].
    eexists (_ :: n). rewrite Hn, Hve, Hpr. simpl. rewrite <- app_assoc.
    split; [reflexivity|]. split; [constructor; [reflexivity|exact Hv]|].
    split; [now rewrite Hm|]. split; reflexivity.
Qed.



(** X20. A sale request with at least one line, all lines naming
    existing products, is answered with success and the new sale id;
    one sale header is appended, and one payment row per entry of the
    request's payments is appended, in order, each carrying the new
    sale id and the amount of its entry. *)
Theorem api_crear_venta_registra_pagos :
  forall (data : datos_venta) (s : store),
    req_items data <> [] ->
    (forall item, In item (req_items data) ->
                  select_producto (iv_producto_id item) s <> None) ->
    exists s' cabecera nuevos,
      api_crear_venta data s = (respuesta_ok (Some (seq_ventas s + 1)%Z), s') /\
      ventas s' = ventas s ++ [cabecera] /\
      v_id cabecera = (seq_ventas s + 1)%Z /\
      pagos_documentos s' = pagos_documentos s ++ nuevos /\
      Forall (fun f => pd_venta_id f = (seq_ventas s + 1)%Z) nuevos /\
      map pd_monto_pagado nuevos = map monto_de_pago (req_pagos data).
Proof.
  intros data s Hne Hall. unfold api_crear_venta.
  destruct (req_items data) as [|i r] eqn:Ei; [now elim Hne|].
  match goal with
  | |- context [crear_venta ?a ?b ?c ?d ?e ?f s] =>
      assert (Hv : exists s1 h,
                crear_venta a b c d e f s = (inr (seq_ventas s + 1)%Z, s1) /\
                ventas s1 = ventas s ++ [h] /\ v_id h = (seq_ventas s + 1)%Z /\
                pagos_documentos s1 = pagos_documentos s)
  end.
  { unfold crear_venta, transaccion, bind.
    cbv beta zeta. unfold insert_venta at 1. cbv beta zeta.
    match goal with
    | |- context [for_each (venta_item ?v) ?l ?s0] =>
        destruct (for_each_venta_existe v l s0) as [s1 [Hrun _]];
          [exact Hall|];
        destruct (for_each_venta_filas v l s0 s1 Hrun) as [_ [Hve _]];
        assert (Hpg : respeta (fun a b => pagos_documentos b = pagos_documentos a)
                        (for_each (venta_item v) l))
    end.
    { apply respeta_for_each; [reflexivity|intros; congruence|].
      intros x t u t' Hx. destruct (venta_item_inv _ _ _ _ _ Hx) as [q [_ ->]].
      reflexivity. }
    rewrite Hrun. eexists s1, _. split; [reflexivity|].
    split; [exact Hve|]. split; [reflexivity|].
    exact (Hpg _ _ _ Hrun). }
  destruct Hv as [s1 [h [Hrun [Hve [Hid Hpg]]]]]. rewrite Hrun.
  destruct (registrar_pagos_filas (seq_ventas s + 1) (req_pagos data) s1)
    as [Hok [n [Hn [Hf [Hm [Hve2 _]]]]]].
  destruct (registrar_pagos (seq_ventas s + 1) (req_pagos data) s1)
    as [[e1|u] s2]; simpl in *; [discriminate Hok|].
  exists s2, h, n. split; [reflexivity|].
  rewrite Hve2, Hn, Hpg. repeat split; assumption.
Qed.

Lemma api_crear_venta_registra_pagos_witness :
  exists s' cabecera nuevos,
    api_crear_venta
      {| req_items :=
           [ {| iv_producto_id := 1; iv_cantidad := 2;
                iv_precio_unitario := 400 |} ];
         req_cliente_id := None; req_metodo_pago := None;
         req_descuento := None; req_impuesto := None; req_notas := None;
         req_pagos :=
           [ {| pg_numero_documento := None; pg_tipo_pago := None;
                pg_monto_pagado := Some 500; pg_moneda_pago := Some "VES"%string;
                pg_tasa_cambio := Some 40; pg_detalles := "{}" |};
             {| pg_numero_documento := None; pg_tipo_pago := None;
                pg_monto_pagado := Some 7.5; pg_moneda_pago := None;
                pg_tasa_cambio := None; pg_detalles := "{}" |} ] |} store_demo
    = (respuesta_ok (Some 1%Z), s') /\
    ventas s' = [cabecera] /\
    v_id cabecera = 1%Z /\
    pagos_documentos s' = nuevos /\
    Forall (fun f => pd_venta_id f = 1%Z) nuevos /\
    map pd_monto_pagado nuevos = [500; 7.5].
Proof.
  apply (api_crear_venta_registra_pagos
    {| req_items :=
         [ {| iv_producto_id := 1; iv_cantidad := 2;
              iv_precio_unitario := 400 |} ];
       req_cliente_id := None; req_metodo_pago := None;
       req_descuento := None; req_impuesto := None; req_notas := None;
       req_pagos :=
         [ {| pg_numero_documento := None; pg_tipo_pago := None;
              pg_monto_pagado := Some 500; pg_moneda_pago := Some "VES"%string;
              pg_tasa_cambio := Some 40; pg_detalles := "{}" |};
           {| pg_numero_documento := None; pg_tipo_pago := None;
              pg_monto_pagado := Some 7.5; pg_moneda_pago := None;
              pg_tasa_cambio := None; pg_detalles := "{}" |} ] |} store_demo).
  - discriminate.
  - intros item [<-|[]]. vm_compute. discriminate.
Defined.

(** ** The product routes *)

Lemma map_update_sin_fila (pid : Z) (g : producto -> producto) (l : list producto) :
  find (fun p => Z.eqb (id p) pid) l = None ->
  map (fun p => if Z.eqb (id p) pid then g p else p) l = l.
Proof.
  induction l as [|p r IH]; simpl; [reflexivity|].
  destruct (Z.eqb (id p) pid); [discriminate|].
  intros H. now rewrite IH.
Qed.

Lemma update_producto_sin_fila (pid : Z) (g : producto -> producto) (s : store) :
  select_producto pid s = None -> update_producto pid g s = s.
Proof.
  unfold select_producto, update_producto, set_productos. intros H.
  rewrite (map_update_sin_fila pid g _ H). destruct s; reflexivity.
Qed.

Section RutasProductoExtra.
Context {FT : FloatText}.

(** X21. Updating or soft-deleting a product key that has no row is
    answered with success and changes nothing (the update, provided the
    rate can be read). *)
Theorem api_producto_sin_fila :
  forall (producto_id : Z) (data : datos_producto) (s : store) (tasa : Q),
    select_producto producto_id s = None ->
    get_tasa_cambio s = inr tasa ->
    api_producto_put producto_id data s = (respuesta_ok None, s) /\
    api_producto_delete producto_id s = (respuesta_ok None, s).
Proof.
  intros producto_id data s tasa Hnone Ht. split.
  - unfold api_producto_put, transaccion, bind, consulta.
    rewrite Ht, Hnone. reflexivity.
  - unfold api_producto_delete. now rewrite update_producto_sin_fila.
Qed.

(** X22. Updating an existing product with a barcode that another row
    carries is answered with the UNIQUE-constraint failure and changes
    nothing; the product's own barcode is not in its way. *)
Theorem api_producto_put_codigo_repetido :
  forall (producto_id : Z) (data : datos_producto) (s : store) (tasa : Q)
         (c : string) (otro : producto),
    select_producto producto_id s <> None ->
    get_tasa_cambio s = inr tasa ->
    texto_o_none (d_codigo_barras data) = Some c ->
    In otro (productos s) ->
    id otro <> producto_id ->
    codigo_barras otro = Some c ->
    api_producto_put producto_id data s
    = (respuesta_error "UNIQUE constraint failed: productos.codigo_barras", s).
Proof.
  intros producto_id data s tasa c otro Hex Ht Hc Hin Hne Hcod.
  unfold api_producto_put, transaccion, bind, consulta.
  rewrite Ht. destruct (select_producto producto_id s); [|now elim Hex].
  rewrite Hc.
  rewrite (codigo_en_uso_true c (Some producto_id) s otro Hin Hcod).
  - reflexivity.
  - intros pid E. inversion E; subst. exact Hne.
Qed.

(** X23. A product created through the route, on a store with sound
    keys, with a readable rate and a barcode no row carries, gets the
    next key; its local sell price is [round(foreign price * current
    rate, 2)], its foreign purchase cost is absent when the request's
    cost is 0 or missing, and its recorded derivation rate is the
    schema default 36.50 whatever the current rate is. *)
Theorem api_crear_producto_alta :
  forall (data : datos_producto) (s : store) (tasa : Q),
    ids_acotados s ->
    get_tasa_cambio s = inr tasa ->
    codigo_en_uso (texto_o_none (d_codigo_barras data)) None s = false ->
    exists s' p,
      api_crear_producto data s
      = (respuesta_ok (Some (seq_productos s + 1)%Z), s') /\
      select_producto (seq_productos s + 1) s' = Some p /\
      precio_venta_usd p = Some (o_default 0 (d_precio_venta_usd data)) /\
      precio_venta p = py_round2 (o_default 0 (d_precio_venta_usd data) * tasa) /\
      precio_compra_usd p = num_or_none (o_default 0 (d_precio_compra_usd data)) /\
      tasa_camb p = 36.50 /\
      activo p = true /\
      stock_actual p = o_default 0 (d_stock_actual data) /\
      movimientos_inventario s'
      = movimientos_inventario s ++
        (if Qpos_bool (o_default 0 (d_stock_actual data))
         then [movimiento_stock_inicial (seq_productos s + 1)
                 (o_default 0 (d_stock_actual data))]
         else []).
Proof.
  intros data s tasa Hids Ht Hlibre.
  unfold api_crear_producto, transaccion, bind, consulta.
  rewrite Ht. unfold precios_de_datos. cbv zeta.
  unfold insert_producto at 1. cbn [codigo_barras]. rewrite Hlibre.
  destruct (Qpos_bool (o_default 0 (d_stock_actual data))); simpl;
    eexists _, _; (split; [reflexivity|]);
    (split; [unfold select_producto; simpl;
             apply (select_producto_nuevo s); [exact Hids|reflexivity]|]);
    simpl; rewrite ?app_nil_r; repeat split.
Qed.

End RutasProductoExtra.

Lemma api_producto_sin_fila_witness :
  @api_producto_put texto_racional 9 datos_demo store_demo
  = (respuesta_ok None, store_demo) /\
  api_producto_delete 9 store_demo = (respuesta_ok None, store_demo).
Proof.
  apply (@api_producto_sin_fila texto_racional 9 datos_demo store_demo 36.50).
  - reflexivity.
  - vm_compute. reflexivity.
Defined.

Lemma api_producto_put_codigo_repetido_witness :
  @api_producto_put texto_racional 2 datos_demo store_dos_precios
  = (respuesta_error "UNIQUE constraint failed: productos.codigo_barras",
     store_dos_precios).
Proof.
  apply (@api_producto_put_codigo_repetido texto_racional 2 datos_demo
           store_dos_precios 36.50 "123" producto_demo).
  - vm_compute. discriminate.
  - vm_compute. reflexivity.
  - reflexivity.
  - left. reflexivity.
  - simpl. lia.
  - reflexivity.
Defined.

Lemma api_crear_producto_alta_witness :
  exists s' p,
    @api_crear_producto texto_racional
      {| d_codigo_barras := Some " 777 "%string; d_nombre := Some "R"%string;
         d_descripcion := None; d_categoria_id := None;
         d_precio_venta_usd := Some 10; d_precio_compra_usd := None;
         d_stock_actual := Some 4; d_stock_minimo := None;
         d_vende_al_mayor := false; d_unidades_por_bulto := None |}
      (@actualizar_tasa_cambio texto_racional 40 store_catalogo)
    = (respuesta_ok (Some 3%Z), s') /\
    select_producto 3 s' = Some p /\
    precio_venta_usd p = Some 10 /\
    precio_venta p = py_round2 (10 * 40) /\
    precio_compra_usd p = None /\
    tasa_camb p = 36.50 /\
    activo p = true /\
    stock_actual p = 4 /\
    movimientos_inventario s' = [movimiento_stock_inicial 3 4].
Proof.
  apply (@api_crear_producto_alta texto_racional
    {| d_codigo_barras := Some " 777 "%string; d_nombre := Some "R"%string;
       d_descripcion := None; d_categoria_id := None;
       d_precio_venta_usd := Some 10; d_precio_compra_usd := None;
       d_stock_actual := Some 4; d_stock_minimo := None;
       d_vende_al_mayor := false; d_unidades_por_bulto := None |}
    (@actualizar_tasa_cambio texto_racional 40 store_catalogo) 40).
  - split; simpl.
    + repeat constructor; simpl; lia.
    + repeat constructor; simpl; intuition discriminate.
  - vm_compute. reflexivity.
  - vm_compute. reflexivity.
Defined.

(** ** Sales and purchases one after the other *)



(** X24. A soft-deleted product can still be sold: after the delete
    route, a sale naming the product commits and takes its quantity off
    the product's stock like any other sale. *)
Theorem venta_de_producto_inactivo :
  forall (producto_id : Z) (cantidad precio : Q) (cliente : option Z)
         (metodo : string) (desc imp : Q) (nota : string) (s : store) (q : Q),
    select_stock_actual producto_id s = Some q ->
    let s0 := snd (api_producto_delete producto_id s) in
    exists s' q',
      crear_venta
        [ {| iv_producto_id := producto_id; iv_cantidad := cantidad;
             iv_precio_unitario := precio |} ]
        cliente metodo desc imp nota s0
      = (inr (seq_ventas s + 1)%Z, s') /\
      option_map activo (select_producto producto_id s') = Some false /\
      select_stock_actual producto_id s' = Some q' /\
      q' == q - cantidad.
Proof.
  intros producto_id cantidad precio cliente metodo desc imp nota s q Hq s0.
  assert (Hq0 : select_stock_actual producto_id s0 = Some q).
  { unfold s0. simpl. now rewrite select_stock_desactivado. }
  assert (Hact : option_map activo (select_producto producto_id s0) = Some false).
  { unfold s0. simpl. rewrite select_producto_update by reflexivity.
    unfold select_stock_actual in Hq.
    destruct (select_producto producto_id s) as [p|] eqn:E; [|discriminate].
    simpl. now rewrite (select_producto_id _ _ _ E), Z.eqb_refl. }
  unfold crear_venta, transaccion, bind.
  cbv beta zeta. unfold insert_venta at 1. cbv beta zeta.
  cbn [for_each]. unfold bind.
  match goal with
  | |- context [venta_item ?v ?it ?t] =>
      rewrite (venta_item_existe v it t q) by exact Hq0
  end.
  unfold ret. eexists _, _. split; [reflexivity|].
  split; [|split].
  - unfold tras_venta_item.
    change (select_producto producto_id (insert_movimiento ?m ?t))
      with (select_producto producto_id t).
    unfold update_stock. rewrite select_producto_update by reflexivity.
    cbn [iv_producto_id].
    change (select_producto producto_id (insert_detalle_venta ?d ?t))
      with (select_producto producto_id t).
    match goal with
    | |- option_map activo (option_map ?f (select_producto producto_id ?t))
         = Some false =>
        change (select_producto producto_id t)
          with (select_producto producto_id s0);
        destruct (select_producto producto_id s0) as [p|] eqn:E;
          [|discriminate Hact]
    end.
    simpl in *. rewrite (select_producto_id _ _ _ E), Z.eqb_refl. exact Hact.
  - rewrite select_stock_tras_venta_item. cbn [iv_producto_id iv_cantidad].
    rewrite Z.eqb_refl.
    match goal with
    | |- option_map _ (select_stock_actual producto_id ?t) = _ =>
        change (select_stock_actual producto_id t)
          with (select_stock_actual producto_id s0)
    end.
    rewrite Hq0. reflexivity.
  - reflexivity.
Qed.

Lemma venta_de_producto_inactivo_witness :
  exists s' q',
    crear_venta
      [ {| iv_producto_id := 1; iv_cantidad := 2; iv_precio_unitario := 400 |} ]
      None "efectivo" 0 0 "" (snd (api_producto_delete 1 store_demo))
    = (inr 1%Z, s') /\
    option_map activo (select_producto 1 s') = Some false /\
    select_stock_actual 1 s' = Some q' /\
    q' == 5 - 2.
Proof.
  apply (venta_de_producto_inactivo 1 2 400 None "efectivo" 0 0 "" store_demo 5).
  reflexivity.
Defined.



(** ** The stock adjustment *)

(** X26. [actualizar_stock_producto] on a product without a row raises
    the not-found exception naming the id and changes nothing.  On an
    existing product it returns the new stock, before + quantity, sets
    the product's stock to it, leaves every other product's stock
    alone, and appends one movement row of kind ['entrada'] with that
    quantity (also when the quantity is negative), the before and
    after values, and the reason and user passed in. *)
Theorem actualizar_stock_producto_ajuste :
  forall (producto_id : Z) (cantidad_sumar : Q) (motivo usuario : string)
         (s : store),
    (select_producto producto_id s = None ->
     actualizar_stock_producto producto_id cantidad_sumar motivo usuario s
     = (inl (Exception_msg
               ("Producto con id " ++ str_int producto_id ++ " no encontrado")%string),
        s)) /\
    (forall q,
       select_stock_actual producto_id s = Some q ->
       exists s',
         actualizar_stock_producto producto_id cantidad_sumar motivo usuario s
         = (inr (q + cantidad_sumar), s') /\
         select_stock_actual producto_id s' = Some (q + cantidad_sumar) /\
         (forall otro, otro <> producto_id ->
                       select_stock_actual otro s' = select_stock_actual otro s) /\
         movimientos_inventario s'
         = movimientos_inventario s ++
           [{| mi_producto_id := producto_id; mi_tipo_movimiento := entrada;
               mi_cantidad := cantidad_sumar; mi_cantidad_anterior := q;
               mi_cantidad_nueva := q + cantidad_sumar;
               mi_motivo := motivo; mi_usuario := usuario |}]).
Proof.
  intros producto_id cantidad_sumar motivo usuario s. split.
  - intros Hnone. apply select_stock_None in Hnone.
    unfold actualizar_stock_producto, transaccion, bind, consulta.
    now rewrite Hnone.
  - intros q Hq.
    unfold actualizar_stock_producto, transaccion, bind, consulta.
    rewrite Hq. simpl. eexists. split; [reflexivity|].
    split; [|split; [|reflexivity]].
    + change (select_stock_actual producto_id (insert_movimiento ?m ?t))
        with (select_stock_actual producto_id t).
      now rewrite select_stock_update_stock, Z.eqb_refl, Hq.
    + intros otro Hne.
      change (select_stock_actual otro (insert_movimiento ?m ?t))
        with (select_stock_actual otro t).
      rewrite select_stock_update_stock.
      apply Z.eqb_neq in Hne. now rewrite Hne.
Qed.

(** ** No orphan rows *)

Lemma referibles_refl (s : store) : referibles_crecen s s.
Proof. repeat split; auto. Qed.

Lemma referibles_trans (a b c : store) :
  referibles_crecen a b -> referibles_crecen b c -> referibles_crecen a c.
Proof.
  intros [A1 [A2 A3]] [B1 [B2 B3]]. repeat split; auto.
Qed.

Lemma paso_integro_refl (v c : option Z) (s : store) : paso_integro v c s s.
Proof. split; [apply referibles_refl|auto]. Qed.

Lemma paso_integro_trans (v c : option Z) (a b d : store) :
  paso_integro v c a b -> paso_integro v c b d -> paso_integro v c a d.
Proof.
  intros [M1 H1] [M2 H2]. split; [now apply referibles_trans with b|].
  intros Hv Hc Hs. apply H2; [| |now apply H1].
  - intros i Hi. destruct M1 as [_ [M _]]. apply M. now apply Hv.
  - intros i Hi. destruct M1 as [_ [_ M]]. apply M. now apply Hc.
Qed.

Lemma sin_huerfanos_paso (s s' : store)
    (nm : list movimiento) (nd : list detalle_venta) (nc : list detalle_compra) :
  referibles_crecen s s' ->
  movimientos_inventario s' = movimientos_inventario s ++ nm ->
  detalle_ventas s' = detalle_ventas s ++ nd ->
  detalle_compras s' = detalle_compras s ++ nc ->
  Forall (fun m => existe_producto s' (mi_producto_id m)) nm ->
  Forall (fun d => existe_producto s' (dv_producto_id d) /\
                   In (dv_venta_id d) (map v_id (ventas s'))) nd ->
  Forall (fun d => existe_producto s' (dc_producto_id d) /\
                   In (dc_compra_id d) (map c_id (compras s'))) nc ->
  sin_huerfanos s -> sin_huerfanos s'.
Proof.
  intros [M1 [M2 M3]] Em Ed Ec Fm Fd Fc [S1 [S2 S3]].
  unfold sin_huerfanos. rewrite Em, Ed, Ec. repeat split; apply Forall_app; split;
    try assumption.
  - eapply Forall_impl; [|exact S1]. intros m Hm. now apply M1.
  - eapply Forall_impl; [|exact S2]. intros d [Hp Hv]. split; auto.
  - eapply Forall_impl; [|exact S3]. intros d [Hp Hv]. split; auto.
Qed.

Lemma existe_update_producto (pid pid' : Z) (f : producto -> producto) (s : store) :
  (forall p, id (f p) = id p) ->
  existe_producto s pid -> existe_producto (update_producto pid' f s) pid.
Proof.
  intros Hf H. unfold existe_producto in *.
  rewrite select_producto_update by exact Hf.
  destruct (select_producto pid s); [discriminate|now elim H].
Qed.

Lemma referibles_update_producto (pid : Z) (f : producto -> producto) (s : store) :
  (forall p, id (f p) = id p) ->
  referibles_crecen s (update_producto pid f s).
Proof.
  intros Hf. split; [|split; auto].
  intros p. now apply existe_update_producto.
Qed.

Lemma referibles_map (g : producto -> producto) (s : store) :
  (forall p, id (g p) = id p) ->
  referibles_crecen s (set_productos (map g) s).
Proof.
  intros Hg. split; [|split; auto].
  intros pid H. unfold existe_producto, select_producto in *. simpl.
  rewrite find_map_id by exact Hg.
  destruct (find _ (productos s)); [discriminate|now elim H].
Qed.

Lemma referibles_ajeno (s s' : store) :
  productos s' = productos s ->
  (exists n, ventas s' = ventas s ++ n) ->
  (exists n, compras s' = compras s ++ n) ->
  referibles_crecen s s'.
Proof.
  intros Hp [nv Hv] [nc Hc]. split; [|split].
  - intros pid. unfold existe_producto, select_producto. now rewrite Hp.
  - intros v H. rewrite Hv, map_app. apply in_or_app. now left.
  - intros c H. rewrite Hc, map_app. apply in_or_app. now left.
Qed.

Lemma paso_integro_venta_item (v : Z) (c : option Z) (item : item_venta) :
  respeta (paso_integro (Some v) c) (venta_item v item).
Proof.
  intros s u s1 H. destruct (venta_item_inv _ _ _ _ _ H) as [q [Hq ->]].
  assert (Hm : referibles_crecen s (tras_venta_item v item q s)).
  { unfold tras_venta_item.
    apply referibles_trans with
      (insert_detalle_venta (detalle_de_venta v item) s).
    - apply referibles_ajeno; [reflexivity|apply prefijo_refl|apply prefijo_refl].
    - apply referibles_trans with
        (update_stock (iv_producto_id item) (q - iv_cantidad item)
           (insert_detalle_venta (detalle_de_venta v item) s)).
      + apply referibles_update_producto. reflexivity.
      + apply referibles_ajeno; [reflexivity|apply prefijo_refl|apply prefijo_refl]. }
  split; [exact Hm|]. intros Hv _ Hs.
  assert (Hex : existe_producto (tras_venta_item v item q s) (iv_producto_id item)).
  { destruct Hm as [M _]. apply M. unfold existe_producto.
    intros E. apply select_stock_None in E. congruence. }
  apply (sin_huerfanos_paso s _
           [movimiento_venta v item q (q - iv_cantidad item)]
           [detalle_de_venta v item] []);
    [ exact Hm | reflexivity | reflexivity | simpl; now rewrite app_nil_r
    | repeat constructor; exact Hex
    | repeat constructor; [exact Hex|simpl; now apply Hv]
    | constructor
    | exact Hs ].
Qed.

Lemma paso_integro_compra_item (v : option Z) (c : Z) (tasa : Q) (it : item_compra) :
  respeta (paso_integro v (Some c)) (compra_item c tasa it).
Proof.
  intros s u s1 H. destruct (compra_item_inv _ _ _ _ _ _ H) as [q [Hq ->]].
  assert (Hm : referibles_crecen s (tras_compra_item c tasa it q s)).
  { unfold tras_compra_item. cbv zeta.
    set (sa := insert_detalle_compra _ s).
    set (sb := update_producto (ic_producto_id it) _ sa).
    set (sc := update_stock (ic_producto_id it) _ sb).
    apply referibles_trans with sa;
      [apply referibles_ajeno;
         [reflexivity|apply prefijo_refl|apply prefijo_refl]|].
    apply referibles_trans with sb;
      [apply referibles_update_producto; reflexivity|].
    apply referibles_trans with sc;
      [apply referibles_update_producto; reflexivity|].
    apply referibles_ajeno; [reflexivity|apply prefijo_refl|apply prefijo_refl]. }
  split; [exact Hm|]. intros _ Hc Hs.
  assert (Hex : existe_producto (tras_compra_item c tasa it q s) (ic_producto_id it)).
  { destruct Hm as [M _]. apply M. unfold existe_producto.
    intros E. apply select_stock_None in E. congruence. }
  apply (sin_huerfanos_paso s _
           [movimiento_compra c it q (q + ic_cantidad it)]
           [] [detalle_de_compra c tasa it]);
    [ exact Hm | reflexivity | simpl; now rewrite app_nil_r | reflexivity
    | repeat constructor; exact Hex
    | constructor
    | repeat constructor; [exact Hex|simpl; now apply Hc]
    | exact Hs ].
Qed.

Lemma integro_ajeno (v c : option Z) (s s' : store) :
  referibles_crecen s s' ->
  movimientos_inventario s' = movimientos_inventario s ->
  detalle_ventas s' = detalle_ventas s ->
  detalle_compras s' = detalle_compras s ->
  paso_integro v c s s'.
Proof.
  intros Hm Em Ed Ec. split; [exact Hm|]. intros _ _ Hs.
  apply (sin_huerfanos_paso s s' [] [] []); try assumption;
    try (now rewrite app_nil_r); constructor.
Qed.

Lemma integro_con_movimiento (s s1 : store) (m : movimiento) :
  referibles_crecen s s1 ->
  movimientos_inventario s1 = movimientos_inventario s ->
  detalle_ventas s1 = detalle_ventas s ->
  detalle_compras s1 = detalle_compras s ->
  existe_producto s1 (mi_producto_id m) ->
  paso_integro None None s (insert_movimiento m s1).
Proof.
  intros Hm Em Ed Ec Hex.
  assert (Hm' : referibles_crecen s (insert_movimiento m s1)).
  { apply referibles_trans with s1; [exact Hm|].
    apply referibles_ajeno; [reflexivity|apply prefijo_refl|apply prefijo_refl]. }
  split; [exact Hm'|]. intros _ _ Hs.
  apply (sin_huerfanos_paso s _ [m] [] []);
    [ exact Hm' | simpl; now rewrite Em | simpl; now rewrite Ed, app_nil_r
    | simpl; now rewrite Ec, app_nil_r
    | repeat constructor; exact Hex | constructor | constructor | exact Hs ].
Qed.

Lemma integro_insert_producto (fila : Z -> producto) (s s1 : store) (pid : Z) :
  (forall i, id (fila i) = i) ->
  insert_producto fila s = inr (pid, s1) ->
  referibles_crecen s s1 /\
  movimientos_inventario s1 = movimientos_inventario s /\
  detalle_ventas s1 = detalle_ventas s /\
  detalle_compras s1 = detalle_compras s /\
  existe_producto s1 pid.
Proof.
  intros Hid H. unfold insert_producto in H.
  destruct (codigo_en_uso _ _ _); [discriminate|]. inversion H; subst. clear H.
  split; [|repeat split].
  - split; [|split; auto]. intros p Hp.
    unfold existe_producto, select_producto in *. simpl.
    destruct (find _ (productos s)) as [x|] eqn:E; [|now elim Hp].
    now rewrite (find_app_some _ _ _ _ E).
  - unfold existe_producto, select_producto. simpl.
    destruct (find (fun p => Z.eqb (id p) (seq_productos s + 1)) (productos s))
      as [x|] eqn:E.
    + rewrite (find_app_some _ _ _ _ E). discriminate.
    + rewrite (find_app_none _ _ _ E). simpl. rewrite Hid, Z.eqb_refl.
      discriminate.
Qed.

Lemma crear_venta_integro i c m d im n (s : store) :
  paso_integro None None s (snd (crear_venta i c m d im n s)).
Proof.
  unfold crear_venta, transaccion, bind.
  cbv beta zeta. unfold insert_venta at 1. cbv beta zeta.
  match goal with
  | |- context [for_each (venta_item ?v) i ?s0] =>
      set (sv := s0); set (vid := v);
      assert (H0 : paso_integro None None s sv);
      [|assert (Hv : In vid (map v_id (ventas sv)));
        [|pose proof (respeta_for_each _ (paso_integro_refl (Some vid) None)
                        (paso_integro_trans (Some vid) None)
                        (venta_item vid) i
                        (paso_integro_venta_item vid None)) as Hloop;
          destruct (for_each (venta_item vid) i sv) as [e|[u s']] eqn:E]]
  end.
  - apply integro_ajeno; try reflexivity.
    apply referibles_ajeno; [reflexivity|eexists; reflexivity|apply prefijo_refl].
  - unfold sv. simpl. rewrite map_app. apply in_or_app. right. now left.
  - simpl. apply paso_integro_refl.
  - simpl. destruct (Hloop _ _ _ E) as [M1 S1]. destruct H0 as [M0 S0].
    split; [now apply referibles_trans with sv|].
    intros _ _ Hs. apply S1.
    + intros j Hj. inversion Hj; subst. exact Hv.
    + discriminate.
    + apply S0; [discriminate|discriminate|exact Hs].
Qed.

Lemma crear_compra_integro p d f t i n (s : store) :
  paso_integro None None s (snd (crear_compra p d f t i n s)).
Proof.
  unfold crear_compra, transaccion, bind.
  cbv beta zeta. unfold insert_compra at 1. cbv beta zeta.
  match goal with
  | |- context [for_each (compra_item ?v t) i ?s0] =>
      set (sv := s0); set (cid := v);
      assert (H0 : paso_integro None None s sv);
      [|assert (Hv : In cid (map c_id (compras sv)));
        [|pose proof (respeta_for_each _ (paso_integro_refl None (Some cid))
                        (paso_integro_trans None (Some cid))
                        (compra_item cid t) i
                        (paso_integro_compra_item None cid t)) as Hloop;
          destruct (for_each (compra_item cid t) i sv) as [e|[u s']] eqn:E]]
  end.
  - apply integro_ajeno; try reflexivity.
    apply referibles_ajeno; [reflexivity|apply prefijo_refl|eexists; reflexivity].
  - unfold sv. simpl. rewrite map_app. apply in_or_app. right. now left.
  - simpl. apply paso_integro_refl.
  - simpl. destruct (Hloop _ _ _ E) as [M1 S1]. destruct H0 as [M0 S0].
    split; [now apply referibles_trans with sv|].
    intros _ _ Hs. apply S1.
    + discriminate.
    + intros j Hj. inversion Hj; subst. exact Hv.
    + apply S0; [discriminate|discriminate|exact Hs].
Qed.

Lemma registrar_pago_integro v n t m mo ta d (s : store) :
  paso_integro None None s (snd (registrar_pago_documento v n t m mo ta d s)).
Proof.
  unfold registrar_pago_documento, transaccion. cbv zeta. simpl.
  apply integro_ajeno; try reflexivity.
  apply referibles_ajeno; [reflexivity|apply prefijo_refl|apply prefijo_refl].
Qed.

Section Integridad.
Context {FT : FloatText}.

Lemma ejecutar_integro (op : operacion) (s : store) :
  paso_integro None None s (ejecutar op s).
Proof.
  destruct op; cbn [ejecutar].
  - apply crear_venta_integro.
  - unfold api_crear_venta. destruct (req_items data) as [|i r];
      [apply paso_integro_refl|].
    match goal with
    | |- context [crear_venta ?a ?b ?c ?d ?e ?f s] =>
        pose proof (crear_venta_integro a b c d e f s) as H;
        destruct (crear_venta a b c d e f s) as [[e0|v] s1]; simpl in H
    end; [exact H|].
    assert (Hp : paso_integro None None s1
                   (snd (registrar_pagos v (req_pagos data) s1))).
    { apply (registrar_pagos_respeta _ (paso_integro_refl None None)
               (paso_integro_trans None None)).
      intros. apply registrar_pago_integro. }
    destruct (registrar_pagos v (req_pagos data) s1) as [[e0|u] s2];
      simpl in *; eapply paso_integro_trans; eassumption.
  - apply crear_compra_integro.
  - unfold agregar_producto, transaccion, bind.
    match goal with
    | |- context [insert_producto ?f s] =>
        destruct (insert_producto f s) as [e|[pid s1]] eqn:E
    end.
    + destruct e; apply paso_integro_refl.
    + pose proof (fun Hid => integro_insert_producto _ _ _ _ Hid E) as HI.
      destruct (HI (fun i => eq_refl)) as [Hm [Em [Ed [Ec Hex]]]].
      destruct (Qpos_bool stock_inicial); simpl.
      * now apply integro_con_movimiento.
      * now apply integro_ajeno.
  - unfold api_crear_producto, transaccion, bind, consulta.
    destruct (get_tasa_cambio s) as [e|tasa]; [apply paso_integro_refl|].
    destruct (precios_de_datos data tasa) as [[pv pcu] pcv].
    match goal with
    | |- context [insert_producto ?f s] =>
        destruct (insert_producto f s) as [e|[pid s1]] eqn:E
    end.
    + apply paso_integro_refl.
    + pose proof (fun Hid => integro_insert_producto _ _ _ _ Hid E) as HI.
      destruct (HI (fun i => eq_refl)) as [Hm [Em [Ed [Ec Hex]]]]. cbv zeta.
      destruct (Qpos_bool (o_default 0 (d_stock_actual data))); simpl.
      * now apply integro_con_movimiento.
      * now apply integro_ajeno.
  - unfold actualizar_stock_producto, transaccion, bind, consulta.
    destruct (select_stock_actual producto_id s) as [q|] eqn:E; simpl;
      [|apply paso_integro_refl].
    apply integro_con_movimiento; try reflexivity.
    + apply referibles_update_producto. reflexivity.
    + simpl. apply existe_update_producto; [reflexivity|].
      unfold existe_producto. intros Hn. apply select_stock_None in Hn.
      congruence.
  - unfold api_producto_put, transaccion, bind, consulta.
    destruct (get_tasa_cambio s) as [e|tasa]; [apply paso_integro_refl|].
    destruct (select_producto producto_id s) as [p|];
      [|apply paso_integro_refl].
    destruct (codigo_en_uso _ _ s); [apply paso_integro_refl|]. simpl.
    apply integro_ajeno; try reflexivity.
    apply referibles_update_producto. intro; reflexivity.
  - simpl. apply integro_ajeno; try reflexivity.
    apply referibles_update_producto. intro; reflexivity.
  - apply integro_ajeno; try reflexivity.
    change (referibles_crecen s
      (set_productos (map (recalcula_fila nueva_tasa))
         (actualizar_configuracion_moneda "tasa_usd_ves" (str_float nueva_tasa) s))).
    eapply referibles_trans; [|apply referibles_map; apply id_recalcula_fila].
    apply referibles_ajeno; [reflexivity|apply prefijo_refl|apply prefijo_refl].
  - apply registrar_pago_integro.
Qed.

(** X27. Every entry point keeps the tables free of orphans: if every
    movement row, sale line and purchase line names a product that has
    a row, and every line names a header that has a row, before the
    call, the same holds after it, although the connection never turns
    foreign-key enforcement on. *)
Theorem ejecutar_sin_huerfanos :
  forall (op : operacion) (s : store),
    sin_huerfanos s -> sin_huerfanos (ejecutar op s).
Proof.
  intros op s Hs. destruct (ejecutar_integro op s) as [_ H].
  apply H; [discriminate|discriminate|exact Hs].
Qed.

End Integridad.

Lemma ejecutar_sin_huerfanos_witness :
  sin_huerfanos
    (@ejecutar texto_racional
       (OpCrearCompra 1 "F-001" "2024-01-15" 40
          [ {| ic_producto_id := 1; ic_cantidad := 10;
               ic_precio_unitario_usd := Some 8 |} ] "")
       store_demo).
Proof.
  apply ejecutar_sin_huerfanos. repeat split; constructor.
Defined.

(** ** The rate route *)

Section RutaTasa.
Context {FT : FloatText}.

(** X28. The rate route never lets a rate that is zero, negative or
    missing reach the store: such a request is answered with "Tasa
    inválida" and changes nothing, so a positive rate in force stays in
    force; a positive rate is accepted and, once written, is the rate
    [get_tasa_cambio] returns.  Hence the rate read after any request
    is positive whenever the rate read before it was. *)
Theorem api_tasa_cambio_post_positiva :
  forall (tasa : option Q) (s : store) (t : Q),
    get_tasa_cambio s = inr t ->
    0 < t ->
    get_configuracion_moneda "tasa_usd_ves" s <> None ->
    (forall x, tasa = Some x ->
               string_nonempty (str_float x) = true /\
               float_str (str_float x) = Some x) ->
    (o_default 0 tasa <= 0 ->
     api_tasa_cambio_post tasa s = (respuesta_error "Tasa inválida", s)) /\
    exists t',
      get_tasa_cambio (snd (api_tasa_cambio_post tasa s)) = inr t' /\ 0 < t'.
Proof.
  intros tasa s t Ht Hpos Hrow Hrt. unfold api_tasa_cambio_post. cbv zeta.
  destruct (Qpos_bool (o_default 0 tasa)) eqn:E.
  - split.
    + intros Hle. apply Qpos_bool_false in Hle. congruence.
    + destruct tasa as [x|]; [|discriminate E]. simpl in *.
      destruct (Hrt x eq_refl) as [Hne Hfl].
      exists x. split; [|now apply Qpos_bool_true].
      unfold get_tasa_cambio.
      change (get_configuracion_moneda "tasa_usd_ves" (actualizar_tasa_cambio x s))
        with (get_configuracion_moneda "tasa_usd_ves"
                (actualizar_configuracion_moneda "tasa_usd_ves" (str_float x) s)).
      rewrite actualizar_configuracion_moneda_lectura_aux.
      destruct (get_configuracion_moneda "tasa_usd_ves" s); [|now elim Hrow].
      simpl. now rewrite Hne, Hfl.
  - split; [reflexivity|]. exists t. split; [exact Ht|exact Hpos].
Qed.

End RutaTasa.

Lemma api_tasa_cambio_post_positiva_witness :
  (o_default 0 (Some (-(5))) <= 0 ->
   @api_tasa_cambio_post texto_racional (Some (-(5))) store_dos_precios
   = (respuesta_error "Tasa inválida", store_dos_precios)) /\
  exists t',
    @get_tasa_cambio texto_racional
      (snd (@api_tasa_cambio_post texto_racional (Some (-(5))) store_dos_precios))
    = inr t' /\ 0 < t'.
Proof.
  apply (@api_tasa_cambio_post_positiva texto_racional (Some (-(5)))
           store_dos_precios 36.50).
  - vm_compute. reflexivity.
  - vm_compute. reflexivity.
  - vm_compute. discriminate.
  - intros x Hx. inversion Hx; subst. split; vm_compute; reflexivity.
Defined.

(** ** Users *)

Section Acceso.
Context {RS : Resumen}.

Lemma find_nombre_ausente (username : string) (f : usuario -> bool)
    (l : list usuario) :
  (forall u, f u = true -> String.eqb (u_username u) username = true) ->
  existsb (fun u => String.eqb (u_username u) username) l = false ->
  find f l = None.
Proof.
  intros Hf. induction l as [|u r IH]; simpl; [reflexivity|].
  intros H. apply orb_false_iff in H. destruct H as [H1 H2].
  destruct (f u) eqn:E; [|now apply IH].
  apply Hf in E. congruence.
Qed.

Lemma nombre_de_coincidencia (username h : string) (u : usuario) :
  (String.eqb (u_username u) username && String.eqb (u_password_hash u) h
   && u_activo u)%bool = true ->
  String.eqb (u_username u) username = true.
Proof.
  intros H. apply andb_true_iff in H. destruct H as [H _].
  apply andb_true_iff in H. now destruct H.
Qed.

(** X29. The life of a login.  When the user name is free,
    [crear_usuario] returns the next key, and from then on
    [validar_usuario] with the same name and password returns that
    user's key, name, full name and role, while any password with a
    different digest is refused; once the user is deactivated through
    the delete route, the right password is refused too.  When the
    name is taken, by an active or a deactivated user, [crear_usuario]
    raises the UNIQUE failure and leaves the table as it was. *)
Theorem crear_usuario_y_validar :
  forall (username password nombre_completo rol : string) (t : tabla_usuarios),
    (existsb (fun u => String.eqb (u_username u) username) (usuarios t) = true ->
     crear_usuario username password nombre_completo rol t
     = (inl (IntegrityError "UNIQUE constraint failed: usuarios.username"), t)) /\
    (existsb (fun u => String.eqb (u_username u) username) (usuarios t) = false ->
     exists t',
       crear_usuario username password nombre_completo rol t
       = (inr (seq_usuarios t + 1)%Z, t') /\
       validar_usuario username password t'
       = Some {| se_id := (seq_usuarios t + 1)%Z; se_username := username;
                 se_nombre_completo := nombre_completo; se_rol := rol |} /\
       (forall otra,
          sha256_hexdigest otra <> sha256_hexdigest password ->
          validar_usuario username otra t' = None) /\
       validar_usuario username password
         (api_usuario_delete (seq_usuarios t + 1) t') = None).
Proof.
  intros username password nombre_completo rol t. split.
  - intros H. unfold crear_usuario. now rewrite H.
  - intros H. unfold crear_usuario. rewrite H. cbv zeta.
    eexists. split; [reflexivity|].
    split; [|split].
    + unfold validar_usuario. simpl.
      rewrite find_app_none.
      * simpl. now rewrite !String.eqb_refl.
      * apply (find_nombre_ausente username); [apply nombre_de_coincidencia|exact H].
    + intros otra Hd. unfold validar_usuario. simpl.
      rewrite find_app_none.
      * simpl. rewrite String.eqb_refl. simpl.
        destruct (String.eqb_spec (sha256_hexdigest password)
                                  (sha256_hexdigest otra)) as [E|E];
          [now elim Hd|reflexivity].
      * apply (find_nombre_ausente username); [apply nombre_de_coincidencia|exact H].
    + unfold validar_usuario, api_usuario_delete. simpl.
      rewrite map_app. simpl. rewrite Z.eqb_refl.
      rewrite find_app_none.
      * simpl. now rewrite andb_false_r.
      * assert (Hn : forall l,
                  existsb (fun u => String.eqb (u_username u) username) l = false ->
                  existsb (fun u => String.eqb (u_username u) username)
                    (map (fun u =>
                       if Z.eqb (u_id u) (seq_usuarios t + 1)
                       then {| u_id := u_id u; u_username := u_username u;
                               u_password_hash := u_password_hash u;
                               u_nombre_completo := u_nombre_completo u;
                               u_rol := u_rol u; u_activo := false |}
                       else u) l) = false).
        { induction l as [|u r IH]; simpl; [reflexivity|].
          intros Hl. apply orb_false_iff in Hl. destruct Hl as [H1 H2].
          rewrite (IH H2).
          destruct (Z.eqb (u_id u) (seq_usuarios t + 1)); simpl; now rewrite H1. }
        apply (find_nombre_ausente username); [apply nombre_de_coincidencia|now apply Hn].
Qed.

End Acceso.

Lemma crear_usuario_y_validar_witness :
  exists t',
    @crear_usuario resumen_identidad "caja1" "clave" "Caja Uno" "cajero"
      (@usuarios_iniciales resumen_identidad) = (inr 2%Z, t') /\
    @validar_usuario resumen_identidad "caja1" "clave" t'
    = Some {| se_id := 2; se_username := "caja1";
              se_nombre_completo := "Caja Uno"; se_rol := "cajero" |} /\
    (forall otra,
       @sha256_hexdigest resumen_identidad otra
       <> @sha256_hexdigest resumen_identidad "clave" ->
       @validar_usuario resumen_identidad "caja1" otra t' = None) /\
    @validar_usuario resumen_identidad "caja1" "clave"
      (api_usuario_delete 2 t') = None.
Proof.
  exact (proj2 (@crear_usuario_y_validar resumen_identidad
                  "caja1" "clave" "Caja Uno" "cajero"
                  (@usuarios_iniciales resumen_identidad)) eq_refl).
Defined.

(** ** Categories *)

Lemma find_categoria_map (g : categoria -> categoria) (c : Z) (l : list categoria) :
  (forall k, cat_id (g k) = cat_id k) ->
  find (fun k => Z.eqb (cat_id k) c) (map g l)
  = option_map g (find (fun k => Z.eqb (cat_id k) c) l).
Proof.
  intros Hg. induction l as [|k r IH]; simpl; [reflexivity|].
  rewrite Hg. destruct (Z.eqb (cat_id k) c); [reflexivity|exact IH].
Qed.

Lemma categoria_de_eliminar (c : Z) (s : store) (p : producto) :
  categoria_de (eliminar_categoria c s) p = categoria_de s p.
Proof.
  unfold categoria_de, eliminar_categoria. simpl.
  destruct (categoria_id p) as [k|]; [|reflexivity].
  rewrite find_categoria_map
    by (intros x; destruct (Z.eqb (cat_id x) c); reflexivity).
  destruct (find _ (categorias s)) as [x|]; simpl; [|reflexivity].
  destruct (Z.eqb (cat_id x) c); reflexivity.
Qed.

Lemma filas_eliminar (c : Z) (s : store) (l : list producto) :
  filas (eliminar_categoria c s) l = filas s l.
Proof.
  unfold filas. apply map_ext. intros p. now rewrite categoria_de_eliminar.
Qed.

Lemma In_insertar_categoria (c x : categoria) (l : list categoria) :
  In x (insertar_categoria c l) <-> x = c \/ In x l.
Proof.
  induction l as [|d r IH]; simpl.
  - intuition.
  - destruct (String.leb (cat_nombre c) (cat_nombre d)); simpl; intuition.
Qed.

Lemma In_ordenar_categorias (x : categoria) (l : list categoria) :
  In x (fold_right insertar_categoria [] l) <-> In x l.
Proof.
  induction l as [|d r IH]; simpl; [reflexivity|].
  rewrite In_insertar_categoria, IH. intuition.
Qed.

(** X30. Soft-deleting a category takes it off the list of categories
    and changes nothing else a reader sees: products of that category
    keep its name in search rows and listings, and filtering the
    listing by that category still returns them. *)
Theorem eliminar_categoria_efecto :
  forall (categoria_id : Z) (s : store) (termino : string)
         (categoria : option Z) (activos_solo : bool),
    ~ In categoria_id (map fst (get_categorias (eliminar_categoria categoria_id s))) /\
    (forall otra nom,
       otra <> categoria_id ->
       (In (otra, nom) (get_categorias (eliminar_categoria categoria_id s)) <->
        In (otra, nom) (get_categorias s))) /\
    buscar_productos termino (eliminar_categoria categoria_id s)
    = buscar_productos termino s /\
    get_productos categoria activos_solo (eliminar_categoria categoria_id s)
    = get_productos categoria activos_solo s.
Proof.
  intros categoria_id s termino categoria activos_solo.
  assert (Hin : forall x,
            In x (filter cat_activo (categorias (eliminar_categoria categoria_id s)))
            <-> In x (filter cat_activo (categorias s)) /\ cat_id x <> categoria_id).
  { intros x. unfold eliminar_categoria. simpl. rewrite !filter_In, in_map_iff.
    split.
    - intros [[k [Hk Hink]] Hact]. destruct (Z.eqb (cat_id k) categoria_id) eqn:E.
      + subst x. discriminate.
      + subst x. apply Z.eqb_neq in E. now repeat split.
    - intros [[Hx Hact] Hne]. split; [|exact Hact]. exists x.
      apply Z.eqb_neq in Hne. rewrite Hne. now split. }
  split; [|split; [|split]].
  - unfold get_categorias. rewrite map_map. simpl. intros H.
    apply in_map_iff in H. destruct H as [x [Hx Hix]].
    apply In_ordenar_categorias, Hin in Hix. now destruct Hix.
  - intros otra nom Hne. unfold get_categorias. rewrite !in_map_iff. split.
    + intros [x [Hx Hix]]. exists x. split; [exact Hx|].
      apply In_ordenar_categorias. apply In_ordenar_categorias, Hin in Hix.
      now destruct Hix.
    + intros [x [Hx Hix]]. exists x. split; [exact Hx|].
      apply In_ordenar_categorias, Hin. split.
      * now apply In_ordenar_categorias.
      * inversion Hx; subst. exact Hne.
  - unfold buscar_productos.
    change (productos (eliminar_categoria categoria_id s)) with (productos s).
    now rewrite !filas_eliminar.
  - unfold get_productos.
    change (productos (eliminar_categoria categoria_id s)) with (productos s).
    now rewrite filas_eliminar.
Qed.
